(** * MCP-xjg: the line-delimited JSON-RPC tool servers

    A shallow embedding of the three server scripts of the repository
    ([xjg.py], [xavier.py], [xjg_backup.py]) and the properties of their
    protocol engine.

    - Python strings are sequences of Unicode code points ([pystr]).
    - A decoded JSON document is a Python value ([json]); a Python [dict]
      is an association list in insertion order.
    - What the scripts take from the interpreter, the standard library and
      the network ([json.loads], [repr], [urllib], [datetime]) is a field
      of the record [Runtime]; every statement holds for every runtime.
    - The body of the main loop runs in a monad that threads the global
      [initialized], collects what is written to standard output and what
      is fetched from the network, and propagates Python exceptions.
    - Diagnostics ([debug], written to standard error) are never parsed by
      the client and are left out of the trace; standard output is taken
      to accept every write. *)

From Stdlib Require Import List String Ascii Bool ZArith NArith Lia.
From Stdlib Require Import Floats.SpecFloat.
Import ListNotations.

Local Open Scope N_scope.

(* ===================================================================== *)
(** ** Python strings *)
(* ===================================================================== *)

Module PyStr.

(** A [str] is a sequence of code points; [len] counts code points. *)
Definition pystr := list N.

(** An ASCII literal of the source as a [str]. *)
Fixpoint u (s : string) : pystr :=
  match s with
  | EmptyString => []
  | String c r => N_of_ascii c :: u r
  end.

Fixpoint eqb (a b : pystr) : bool :=
  match a, b with
  | [], [] => true
  | x :: a', y :: b' => N.eqb x y && eqb a' b'
  | _, _ => false
  end.

Definition len (s : pystr) : N := N.of_nat (List.length s).

(** [str.isspace] on one code point: the white space of [str.split()] and
    [str.strip()] without argument. *)
Definition is_space (c : N) : bool :=
  ((9 <=? c) && (c <=? 13)) || ((28 <=? c) && (c <=? 32))
  || (c =? 0x85) || (c =? 0xA0) || (c =? 0x1680)
  || ((0x2000 <=? c) && (c <=? 0x200A))
  || (c =? 0x2028) || (c =? 0x2029) || (c =? 0x202F) || (c =? 0x205F)
  || (c =? 0x3000).

(** Line boundaries of [str.splitlines()], besides the pair CR LF. *)
Definition is_linebreak (c : N) : bool :=
  ((10 <=? c) && (c <=? 13)) || ((28 <=? c) && (c <=? 30))
  || (c =? 0x85) || (c =? 0x2028) || (c =? 0x2029).

Fixpoint lstrip (s : pystr) : pystr :=
  match s with
  | c :: r => if is_space c then lstrip r else s
  | [] => []
  end.

Definition rstrip (s : pystr) : pystr := rev (lstrip (rev s)).

(** [s.strip()] *)
Definition strip (s : pystr) : pystr := rstrip (lstrip s).

(** [s.split()]: the maximal runs of non-space code points; [cur] is the
    run being read, latest code point first. *)
Fixpoint split_from (s cur : pystr) : list pystr :=
  match s with
  | [] => match cur with [] => [] | _ => [rev cur] end
  | c :: r =>
      if is_space c
      then match cur with
           | [] => split_from r []
           | _ => rev cur :: split_from r []
           end
      else split_from r (c :: cur)
  end.

Definition split (s : pystr) : list pystr := split_from s [].

(** [s.replace(old, new)] for a pattern [old] of one code point. *)
Definition replace1 (old : N) (new s : pystr) : pystr :=
  flat_map (fun c => if c =? old then new else [c]) s.

(** [s.splitlines()]: a final line break opens no further line. *)
Fixpoint splitlines_from (s cur : pystr) : list pystr :=
  match s with
  | [] => match cur with [] => [] | _ => [rev cur] end
  | c :: r =>
      if c =? 13
      then match r with
           | 10 :: r' => rev cur :: splitlines_from r' []
           | _ => rev cur :: splitlines_from r []
           end
      else if is_linebreak c then rev cur :: splitlines_from r []
      else splitlines_from r (c :: cur)
  end.

Definition splitlines (s : pystr) : list pystr := splitlines_from s [].

(** [s.startswith(p)] *)
Fixpoint startswith (s p : pystr) : bool :=
  match p, s with
  | [], _ => true
  | x :: p', y :: s' => N.eqb x y && startswith s' p'
  | _ :: _, [] => false
  end.

(** [s[::-1]] *)
Definition reversed (s : pystr) : pystr := rev s.

(** Decimal digits, for [str(n)] of an [int]. *)
Fixpoint of_uint (d : Decimal.uint) : pystr :=
  match d with
  | Decimal.Nil => []
  | Decimal.D0 r => 48 :: of_uint r
  | Decimal.D1 r => 49 :: of_uint r
  | Decimal.D2 r => 50 :: of_uint r
  | Decimal.D3 r => 51 :: of_uint r
  | Decimal.D4 r => 52 :: of_uint r
  | Decimal.D5 r => 53 :: of_uint r
  | Decimal.D6 r => 54 :: of_uint r
  | Decimal.D7 r => 55 :: of_uint r
  | Decimal.D8 r => 56 :: of_uint r
  | Decimal.D9 r => 57 :: of_uint r
  end.

Definition of_N (n : N) : pystr := of_uint (N.to_uint n).

Definition of_Z (z : Z) : pystr :=
  match z with
  | Zneg p => 45 :: of_uint (Pos.to_uint p)
  | _ => of_uint (N.to_uint (Z.to_N z))
  end.

(** [sub] occurs in [s] as a contiguous run. *)
Definition contains (s sub : pystr) : Prop :=
  exists pre post, s = pre ++ sub ++ post.

End PyStr.
Import PyStr.


(* ===================================================================== *)
(** ** Python values, exceptions and the runtime *)
(* ===================================================================== *)

Module Py.

#[local] Set Warnings "-register-all".

(** What [json.loads] returns: [None], [bool], [int], [float], [str],
    [list], or a [dict] with [str] keys in insertion order. *)
Inductive json : Type :=
| JNull
| JBool (b : bool)
| JInt (z : Z)
| JFloat (f : spec_float)
| JStr (s : pystr)
| JArr (xs : list json)
| JObj (kvs : list (pystr * json)).

(** The exception classes the scripts tell apart, and those the
    interpreter raises on the operations they use. *)
Inductive exn_class :=
| AttributeError | TypeError | KeyError | IndexError | ValueError
| JSONDecodeError | URLError | BrokenPipeError | RecursionError
| OtherException.

(** An exception instance: its class and [str(e)]. *)
Record exn := Exn { exn_class_of : exn_class; exn_str : pystr }.

Inductive result (A : Type) : Type :=
| Ok (a : A)
| Raise (e : exn).
Arguments Ok {A} a.
Arguments Raise {A} e.

(** The object [urlopen] yields: its [status], and what
    [read().decode()] gives, a text or an exception. *)
Record http_response := HttpResponse {
  status : Z;
  read_decode : result pystr
}.

(** The interpreter, the standard library and the world outside. *)
Record Runtime := {
  (** [json.loads(s)]: the value decoded, or the exception raised, a
      [json.JSONDecodeError] on a malformed text or another one (a
      [RecursionError] on deep nesting, a [ValueError] on an integer
      of too many digits) *)
  json_loads : pystr -> result json;
  (** [repr(v)] *)
  py_repr : json -> pystr;
  (** [str(e)] of the error the interpreter raises, by class, for the
      object operated on and the attribute, key or index used *)
  error_text : exn_class -> json -> json -> pystr;
  (** [urllib.parse.quote(v)] *)
  quote : json -> result pystr;
  (** [urllib.request.urlopen(url, timeout=t)] *)
  urlopen : pystr -> Z -> result http_response;
  (** [int(v)] *)
  py_int : json -> result Z;
  (** [s.lower()] *)
  py_lower : pystr -> pystr;
  (** [datetime.date.today()], as a day number *)
  today : Z;
  (** [datetime.datetime.strptime(s, "%Y-%m-%d").date()]; [None] stands
      for the exception it raises *)
  strptime_ymd : json -> option Z;
  (** [d.strftime("%A, %B %d, %Y")] *)
  strftime_long : Z -> pystr
}.

Definition str (s : string) : json := JStr (u s).
Definition kv (k : string) (v : json) : pystr * json := (u k, v).

Fixpoint dict_lookup (k : pystr) (kvs : list (pystr * json)) : option json :=
  match kvs with
  | [] => None
  | (k', v) :: r => if PyStr.eqb k k' then Some v else dict_lookup k r
  end.

(** The value under the key [k] of a [dict], or [default]. *)
Definition dict_get (kvs : list (pystr * json)) (k : string) (default : json)
  : json :=
  match dict_lookup (u k) kvs with
  | Some v => v
  | None => default
  end.

(** [v == "lit"] for a [str] literal. *)
Definition eq_str (v : json) (lit : string) : bool :=
  match v with
  | JStr s => PyStr.eqb s (u lit)
  | _ => false
  end.

(** [v is not None] *)
Definition is_not_none (v : json) : bool :=
  match v with
  | JNull => false
  | _ => true
  end.

(** Truth value of [v], as [if v:] and [not v] test it. *)
Definition truthy (v : json) : bool :=
  match v with
  | JNull => false
  | JBool b => b
  | JInt z => negb (Z.eqb z 0)
  | JFloat (S754_zero _) => false
  | JFloat _ => true
  | JStr s => match s with [] => false | _ => true end
  | JArr xs => match xs with [] => false | _ => true end
  | JObj kvs => match kvs with [] => false | _ => true end
  end.

Section WithRuntime.
Variable rt : Runtime.

Definition raise_error {A} (c : exn_class) (obj key : json) : result A :=
  Raise (Exn c (error_text rt c obj key)).

(** [d.get(k, default)]: only a [dict] has the method. *)
Definition get (d : json) (k : string) (default : json) : result json :=
  match d with
  | JObj kvs => Ok (dict_get kvs k default)
  | _ => raise_error AttributeError d (str "get")
  end.

(** [v.strip()] and [v.lower()]: only a [str] has the methods. *)
Definition strip_method (v : json) : result pystr :=
  match v with
  | JStr s => Ok (strip s)
  | _ => raise_error AttributeError v (str "strip")
  end.

Definition lower_method (v : json) : result pystr :=
  match v with
  | JStr s => Ok (py_lower rt s)
  | _ => raise_error AttributeError v (str "lower")
  end.

(** Position [z] in a sequence of length [n], counting from the end when
    negative. *)
Definition index_of (z : Z) (n : nat) : option nat :=
  let i := (if z <? 0 then z + Z.of_nat n else z)%Z in
  if (i <? 0)%Z then None else Some (Z.to_nat i).

(** [v[k]] for a [str] key or an [int] index [k]. *)
Definition subscript (v k : json) : result json :=
  match v, k with
  | JObj kvs, JStr s =>
      match dict_lookup s kvs with
      | Some x => Ok x
      | None => Raise (Exn KeyError (py_repr rt k))
      end
  | JObj _, _ => Raise (Exn KeyError (py_repr rt k))
  | JArr xs, JInt z =>
      match index_of z (List.length xs) with
      | Some i =>
          match nth_error xs i with
          | Some x => Ok x
          | None => raise_error IndexError v k
          end
      | None => raise_error IndexError v k
      end
  | JStr s, JInt z =>
      match index_of z (List.length s) with
      | Some i =>
          match nth_error s i with
          | Some c => Ok (JStr [c])
          | None => raise_error IndexError v k
          end
      | None => raise_error IndexError v k
      end
  | _, _ => raise_error TypeError v k
  end.

(** [v[::-1]]: a [str] or a [list] reversed. *)
Definition slice_reversed (v : json) : result json :=
  match v with
  | JStr s => Ok (JStr (reversed s))
  | JArr xs => Ok (JArr (rev xs))
  | _ => raise_error TypeError v (str "[::-1]")
  end.

(** [len(v)] *)
Definition py_len (v : json) : result Z :=
  match v with
  | JStr s => Ok (Z.of_nat (List.length s))
  | JArr xs => Ok (Z.of_nat (List.length xs))
  | JObj kvs => Ok (Z.of_nat (List.length kvs))
  | _ => raise_error TypeError v (str "len")
  end.

(** The items [for h in v] runs over. *)
Definition iterate (v : json) : result (list json) :=
  match v with
  | JArr xs => Ok xs
  | JStr s => Ok (map (fun c => JStr [c]) s)
  | JObj kvs => Ok (map (fun p => JStr (fst p)) kvs)
  | _ => raise_error TypeError v (str "iter")
  end.

(** A value inside an f-string: [format(v, "")], that is [str(v)]. *)
Definition fmt (v : json) : pystr :=
  match v with
  | JStr s => s
  | _ => py_repr rt v
  end.

End WithRuntime.

End Py.
Import Py.

(* ===================================================================== *)
(** ** The monad of the loop body *)
(* ===================================================================== *)

Module Eff.

(** What a run does that the outside can see. *)
Inductive effect :=
| Print (msg : json)               (** [print(json.dumps(msg))] *)
| Flush                            (** [sys.stdout.flush()] *)
| Fetch (url : pystr) (timeout : Z). (** [urlopen(url, timeout=...)] *)

(** A computation reads and writes the global [initialized], appends to
    the trace, and ends in a value or a raised exception. *)
Definition M (A : Type) : Type := bool -> list effect * bool * result A.

Definition ret {A} (a : A) : M A := fun i => ([], i, Ok a).

Definition bind {A B} (m : M A) (f : A -> M B) : M B :=
  fun i =>
    match m i with
    | (tr, i', Ok a) =>
        match f a i' with
        | (tr', i'', r) => (tr ++ tr', i'', r)
        end
    | (tr, i', Raise e) => (tr, i', Raise e)
    end.

Definition lift {A} (r : result A) : M A := fun i => ([], i, r).

Definition emit (e : effect) : M unit := fun i => ([e], i, Ok tt).

Definition set_initialized (b : bool) : M unit := fun _ => ([], b, Ok tt).

(** [try: m except Exception as e: h e] *)
Definition try_except {A} (m : M A) (h : exn -> M A) : M A :=
  fun i =>
    match m i with
    | (tr, i', Ok a) => (tr, i', Ok a)
    | (tr, i', Raise e) =>
        match h e i' with
        | (tr', i'', r) => (tr ++ tr', i'', r)
        end
    end.

Definition trace_of {A} (o : list effect * bool * result A) : list effect :=
  fst (fst o).
Definition flag_of {A} (o : list effect * bool * result A) : bool :=
  snd (fst o).
Definition result_of {A} (o : list effect * bool * result A) : result A :=
  snd o.

End Eff.
Import Eff.

Declare Scope py_scope.
Delimit Scope py_scope with py.
Notation "x <- m ;; k" := (bind m (fun x => k))
  (at level 61, m at next level, right associativity) : py_scope.
Notation "m ;; k" := (bind m (fun _ => k))
  (at level 61, right associativity) : py_scope.

Local Open Scope py_scope.

(* ===================================================================== *)
(** ** The main loop, the same text in the three scripts *)
(* ===================================================================== *)

Module Loop.

(** Where the process is: in the [while True:] reading lines, in the
    inner [while True: time.sleep(1)] entered at end of input, or past
    the loop (the script ends, or [sys.exit(0)] ran). *)
Inductive process :=
| Running (initialized : bool)
| Lingering
| Exited.

(** What the process waits for: [sys.stdin.readline()] returning (the
    empty string is the end of the stream) or raising (a
    [UnicodeDecodeError] on bytes that are no text), one
    [time.sleep(1)] elapsing, and SIGTERM or SIGINT delivered to
    [signal_handler]. *)
Inductive event :=
| Readline (line : pystr)
| ReadlineRaised (e : exn)
| Slept
| Signal (signum : Z).

Definition is_signal (ev : event) : bool :=
  match ev with
  | Signal _ => true
  | _ => false
  end.

(** An exception the loop does not go on after: any but
    [json.JSONDecodeError]. *)
Definition fatal (e : exn) : Prop := exn_class_of e <> JSONDecodeError.

Section WithHandler.
Variable rt : Runtime.
(** The dispatch on [method], from [req.get("method")] to the last
    [else]; it differs between the scripts. *)
Variable handle : json -> M unit.

(** One turn of [while True:] on the line read. [json.loads] and the
    dispatch are both inside the [try]: an exception of either that is
    a [json.JSONDecodeError] goes on with the next line, any other one
    leaves the loop, [BrokenPipeError] by [break] and the rest through
    the outer [except Exception]. *)
Definition iteration (initialized : bool) (line : pystr)
  : process * list effect :=
  match line with
  | [] => if initialized then (Lingering, []) else (Exited, [])
  | _ =>
      match strip line with
      | [] => (Running initialized, [])
      | stripped =>
          match json_loads rt stripped with
          | Raise e =>
              match exn_class_of e with
              | JSONDecodeError => (Running initialized, [])
              | _ => (Exited, [])
              end
          | Ok req =>
              match handle req initialized with
              | (tr, i, Ok _) => (Running i, tr)
              | (tr, i, Raise e) =>
                  match exn_class_of e with
                  | JSONDecodeError => (Running i, tr)
                  | _ => (Exited, tr)
                  end
              end
          end
      end
  end.

(** [signal_handler] calls [sys.exit(0)]: [SystemExit] is no
    [Exception], no handler of the script catches it. It is installed
    for SIGINT too, so [KeyboardInterrupt] is not raised and the [break]
    of the idle loop is not taken. While lingering, standard input is
    not read any more. [readline] is inside the [try] of the loop, so
    an exception it raises is handled as one of the body. *)
Definition step (p : process) (ev : event) : process * list effect :=
  match p, ev with
  | Exited, _ => (Exited, [])
  | _, Signal _ => (Exited, [])
  | Running i, Readline line => iteration i line
  | Running i, ReadlineRaised e =>
      match exn_class_of e with
      | JSONDecodeError => (Running i, [])
      | _ => (Exited, [])
      end
  | Running i, Slept => (Running i, [])
  | Lingering, _ => (Lingering, [])
  end.

Fixpoint run (p : process) (evs : list event) : process * list effect :=
  match evs with
  | [] => (p, [])
  | ev :: rest =>
      let (p', tr) := step p ev in
      let (p'', tr') := run p' rest in
      (p'', tr ++ tr')
  end.

(** The line read is not blank and [json.loads] yields [v]. *)
Definition decodes_to (line : pystr) (v : json) : Prop :=
  strip line <> [] /\ json_loads rt (strip line) = Ok v.

End WithHandler.

End Loop.
Import Loop.

(* ===================================================================== *)
(** ** JSON-RPC messages *)
(* ===================================================================== *)

Module Rpc.

(** [{"jsonrpc": "2.0", "id": req_id, "result": {"content": [{"type":
    "text", "text": text}]}}] *)
Definition text_result (req_id : json) (text : pystr) : json :=
  JObj [kv "jsonrpc" (str "2.0"); kv "id" req_id;
        kv "result"
          (JObj [kv "content"
                   (JArr [JObj [kv "type" (str "text");
                                kv "text" (JStr text)]])])].

(** [{"jsonrpc": "2.0", "id": req_id, "error": {"code": code, "message":
    message}}] *)
Definition error_response (req_id : json) (code : Z) (message : pystr)
  : json :=
  JObj [kv "jsonrpc" (str "2.0"); kv "id" req_id;
        kv "error" (JObj [kv "code" (JInt code);
                          kv "message" (JStr message)])].

Definition print_flush (msg : json) : M unit :=
  emit (Print msg) ;; emit Flush.

(** A message on standard output answers a request when it has an
    ["id"]; the [tools/declare] notification has none. *)
Definition is_response (msg : json) : bool :=
  match msg with
  | JObj kvs => match dict_lookup (u "id") kvs with Some _ => true | None => false end
  | _ => false
  end.

Definition id_of (msg : json) : option json :=
  match msg with
  | JObj kvs => dict_lookup (u "id") kvs
  | _ => None
  end.

(** The member ["error"] of a message, and ["result"]. *)
Definition error_of (msg : json) : option json :=
  match msg with
  | JObj kvs => dict_lookup (u "error") kvs
  | _ => None
  end.

Definition result_member_of (msg : json) : option json :=
  match msg with
  | JObj kvs => dict_lookup (u "result") kvs
  | _ => None
  end.

(** The member [k] of a JSON value, when it is an object that has it. *)
Definition member (k : string) (v : json) : option json :=
  match v with
  | JObj kvs => dict_lookup (u k) kvs
  | _ => None
  end.

(** What a client reads in an error response: the ["code"] and the
    ["message"] of its ["error"] member. *)
Definition error_code_of (msg : json) : option Z :=
  match error_of msg with
  | Some err => match member "code" err with
                | Some (JInt code) => Some code
                | _ => None
                end
  | None => None
  end.

Definition error_message_of (msg : json) : option pystr :=
  match error_of msg with
  | Some err => match member "message" err with
                | Some (JStr message) => Some message
                | _ => None
                end
  | None => None
  end.

(** What a client reads in a tool result: the ["text"] of the one
    item of type ["text"] in the ["content"] of its ["result"]. *)
Definition result_text_of (msg : json) : option pystr :=
  match result_member_of msg with
  | Some res =>
      match member "content" res with
      | Some (JArr [item]) =>
          match member "type" item, member "text" item with
          | Some (JStr ty), Some (JStr text) =>
              if PyStr.eqb ty (u "text") then Some text else None
          | _, _ => None
          end
      | _ => None
      end
  | None => None
  end.

(** The responses among the messages printed in a trace. *)
Fixpoint responses (tr : list effect) : list json :=
  match tr with
  | [] => []
  | Print msg :: r => if is_response msg then msg :: responses r else responses r
  | _ :: r => responses r
  end.

(** The notifications with the given method printed in a trace. *)
Fixpoint notifications (method : string) (tr : list effect) : list json :=
  match tr with
  | [] => []
  | Print (JObj kvs as msg) :: r =>
      match dict_lookup (u "id") kvs, dict_lookup (u "method") kvs with
      | None, Some m => if eq_str m method then msg :: notifications method r
                        else notifications method r
      | _, _ => notifications method r
      end
  | _ :: r => notifications method r
  end.

(** Every message printed in a trace. *)
Fixpoint prints (tr : list effect) : list json :=
  match tr with
  | [] => []
  | Print msg :: r => msg :: prints r
  | _ :: r => prints r
  end.

(** The URLs fetched in a trace. *)
Fixpoint fetches (tr : list effect) : list pystr :=
  match tr with
  | [] => []
  | Fetch url _ :: r => url :: fetches r
  | _ :: r => fetches r
  end.

(** A computation that prints nothing and leaves [initialized] alone,
    and one that leaves [initialized] alone. *)
Definition quiet {A} (m : M A) : Prop :=
  forall i, flag_of (m i) = i /\ prints (trace_of (m i)) = [].

Definition keeps_flag {A} (m : M A) : Prop := forall i, flag_of (m i) = i.

End Rpc.
Import Rpc.

(* ===================================================================== *)
(** ** What the scripts share word for word *)
(* ===================================================================== *)

Module Common.

(** The four counts of the [word_count] tool on a [str]. *)
Record word_stats := WordStats {
  word_count : N;
  char_count : N;
  char_count_no_spaces : N;
  line_count : N
}.

Definition count_words (text : pystr) : word_stats :=
  {| word_count :=
       match strip text with
       | [] => 0
       | _ => N.of_nat (List.length (split text))
       end;
     char_count := len text;
     char_count_no_spaces := len (replace1 32 [] text);
     line_count :=
       match text with
       | [] => 0
       | _ => N.of_nat (List.length (splitlines text))
       end |}.

Section WithRuntime.
Variable rt : Runtime.

(** [json.loads] where a handler can catch its exception. *)
Definition loads (s : pystr) : result json := json_loads rt s.

Definition fetch (url : pystr) (timeout : Z) : M http_response :=
  emit (Fetch url timeout) ;; lift (urlopen rt url timeout).

(** [req.get("params", {}).get("arguments", {}).get(key, default)] *)
Definition argument (req : json) (key : string) (default : json)
  : result json :=
  match get rt req "params" (JObj []) with
  | Ok params =>
      match get rt params "arguments" (JObj []) with
      | Ok arguments => get rt arguments key default
      | Raise e => Raise e
      end
  | Raise e => Raise e
  end.

(** [req.get("params", {}).get("name")] *)
Definition tool_name_of (req : json) : result json :=
  match get rt req "params" (JObj []) with
  | Ok params => get rt params "name" JNull
  | Raise e => Raise e
  end.

(** The [echo] and [reverse] branches. *)
Definition echo_text (message : json) : pystr :=
  u "Echo: " ++ fmt rt message.

Definition reverse_text (text : json) : result pystr :=
  match slice_reversed rt text with
  | Ok reversed_text => Ok (u "Reversed: " ++ fmt rt reversed_text)
  | Raise e => Raise e
  end.

(** The [word_count] branch with the report to format: [text.strip()]
    is evaluated first and is a method of [str] only. *)
Definition word_count_text (report : word_stats -> pystr) (text : json)
  : result pystr :=
  match text with
  | JStr s => Ok (report (count_words s))
  | _ => raise_error rt AttributeError text (str "strip")
  end.

End WithRuntime.

End Common.
Import Common.

(* ===================================================================== *)
(** ** [xjg.py] *)
(* ===================================================================== *)

Module Xjg.

(** The message [send_tool_declaration] prints. *)
Definition tool_declaration : json :=
  JObj
    [kv "jsonrpc" (str "2.0");
     kv "method" (str "tools/declare");
     kv "params" (JObj
      [kv "tools" (JObj
        [kv "echo" (JObj
          [kv "description" (str "Echo back text");
           kv "input_schema" (JObj
            [kv "type" (str "object");
             kv "properties" (JObj [kv "message" (JObj [kv "type" (str "string")])]);
             kv "required" (JArr [str "message"])])]);
         kv "reverse" (JObj
          [kv "description" (str "Reverse the order of characters in text");
           kv "input_schema" (JObj
            [kv "type" (str "object");
             kv "properties" (JObj [kv "text" (JObj [kv "type" (str "string")])]);
             kv "required" (JArr [str "text"])])]);
         kv "word_count" (JObj
          [kv "description" (str "Count words, characters, and lines in text");
           kv "input_schema" (JObj
            [kv "type" (str "object");
             kv "properties" (JObj [kv "text" (JObj [kv "type" (str "string")])]);
             kv "required" (JArr [str "text"])])]);
         kv "weather" (JObj
          [kv "description" (str "Get current weather for a city (defaults to Frisco, Colorado)");
           kv "input_schema" (JObj
            [kv "type" (str "object");
             kv "properties" (JObj
              [kv "city" (JObj
                [kv "type" (str "string");
                 kv "description" (str "City name (e.g., 'Las Vegas' or 'Denver')")])]);
             kv "required" (JArr [])])])])])].

Definition send_tool_declaration : M unit :=
  print_flush tool_declaration.

(** The answer to [initialize]. *)
Definition initialize_response (req_id : json) : json :=
  JObj
    [kv "jsonrpc" (str "2.0");
     kv "id" req_id;
     kv "result" (JObj
      [kv "protocolVersion" (str "2024-11-05");
       kv "capabilities" (JObj [kv "tools" (JObj [])]);
       kv "serverInfo" (JObj
        [kv "name" (str "frisco-weather-server");
         kv "version" (str "1.0.0")])])].

(** The answer to [tools/list]. *)
Definition tools_list_response (req_id : json) : json :=
  JObj
    [kv "jsonrpc" (str "2.0");
     kv "id" req_id;
     kv "result" (JObj
      [kv "tools" (JArr
        [JObj
          [kv "name" (str "echo");
           kv "description" (str "Echo back text");
           kv "inputSchema" (JObj
            [kv "type" (str "object");
             kv "properties" (JObj [kv "message" (JObj [kv "type" (str "string")])]);
             kv "required" (JArr [str "message"])])];
         JObj
          [kv "name" (str "reverse");
           kv "description" (str "Reverse the order of characters in text");
           kv "inputSchema" (JObj
            [kv "type" (str "object");
             kv "properties" (JObj [kv "text" (JObj [kv "type" (str "string")])]);
             kv "required" (JArr [str "text"])])];
         JObj
          [kv "name" (str "word_count");
           kv "description" (str "Count words, characters, and lines in text");
           kv "inputSchema" (JObj
            [kv "type" (str "object");
             kv "properties" (JObj [kv "text" (JObj [kv "type" (str "string")])]);
             kv "required" (JArr [str "text"])])];
         JObj
          [kv "name" (str "weather");
           kv "description" (str "Get current weather for a city (defaults to Frisco, Colorado)");
           kv "inputSchema" (JObj
            [kv "type" (str "object");
             kv "properties" (JObj
              [kv "city" (JObj
                [kv "type" (str "string");
                 kv "description" (str "City name (e.g., 'Las Vegas' or 'Denver')")])]);
             kv "required" (JArr [])])]])])].

Definition word_count_report (st : word_stats) : pystr :=
  u "Text Analysis:" ++ [10; 0x1f4dd] ++ u " Words: " ++ of_N (word_count st)
  ++ [10; 0x1f524] ++ u " Characters: " ++ of_N (char_count st)
  ++ [10; 0x1f524] ++ u " Characters (no spaces): "
  ++ of_N (char_count_no_spaces st)
  ++ [10; 0x1f4c4] ++ u " Lines: " ++ of_N (line_count st).

Section WithRuntime.
Variable rt : Runtime.

(** The [try:] of the [weather] branch. *)
Definition weather_try (city : json) : M pystr :=
  city_encoded <- lift (quote rt city) ;;
  let url := u "https://wttr.in/" ++ city_encoded ++ u "?format=j1" in
  response_data <- fetch rt url 10 ;;
  if (status response_data =? 200)%Z then
    body <- lift (read_decode response_data) ;;
    weather_data <- lift (loads rt body) ;;
    conditions <- lift (subscript rt weather_data (str "current_condition")) ;;
    current <- lift (subscript rt conditions (JInt 0)) ;;
    temp_F <- lift (subscript rt current (str "temp_F")) ;;
    temp_C <- lift (subscript rt current (str "temp_C")) ;;
    descs <- lift (subscript rt current (str "weatherDesc")) ;;
    desc <- lift (subscript rt descs (JInt 0)) ;;
    condition <- lift (subscript rt desc (str "value")) ;;
    wind <- lift (subscript rt current (str "windspeedMiles")) ;;
    humidity <- lift (subscript rt current (str "humidity")) ;;
    visibility <- lift (subscript rt current (str "visibility")) ;;
    ret ([0x1f324; 0xfe0f] ++ u " Weather for " ++ fmt rt city ++ u ":"
         ++ [10; 0x1f321; 0xfe0f] ++ u " Temperature: " ++ fmt rt temp_F
         ++ [0xb0] ++ u "F (" ++ fmt rt temp_C ++ [0xb0] ++ u "C)"
         ++ [10; 0x1f324; 0xfe0f] ++ u " Condition: " ++ fmt rt condition
         ++ [10; 0x1f4a8] ++ u " Wind: " ++ fmt rt wind ++ u " mph"
         ++ [10; 0x1f4a7] ++ u " Humidity: " ++ fmt rt humidity ++ u "%"
         ++ [10; 0x1f441; 0xfe0f] ++ u " Visibility: " ++ fmt rt visibility
         ++ u " miles" ++ [10; 10]
         ++ u "Perfect for checking your hometown weather! "
         ++ [0x1f3d4; 0xfe0f; 0x2744; 0xfe0f])
  else
    ret ([0x274c] ++ u " Sorry, couldn't get weather for " ++ fmt rt city
         ++ u ". Try a different city name!").

(** The two [except] clauses of the [weather] branch. *)
Definition weather_except (e : exn) : M pystr :=
  match exn_class_of e with
  | URLError =>
      ret ([0x1f310] ++ u " Network error getting weather: " ++ exn_str e)
  | _ =>
      ret ([0x26a0; 0xfe0f] ++ u " Error processing weather data: "
           ++ exn_str e)
  end.

Definition weather_info (city : json) : M pystr :=
  try_except (weather_try city) weather_except.

(** The [if tool_name == ...] chain: the response to print. *)
Definition call_tool (req req_id tool_name : json) : M json :=
  if eq_str tool_name "echo" then
    message <- lift (argument rt req "message" (str "")) ;;
    ret (text_result req_id (echo_text rt message))
  else if eq_str tool_name "reverse" then
    text <- lift (argument rt req "text" (str "")) ;;
    reversed_line <- lift (reverse_text rt text) ;;
    ret (text_result req_id reversed_line)
  else if eq_str tool_name "word_count" then
    text <- lift (argument rt req "text" (str "")) ;;
    result <- lift (word_count_text rt word_count_report text) ;;
    ret (text_result req_id result)
  else if eq_str tool_name "weather" then
    city <- lift (argument rt req "city" (str "Frisco, Colorado")) ;;
    info <- weather_info city ;;
    ret (text_result req_id info)
  else
    ret (error_response req_id (-32601)
           (u "Unknown tool: " ++ fmt rt tool_name)).

(** The body of the loop once the line is decoded. *)
Definition handle (req : json) : M unit :=
  method <- lift (get rt req "method" JNull) ;;
  req_id <- lift (get rt req "id" JNull) ;;
  if eq_str method "initialize" then
    (if is_not_none req_id
     then print_flush (initialize_response req_id)
     else ret tt) ;;
    set_initialized true ;;
    send_tool_declaration
  else if eq_str method "tools/list" then
    if is_not_none req_id
    then print_flush (tools_list_response req_id)
    else ret tt
  else if eq_str method "tools/call" then
    if is_not_none req_id then
      tool_name <- lift (tool_name_of rt req) ;;
      response <- call_tool req req_id tool_name ;;
      print_flush response
    else ret tt
  else
    if is_not_none req_id
    then print_flush (error_response req_id (-32601)
                        (u "Unknown method: " ++ fmt rt method))
    else ret tt.

Definition step : process -> event -> process * list effect :=
  Loop.step rt handle.

Definition run : process -> list event -> process * list effect :=
  Loop.run rt handle.

End WithRuntime.

End Xjg.

(* ===================================================================== *)
(** ** [xavier.py] *)
(* ===================================================================== *)

Module Xavier.

Definition tool_declaration : json :=
  JObj
    [kv "jsonrpc" (str "2.0");
     kv "method" (str "tools/declare");
     kv "params" (JObj
      [kv "tools" (JObj
        [kv "echo" (JObj
          [kv "description" (str "Echo back text");
           kv "input_schema" (JObj
            [kv "type" (str "object");
             kv "properties" (JObj [kv "message" (JObj [kv "type" (str "string")])]);
             kv "required" (JArr [str "message"])])]);
         kv "reverse" (JObj
          [kv "description" (str "Reverse the order of characters in text");
           kv "input_schema" (JObj
            [kv "type" (str "object");
             kv "properties" (JObj [kv "text" (JObj [kv "type" (str "string")])]);
             kv "required" (JArr [str "text"])])]);
         kv "word_count" (JObj
          [kv "description" (str "Count words, characters, and lines in text");
           kv "input_schema" (JObj
            [kv "type" (str "object");
             kv "properties" (JObj [kv "text" (JObj [kv "type" (str "string")])]);
             kv "required" (JArr [str "text"])])]);
         kv "weather" (JObj
          [kv "description" (str "Get current weather for a city (defaults to Frisco, Colorado)");
           kv "input_schema" (JObj
            [kv "type" (str "object");
             kv "properties" (JObj
              [kv "city" (JObj
                [kv "type" (str "string");
                 kv "description" (str "City name (e.g., 'Las Vegas' or 'Denver')")])]);
             kv "required" (JArr [])])]);
         kv "get_availability" (JObj
          [kv "description" (str "Get calendar availability (busy/free times) - privacy protected");
           kv "input_schema" (JObj
            [kv "type" (str "object");
             kv "properties" (JObj
              [kv "date" (JObj
                [kv "type" (str "string");
                 kv "description" (str "Date to check - 'today', 'tomorrow', or YYYY-MM-DD format")])]);
             kv "required" (JArr [])])])])])].

Definition send_tool_declaration : M unit :=
  print_flush tool_declaration.

Definition initialize_response (req_id : json) : json :=
  JObj
    [kv "jsonrpc" (str "2.0");
     kv "id" req_id;
     kv "result" (JObj
      [kv "protocolVersion" (str "2024-11-05");
       kv "capabilities" (JObj [kv "tools" (JObj [])]);
       kv "serverInfo" (JObj
        [kv "name" (str "frisco-weather-server");
         kv "version" (str "1.0.0")])])].

Definition tools_list_response (req_id : json) : json :=
  JObj
    [kv "jsonrpc" (str "2.0");
     kv "id" req_id;
     kv "result" (JObj
      [kv "tools" (JArr
        [JObj
          [kv "name" (str "echo");
           kv "description" (str "Echo back text");
           kv "inputSchema" (JObj
            [kv "type" (str "object");
             kv "properties" (JObj [kv "message" (JObj [kv "type" (str "string")])]);
             kv "required" (JArr [str "message"])])];
         JObj
          [kv "name" (str "reverse");
           kv "description" (str "Reverse the order of characters in text");
           kv "inputSchema" (JObj
            [kv "type" (str "object");
             kv "properties" (JObj [kv "text" (JObj [kv "type" (str "string")])]);
             kv "required" (JArr [str "text"])])];
         JObj
          [kv "name" (str "word_count");
           kv "description" (str "Count words, characters, and lines in text");
           kv "inputSchema" (JObj
            [kv "type" (str "object");
             kv "properties" (JObj [kv "text" (JObj [kv "type" (str "string")])]);
             kv "required" (JArr [str "text"])])];
         JObj
          [kv "name" (str "weather");
           kv "description" (str "Get current weather for a city (defaults to Frisco, Colorado)");
           kv "inputSchema" (JObj
            [kv "type" (str "object");
             kv "properties" (JObj
              [kv "city" (JObj
                [kv "type" (str "string");
                 kv "description" (str "City name (e.g., 'Las Vegas' or 'Denver')")])]);
             kv "required" (JArr [])])];
         JObj
          [kv "name" (str "get_availability");
           kv "description" (str "Get calendar availability (busy/free times) - privacy protected");
           kv "inputSchema" (JObj
            [kv "type" (str "object");
             kv "properties" (JObj
              [kv "date" (JObj
                [kv "type" (str "string");
                 kv "description" (str "Date to check - 'today', 'tomorrow', or YYYY-MM-DD format")])]);
             kv "required" (JArr [])])]])])].

(** The report of [word_count], with the code points the file holds. *)
Definition word_count_report (st : word_stats) : pystr :=
  u "Text Analysis:" ++ [10; 0x11f; 0x178; 0x201c] ++ u " Words: "
  ++ of_N (word_count st)
  ++ [10; 0x11f; 0x178; 0x201d; 0xa4] ++ u " Characters: "
  ++ of_N (char_count st)
  ++ [10; 0x11f; 0x178; 0x201d; 0xa4] ++ u " Characters (no spaces): "
  ++ of_N (char_count_no_spaces st)
  ++ [10; 0x11f; 0x178; 0x201c; 0x201e] ++ u " Lines: "
  ++ of_N (line_count st).

Definition degree : pystr := [0xc2; 0xb0].

(** [pattern], from the hourly temperatures of today. *)
Definition temperature_pattern (temps_today : list Z) : pystr :=
  match temps_today with
  | [] => u "Pattern data unavailable"
  | t :: ts =>
      let max_temp := fold_left Z.max ts t in
      let min_temp := fold_left Z.min ts t in
      let temp_range := (max_temp - min_temp)%Z in
      if (20 <? temp_range)%Z then
        u "Variable day: " ++ of_Z min_temp ++ degree ++ u "F to "
        ++ of_Z max_temp ++ degree ++ u "F swing"
      else if (10 <? temp_range)%Z then
        u "Moderate range: " ++ of_Z min_temp ++ degree ++ u "F to "
        ++ of_Z max_temp ++ degree ++ u "F"
      else
        u "Steady temps: around " ++ of_Z max_temp ++ degree ++ u "F"
  end.

Definition availability_table (day_name : pystr) : pystr :=
  [0x11f; 0x178; 0x201c; 0x2026] ++ u " Availability for " ++ day_name
  ++ u ":" ++ [10; 10; 0xe2; 0x153; 0x2026]
  ++ u " 08:00 AM - 08:30 AM - Available" ++ [10; 0xe2; 0x152]
  ++ u " 08:30 AM - 09:00 AM - Busy" ++ [10; 0xe2; 0x152]
  ++ u " 09:00 AM - 10:00 AM - Busy" ++ [10; 0xe2; 0x153; 0x2026]
  ++ u " 10:00 AM - 10:30 AM - Available" ++ [10; 0xe2; 0x152]
  ++ u " 10:30 AM - 10:55 AM - Busy" ++ [10; 0xe2; 0x152]
  ++ u " 10:55 AM - 11:00 AM - Busy" ++ [10; 0xe2; 0x152]
  ++ u " 11:00 AM - 11:15 AM - Busy" ++ [10; 0xe2; 0x153; 0x2026]
  ++ u " 11:15 AM - 11:45 AM - Available" ++ [10; 0xe2; 0x152]
  ++ u " 11:45 AM - 12:00 PM - Busy" ++ [10; 0xe2; 0x152]
  ++ u " 12:00 PM - 01:00 PM - Busy" ++ [10; 0xe2; 0x152]
  ++ u " 01:00 PM - 01:50 PM - Busy" ++ [10; 0xe2; 0x153; 0x2026]
  ++ u " 01:50 PM - 02:00 PM - Available" ++ [10; 0xe2; 0x152]
  ++ u " 02:00 PM - 02:25 PM - Busy" ++ [10; 0xe2; 0x153; 0x2026]
  ++ u " 02:25 PM - 02:30 PM - Available" ++ [10; 0xe2; 0x152]
  ++ u " 02:30 PM - 03:30 PM - Busy" ++ [10; 0xe2; 0x152]
  ++ u " 03:30 PM - 04:30 PM - Busy" ++ [10; 0xe2; 0x152]
  ++ u " 04:30 PM - 05:15 PM - Busy" ++ [10; 0xe2; 0x153; 0x2026]
  ++ u " 05:15 PM - 06:00 PM - Available"
  ++ [10; 10; 0x11f; 0x178; 0x201d; 0x2019]
  ++ u " Privacy protected - no meeting details shown".

Section WithRuntime.
Variable rt : Runtime.

(** The lines before the [try:] of the [weather] branch: the city, or
    the default when the argument is missing, falsy or blank. *)
Definition city_of (city_arg : json) : result pystr :=
  if negb (truthy city_arg) then Ok (u "Frisco, Colorado")
  else
    match strip_method rt city_arg with
    | Ok [] => Ok (u "Frisco, Colorado")
    | Ok _ => strip_method rt city_arg
    | Raise e => Raise e
    end.

(** [[int(h["tempF"]) for h in hourly_today]] *)
Fixpoint hourly_temps (hours : list json) : result (list Z) :=
  match hours with
  | [] => Ok []
  | h :: r =>
      match subscript rt h (str "tempF") with
      | Ok t =>
          match py_int rt t with
          | Ok z =>
              match hourly_temps r with
              | Ok zs => Ok (z :: zs)
              | Raise e => Raise e
              end
          | Raise e => Raise e
          end
      | Raise e => Raise e
      end
  end.

(** [tomorrow_summary] *)
Definition tomorrow_summary_of (tomorrow_weather : json) : M pystr :=
  if truthy tomorrow_weather then
    tom_max <- lift (subscript rt tomorrow_weather (str "maxtempF")) ;;
    tom_min <- lift (subscript rt tomorrow_weather (str "mintempF")) ;;
    hourly <- lift (get rt tomorrow_weather "hourly" JNull) ;;
    tom_desc <-
      (if truthy hourly then
         hours <- lift (subscript rt tomorrow_weather (str "hourly")) ;;
         hour <- lift (subscript rt hours (JInt 0)) ;;
         descs <- lift (subscript rt hour (str "weatherDesc")) ;;
         desc <- lift (subscript rt descs (JInt 0)) ;;
         lift (subscript rt desc (str "value"))
       else ret (str "Unknown")) ;;
    ret (fmt rt tom_desc ++ u ", " ++ fmt rt tom_min ++ degree ++ u "F to "
         ++ fmt rt tom_max ++ degree ++ u "F")
  else ret (u "Forecast unavailable").

(** The [try:] of the [weather] branch. *)
Definition weather_try (city : pystr) : M pystr :=
  city_encoded <- lift (quote rt (JStr city)) ;;
  let url := u "https://wttr.in/" ++ city_encoded ++ u "?format=j1" in
  response_data <- fetch rt url 15 ;;
  if (status response_data =? 200)%Z then
    body <- lift (read_decode response_data) ;;
    weather_data <- lift (loads rt body) ;;
    conditions <- lift (subscript rt weather_data (str "current_condition")) ;;
    current <- lift (subscript rt conditions (JInt 0)) ;;
    days <- lift (subscript rt weather_data (str "weather")) ;;
    today_weather <- lift (subscript rt days (JInt 0)) ;;
    days' <- lift (subscript rt weather_data (str "weather")) ;;
    n <- lift (py_len rt days') ;;
    tomorrow_weather <-
      (if (1 <? n)%Z then
         days'' <- lift (subscript rt weather_data (str "weather")) ;;
         lift (subscript rt days'' (JInt 1))
       else ret JNull) ;;
    hourly_today <- lift (get rt today_weather "hourly" (JArr [])) ;;
    hours <- lift (iterate rt hourly_today) ;;
    temps_today <- lift (hourly_temps hours) ;;
    let pattern := temperature_pattern temps_today in
    tomorrow_summary <- tomorrow_summary_of tomorrow_weather ;;
    let location_note :=
      if startswith (py_lower rt city) (u "frisco") then
        u "Perfect for your Frisco mountain planning! "
        ++ [0x11f; 0x178; 0x201d; 0xef; 0xb8; 0xe2; 0x201e; 0xef; 0xb8]
      else
        u "Weather info for your " ++ city ++ u " travel planning! "
        ++ [0xe2; 0x153; 0x2c6; 0xef; 0xb8; 0x11f; 0x178; 0x152] in
    temp_F <- lift (subscript rt current (str "temp_F")) ;;
    temp_C <- lift (subscript rt current (str "temp_C")) ;;
    descs <- lift (subscript rt current (str "weatherDesc")) ;;
    desc <- lift (subscript rt descs (JInt 0)) ;;
    condition <- lift (subscript rt desc (str "value")) ;;
    wind <- lift (subscript rt current (str "windspeedMiles")) ;;
    wind_dir <- lift (subscript rt current (str "winddir16Point")) ;;
    humidity <- lift (subscript rt current (str "humidity")) ;;
    visibility <- lift (subscript rt current (str "visibility")) ;;
    feels_like <- lift (subscript rt current (str "FeelsLikeF")) ;;
    ret ([0x11f; 0x178; 0x152; 0xa4; 0xef; 0xb8] ++ u " Weather for " ++ city
         ++ u ":" ++ [10; 0x11f; 0x178; 0x152; 0xa1; 0xef; 0xb8]
         ++ u " Current: " ++ fmt rt temp_F ++ degree ++ u "F ("
         ++ fmt rt temp_C ++ degree ++ u "C)"
         ++ [10; 0x11f; 0x178; 0x152; 0xa4; 0xef; 0xb8] ++ u " Condition: "
         ++ fmt rt condition ++ [10; 0x11f; 0x178; 0x2019; 0xa8]
         ++ u " Wind: " ++ fmt rt wind ++ u " mph from " ++ fmt rt wind_dir
         ++ [10; 0x11f; 0x178; 0x2019; 0xa7] ++ u " Humidity: "
         ++ fmt rt humidity ++ u "%"
         ++ [10; 0x11f; 0x178; 0x2018; 0xef; 0xb8] ++ u " Visibility: "
         ++ fmt rt visibility ++ u " miles"
         ++ [10; 0x11f; 0x178; 0x152; 0xa1; 0xef; 0xb8] ++ u " Feels like: "
         ++ fmt rt feels_like ++ degree ++ u "F"
         ++ [10; 10; 0x11f; 0x178; 0x201c; 0x2c6] ++ u " Today's Pattern: "
         ++ pattern ++ [10; 0x11f; 0x178; 0x201d; 0xae] ++ u " Tomorrow: "
         ++ tomorrow_summary ++ [10; 10] ++ location_note)
  else
    ret ([0xe2; 0x152] ++ u " Sorry, couldn't get weather for " ++ city
         ++ u ". Try a different city name or check spelling!").

(** The four [except] clauses of the [weather] branch. *)
Definition weather_except (city : pystr) (e : exn) : M pystr :=
  match exn_class_of e with
  | URLError =>
      ret ([0x11f; 0x178; 0x152] ++ u " Network error getting weather for "
           ++ city ++ u ": " ++ exn_str e)
  | JSONDecodeError =>
      ret ([0xe2; 0x161; 0xa0; 0xef; 0xb8]
           ++ u " Error parsing weather data for " ++ city
           ++ u ": Invalid response format")
  | KeyError =>
      ret ([0xe2; 0x161; 0xa0; 0xef; 0xb8]
           ++ u " Incomplete weather data for " ++ city ++ u ": Missing "
           ++ exn_str e)
  | _ =>
      ret ([0xe2; 0x161; 0xa0; 0xef; 0xb8]
           ++ u " Error getting weather for " ++ city ++ u ": " ++ exn_str e)
  end.

Definition weather_info (city : pystr) : M pystr :=
  try_except (weather_try city) (weather_except city).

(** [day_name] of the [get_availability] branch. *)
Definition day_name_of (date_arg : json) : result pystr :=
  match lower_method rt date_arg with
  | Raise e => Raise e
  | Ok lowered =>
      if PyStr.eqb lowered (u "today") then
        Ok (strftime_long rt (today rt))
      else
        match lower_method rt date_arg with
        | Raise e => Raise e
        | Ok lowered' =>
            if PyStr.eqb lowered' (u "tomorrow") then
              Ok (strftime_long rt (today rt + 1)%Z)
            else
              match strptime_ymd rt date_arg with
              | Some d => Ok (strftime_long rt d)
              | None => Ok (strftime_long rt (today rt))
              end
        end
  end.

Definition call_tool (req req_id tool_name : json) : M json :=
  if eq_str tool_name "echo" then
    message <- lift (argument rt req "message" (str "")) ;;
    ret (text_result req_id (echo_text rt message))
  else if eq_str tool_name "reverse" then
    text <- lift (argument rt req "text" (str "")) ;;
    reversed_line <- lift (reverse_text rt text) ;;
    ret (text_result req_id reversed_line)
  else if eq_str tool_name "word_count" then
    text <- lift (argument rt req "text" (str "")) ;;
    result <- lift (word_count_text rt word_count_report text) ;;
    ret (text_result req_id result)
  else if eq_str tool_name "weather" then
    city_arg <- lift (argument rt req "city" JNull) ;;
    city <- lift (city_of city_arg) ;;
    info <- weather_info city ;;
    ret (text_result req_id info)
  else if eq_str tool_name "get_availability" then
    date_arg <- lift (argument rt req "date" (str "today")) ;;
    day_name <- lift (day_name_of date_arg) ;;
    ret (text_result req_id (availability_table day_name))
  else
    ret (error_response req_id (-32601)
           (u "Unknown tool: " ++ fmt rt tool_name)).

Definition handle (req : json) : M unit :=
  method <- lift (get rt req "method" JNull) ;;
  req_id <- lift (get rt req "id" JNull) ;;
  if eq_str method "initialize" then
    (if is_not_none req_id
     then print_flush (initialize_response req_id)
     else ret tt) ;;
    set_initialized true ;;
    send_tool_declaration
  else if eq_str method "tools/list" then
    if is_not_none req_id
    then print_flush (tools_list_response req_id)
    else ret tt
  else if eq_str method "tools/call" then
    if is_not_none req_id then
      tool_name <- lift (tool_name_of rt req) ;;
      response <- call_tool req req_id tool_name ;;
      print_flush response
    else ret tt
  else
    if is_not_none req_id
    then print_flush (error_response req_id (-32601)
                        (u "Unknown method: " ++ fmt rt method))
    else ret tt.

Definition step : process -> event -> process * list effect :=
  Loop.step rt handle.

Definition run : process -> list event -> process * list effect :=
  Loop.run rt handle.

End WithRuntime.

End Xavier.

(* ===================================================================== *)
(** ** [xjg_backup.py] *)
(* ===================================================================== *)

Module XjgBackup.

Definition tool_declaration : json :=
  JObj
    [kv "jsonrpc" (str "2.0");
     kv "method" (str "tools/declare");
     kv "params" (JObj
      [kv "tools" (JObj
        [kv "echo" (JObj
          [kv "description" (str "Echo back text");
           kv "input_schema" (JObj
            [kv "type" (str "object");
             kv "properties" (JObj [kv "message" (JObj [kv "type" (str "string")])]);
             kv "required" (JArr [str "message"])])])])])].

Definition send_tool_declaration : M unit :=
  print_flush tool_declaration.

Definition initialize_response (req_id : json) : json :=
  JObj
    [kv "jsonrpc" (str "2.0");
     kv "id" req_id;
     kv "result" (JObj
      [kv "protocolVersion" (str "2024-11-05");
       kv "capabilities" (JObj [kv "tools" (JObj [])]);
       kv "serverInfo" (JObj [kv "name" (str "xjg-server"); kv "version" (str "1.0.0")])])].

Section WithRuntime.
Variable rt : Runtime.

Definition call_tool (req req_id tool_name : json) : M json :=
  if eq_str tool_name "echo" then
    message <- lift (argument rt req "message" (str "")) ;;
    ret (text_result req_id (echo_text rt message))
  else
    ret (error_response req_id (-32601)
           (u "Unknown tool: " ++ fmt rt tool_name)).

(** The dispatch of this script has no [tools/list] branch. *)
Definition handle (req : json) : M unit :=
  method <- lift (get rt req "method" JNull) ;;
  req_id <- lift (get rt req "id" JNull) ;;
  if eq_str method "initialize" then
    (if is_not_none req_id
     then print_flush (initialize_response req_id)
     else ret tt) ;;
    set_initialized true ;;
    send_tool_declaration
  else if eq_str method "tools/call" then
    if is_not_none req_id then
      tool_name <- lift (tool_name_of rt req) ;;
      response <- call_tool req req_id tool_name ;;
      print_flush response
    else ret tt
  else
    if is_not_none req_id
    then print_flush (error_response req_id (-32601)
                        (u "Unknown method: " ++ fmt rt method))
    else ret tt.

Definition step : process -> event -> process * list effect :=
  Loop.step rt handle.

Definition run : process -> list event -> process * list effect :=
  Loop.run rt handle.

End WithRuntime.

End XjgBackup.

(* ===================================================================== *)
(** ** Requests the tool branches can work on *)
(* ===================================================================== *)

(** The scripts read [params], [arguments] and the arguments with
    [.get] and with [str] methods and check none of them: these are the
    shapes on which those reads go through. *)
Module Shape.

Definition is_dict (v : json) : bool :=
  match v with
  | JObj _ => true
  | _ => false
  end.

Definition is_text (v : json) : bool :=
  match v with
  | JStr _ => true
  | _ => false
  end.

Definition is_text_or_list (v : json) : bool :=
  match v with
  | JStr _ | JArr _ => true
  | _ => false
  end.

(** The tool names [xjg.py] dispatches on, and those of [xavier.py]. *)
Definition xjg_tool (name : json) : bool :=
  eq_str name "echo" || eq_str name "reverse" || eq_str name "word_count"
  || eq_str name "weather".

Definition xavier_tool (name : json) : bool :=
  xjg_tool name || eq_str name "get_availability".

(** In [xjg.py]: [text] of [reverse] is sliced, [text] of [word_count]
    is stripped; [message] and [city] are only formatted or passed on
    inside the [try:]. *)
Definition xjg_arguments_fit (name : json) (arguments : list (pystr * json))
  : bool :=
  if eq_str name "reverse" then
    is_text_or_list (dict_get arguments "text" (str ""))
  else if eq_str name "word_count" then
    is_text (dict_get arguments "text" (str ""))
  else true.

(** In [xavier.py] moreover: a truthy [city] is stripped before the
    [try:], and [date] is lowered. *)
Definition xavier_arguments_fit (name : json)
  (arguments : list (pystr * json)) : bool :=
  if eq_str name "weather" then
    let city_arg := dict_get arguments "city" JNull in
    negb (truthy city_arg) || is_text city_arg
  else if eq_str name "get_availability" then
    is_text (dict_get arguments "date" (str "today"))
  else xjg_arguments_fit name arguments.

(** [params] is missing or a [dict]; for a tool of the script,
    [arguments] is missing or a [dict] whose entries fit. *)
Definition call_fits (tool : json -> bool)
  (fit : json -> list (pystr * json) -> bool)
  (req : list (pystr * json)) : bool :=
  match dict_get req "params" (JObj []) with
  | JObj params =>
      let name := dict_get params "name" JNull in
      if tool name then
        match dict_get params "arguments" (JObj []) with
        | JObj arguments => fit name arguments
        | _ => false
        end
      else true
  | _ => false
  end.

Definition xjg_call_fits : list (pystr * json) -> bool :=
  call_fits xjg_tool xjg_arguments_fit.

Definition xavier_call_fits : list (pystr * json) -> bool :=
  call_fits xavier_tool xavier_arguments_fit.

(** Any request that is no [tools/call] fits. *)
Definition xjg_request_fits (req : list (pystr * json)) : bool :=
  if eq_str (dict_get req "method" JNull) "tools/call"
  then xjg_call_fits req else true.

(** The request is an [initialize] message; the line read decodes to
    one. *)
Definition is_initialize (req : json) : bool :=
  match req with
  | JObj kvs => eq_str (dict_get kvs "method" JNull) "initialize"
  | _ => false
  end.

Definition initialize_line (rt : Runtime) (line : pystr) : bool :=
  match strip line with
  | [] => false
  | stripped =>
      match json_loads rt stripped with
      | Ok req => is_initialize req
      | Raise _ => false
      end
  end.

(** The registry as [tools/declare] announces it: the entries of
    [params.tools], in order. *)
Definition declared_tools (declaration : json) : list (pystr * json) :=
  match declaration with
  | JObj kvs =>
      match dict_get kvs "params" JNull with
      | JObj params =>
          match dict_get params "tools" JNull with
          | JObj tools => tools
          | _ => []
          end
      | _ => []
      end
  | _ => []
  end.

(** The descriptor [tools/list] gives for a declared tool. *)
Definition descriptor (tool : pystr * json) : json :=
  match snd tool with
  | JObj kvs =>
      JObj [kv "name" (JStr (fst tool));
            kv "description" (dict_get kvs "description" JNull);
            kv "inputSchema" (dict_get kvs "input_schema" JNull)]
  | _ => JNull
  end.

(** The sequence [result.tools] of an answer to [tools/list]. *)
Definition listed_tools (response : json) : list json :=
  match result_member_of response with
  | Some (JObj result) =>
      match dict_get result "tools" JNull with
      | JArr tools => tools
      | _ => []
      end
  | _ => []
  end.

End Shape.
Import Shape.

(* ===================================================================== *)
(** ** A runtime and documents to run the scripts on *)
(* ===================================================================== *)

Module Sample.

(** The compact JSON text of a document without floats and without
    characters to escape. *)
Fixpoint encode (v : json) : pystr :=
  match v with
  | JNull => u "null"
  | JBool true => u "true"
  | JBool false => u "false"
  | JInt z => of_Z z
  | JFloat _ => u "NaN"
  | JStr s => [34] ++ s ++ [34]
  | JArr xs =>
      [91] ++
      (fix items (l : list json) : pystr :=
         match l with
         | [] => []
         | [x] => encode x
         | x :: r => encode x ++ [44] ++ items r
         end) xs
      ++ [93]
  | JObj kvs =>
      [123] ++
      (fix members (l : list (pystr * json)) : pystr :=
         match l with
         | [] => []
         | [(k, x)] => [34] ++ k ++ [34; 58] ++ encode x
         | (k, x) :: r => [34] ++ k ++ [34; 58] ++ encode x ++ [44] ++ members r
         end) kvs
      ++ [125]
  end.

(** [repr] of a value without floats and without characters to escape. *)
Fixpoint repr (v : json) : pystr :=
  match v with
  | JNull => u "None"
  | JBool true => u "True"
  | JBool false => u "False"
  | JInt z => of_Z z
  | JFloat _ => u "nan"
  | JStr s => [39] ++ s ++ [39]
  | JArr xs =>
      [91] ++
      (fix items (l : list json) : pystr :=
         match l with
         | [] => []
         | [x] => repr x
         | x :: r => repr x ++ u ", " ++ items r
         end) xs
      ++ [93]
  | JObj kvs =>
      [123] ++
      (fix members (l : list (pystr * json)) : pystr :=
         match l with
         | [] => []
         | [(k, x)] => [39] ++ k ++ [39] ++ u ": " ++ repr x
         | (k, x) :: r =>
             [39] ++ k ++ [39] ++ u ": " ++ repr x ++ u ", " ++ members r
         end) kvs
      ++ [125]
  end.

Definition request (id : option Z) (method : string)
  (params : option json) : json :=
  JObj ([kv "jsonrpc" (str "2.0")]
        ++ match id with Some z => [kv "id" (JInt z)] | None => [] end
        ++ [kv "method" (str method)]
        ++ match params with Some p => [kv "params" p] | None => [] end).

Definition call (id : option Z) (name : string) (arguments : json) : json :=
  request id "tools/call"
    (Some (JObj [kv "name" (str name); kv "arguments" arguments])).

Definition initialize_1 := request (Some 1%Z) "initialize" None.
Definition initialized_notification := request None "initialize" None.
Definition list_2 := request (Some 2%Z) "tools/list" None.
Definition list_notification := request None "tools/list" None.
Definition echo_3 := call (Some 3%Z) "echo" (JObj [kv "message" (str "hi")]).
Definition count_4 :=
  call (Some 4%Z) "word_count" (JObj [kv "text" (str "a b  c")]).
Definition weather_5 :=
  call (Some 5%Z) "weather" (JObj [kv "city" (str "Denver")]).
Definition weather_notification :=
  call None "weather" (JObj [kv "city" (str "Denver")]).
Definition reverse_number_6 :=
  call (Some 6%Z) "reverse" (JObj [kv "text" (JInt 5)]).
Definition weather_list_arguments_7 := call (Some 7%Z) "weather" (JArr []).
Definition weather_number_city_8 :=
  call (Some 8%Z) "weather" (JObj [kv "city" (JInt 80443)]).
Definition unknown_tool_9 := call (Some 9%Z) "translate" (JObj []).
Definition ping_10 := request (Some 10%Z) "ping" None.
Definition ping_notification := request None "ping" None.

Definition members (v : json) : list (pystr * json) :=
  match v with
  | JObj kvs => kvs
  | _ => []
  end.

(** What the weather service answers in the samples. *)
Definition forecast : json :=
  JObj [kv "current_condition"
          (JArr [JObj [kv "temp_F" (str "41"); kv "temp_C" (str "5");
                       kv "weatherDesc" (JArr [JObj [kv "value" (str "Sunny")]]);
                       kv "windspeedMiles" (str "7");
                       kv "winddir16Point" (str "NW");
                       kv "humidity" (str "30");
                       kv "visibility" (str "9");
                       kv "FeelsLikeF" (str "37")]]);
        kv "weather"
          (JArr [JObj [kv "hourly" (JArr [JObj [kv "tempF" (JInt 30)];
                                           JObj [kv "tempF" (JInt 45)]])]])].

(** A forecast without ["current_condition"]. *)
Definition forecast_incomplete : json := JObj [kv "weather" (JArr [])].

Definition documents : list json :=
  [initialize_1; initialized_notification; list_2; list_notification;
   echo_3; count_4; weather_5; weather_notification; reverse_number_6;
   weather_list_arguments_7; weather_number_city_8; unknown_tool_9;
   ping_10; ping_notification; forecast; forecast_incomplete;
   JArr []; JInt 7; JNull; str "initialize"].

(** A text of a thousand or more opening brackets and nothing else:
    arrays nested deeper than the recursion limit of the interpreter. *)
Definition nested_too_deep (s : pystr) : bool :=
  (1000 <=? N.of_nat (List.length s)) && forallb (N.eqb 91) s.

(** [json.loads] on the texts of [documents]; on arrays nested too deep
    it raises [RecursionError], which is no [json.JSONDecodeError]; any
    other text is taken as malformed. *)
Definition loads (s : pystr) : result json :=
  match find (fun v => PyStr.eqb (encode v) s) documents with
  | Some v => Ok v
  | None =>
      if nested_too_deep s
      then Raise (Exn RecursionError
                    (u "maximum recursion depth exceeded while decoding a JSON array from a unicode string"))
      else Raise (Exn JSONDecodeError (u "Expecting value"))
  end.

Definition line_of (v : json) : pystr := encode v ++ [10].

Definition malformed_line : pystr := u "{not json" ++ [10].

(** A line of a thousand opening brackets. *)
Definition deep_line : pystr := repeat 91 1000 ++ [10].

Definition class_name (c : exn_class) : pystr :=
  match c with
  | AttributeError => u "no such attribute"
  | TypeError => u "unsupported operand"
  | KeyError => u "missing key"
  | IndexError => u "index out of range"
  | ValueError => u "invalid value"
  | JSONDecodeError => u "Expecting value"
  | URLError => u "<urlopen error>"
  | BrokenPipeError => u "Broken pipe"
  | RecursionError => u "maximum recursion depth exceeded"
  | OtherException => u "error"
  end.

Definition quote_ascii (v : json) : result pystr :=
  match v with
  | JStr s =>
      Ok (flat_map (fun c => if c =? 32 then u "%20"
                             else if c =? 44 then u "%2C" else [c]) s)
  | _ => Raise (Exn TypeError (u "quote_from_bytes() expected bytes"))
  end.

Definition int_of (v : json) : result Z :=
  match v with
  | JInt z => Ok z
  | JBool b => Ok (if b then 1 else 0)%Z
  | _ => Raise (Exn TypeError (u "int() argument"))
  end.

Definition lower_ascii (s : pystr) : pystr :=
  map (fun c => if (65 <=? c) && (c <=? 90) then c + 32 else c) s.

Definition day_label (d : Z) : pystr :=
  if (d =? 739924)%Z then u "Wednesday, November 04, 2026"
  else if (d =? 739925)%Z then u "Thursday, November 05, 2026"
  else u "Friday, January 01, 2027".

(** A runtime around a network [net]. *)
Definition runtime (net : pystr -> Z -> result http_response) : Runtime :=
  {| json_loads := loads;
     py_repr := repr;
     error_text := fun c _ _ => class_name c;
     quote := quote_ascii;
     urlopen := net;
     py_int := int_of;
     py_lower := lower_ascii;
     today := 739924%Z;
     strptime_ymd := fun _ => None;
     strftime_long := day_label |}.

(** No route to the weather service. *)
Definition offline : Runtime :=
  runtime (fun _ _ => Raise (Exn URLError (u "<urlopen error timed out>"))).

(** The weather service answers 200 with the document [doc]. *)
Definition serving (doc : json) : Runtime :=
  runtime (fun _ _ => Ok (HttpResponse 200 (Ok (encode doc)))).

End Sample.

(* ===================================================================== *)
(** ** What a trace shows *)
(* ===================================================================== *)

Module Observed.

(** Every [print] of the trace is followed at once by the [flush]. *)
Fixpoint flushed (tr : list effect) : bool :=
  match tr with
  | [] => true
  | Print _ :: Flush :: r => flushed r
  | Print _ :: _ => false
  | _ :: r => flushed r
  end.

Definition all_flushed (tr : list effect) : Prop := flushed tr = true.

Definition no_fetch (tr : list effect) : Prop := fetches tr = [].

Definition no_effect (tr : list effect) : Prop := tr = [].

(** The traces of the computation, from every value of [initialized],
    have the property [P]. *)
Definition traced (P : list effect -> Prop) {A} (m : M A) : Prop :=
  forall i, P (trace_of (m i)).

(** The text holds white space only. *)
Definition blank (s : pystr) : bool := forallb is_space s.

(** The number of spaces (U+0020) of a text. *)
Definition spaces (s : pystr) : N :=
  N.of_nat (List.length (filter (fun c => c =? 32) s)).

(** One more item is to come from the run being read, when it is not
    empty, in [split_from] and [splitlines_from]. *)
Definition open_run (cur : pystr) : nat :=
  match cur with
  | [] => 0
  | _ => 1
  end.

(** The request names the tool [name] through [params.name]. *)
Definition names_tool (req : json) (name : string) : bool :=
  match req with
  | JObj kvs =>
      match dict_get kvs "params" (JObj []) with
      | JObj params => eq_str (dict_get params "name" JNull) name
      | _ => false
      end
  | _ => false
  end.

(** The request is a [tools/call] with an id that is not null. *)
Definition is_call_with_id (req : json) : bool :=
  match req with
  | JObj kvs =>
      eq_str (dict_get kvs "method" JNull) "tools/call"
      && is_not_none (dict_get kvs "id" JNull)
  | _ => false
  end.

(** The id of a request, [None] when it has none. *)
Definition request_id (req : json) : json :=
  match req with
  | JObj kvs => dict_get kvs "id" JNull
  | _ => JNull
  end.

(** The message has an id, and it is not null. *)
Definition carries_id (msg : json) : Prop :=
  match id_of msg with
  | Some id => id <> JNull
  | None => False
  end.

(** The id of the request a line decodes to; [None] when the line is
    blank, malformed, or decodes to no object. *)
Definition line_id (rt : Runtime) (line : pystr) : json :=
  match json_loads rt (strip line) with
  | Ok req => request_id req
  | Raise _ => JNull
  end.

(** A response of the tools: a result or an error with the id given. *)
Definition answer_to (req_id response : json) : Prop :=
  (exists text, response = text_result req_id text) \/
  (exists message, response = error_response req_id (-32601) message).

(** What the responses of a trace are: none, or one that carries the
    id, not null, of the request. *)
Definition answered_at_most_once (req : json) (tr : list effect) : Prop :=
  responses tr = [] \/
  exists response,
    responses tr = [response] /\
    id_of response = Some (request_id req) /\
    request_id req <> JNull.

(** From [initialized] set, the computation ends with it set. *)
Definition never_resets {A} (m : M A) : Prop := flag_of (m true) = true.

(** The line decodes to a request object that fits [xjg.py]. *)
Definition fits_xjg (rt : Runtime) (line : pystr) : Prop :=
  exists kvs, decodes_to rt line (JObj kvs) /\ xjg_request_fits kvs = true.

(** The tool name [xjg_backup.py] dispatches on. *)
Definition backup_tool (name : json) : bool := eq_str name "echo".

(** The names of the tools a declaration announces. *)
Definition declared_names (declaration : json) : list pystr :=
  map fst (declared_tools declaration).

(** The name is one of those the declaration announces. *)
Definition declared_in (declaration name : json) : Prop :=
  exists s, name = JStr s /\ In s (declared_names declaration).

(** The request [{"params": {"name": name}}]: it names a tool and gives
    no arguments. *)
Definition bare_call (name : json) : json :=
  JObj [kv "params" (JObj [kv "name" name])].

(** A chain of tools has a branch for the name: whatever the request,
    a response it returns carries the id given, no ["error"], and a
    ["result"] with one text; and on the request that gives no
    arguments it does return one. *)
Definition dispatches (call_tool : json -> json -> json -> M json)
  (name : json) : Prop :=
  (forall req req_id i tr i' response,
     call_tool req req_id name i = (tr, i', Ok response) ->
     id_of response = Some req_id /\
     error_of response = None /\
     exists text, result_text_of response = Some text) /\
  (forall req_id i,
     exists tr response text,
       call_tool (bare_call name) req_id name i = (tr, i, Ok response) /\
       id_of response = Some req_id /\
       error_of response = None /\
       result_text_of response = Some text).

(** A chain of tools has no branch for the name: whatever the request,
    it returns, with no effect, a response that carries the id given,
    no ["result"], and the error -32601 whose message is
    [Unknown tool: ] followed by the name. *)
Definition rejects (rt : Runtime)
  (call_tool : json -> json -> json -> M json) (name : json) : Prop :=
  forall req req_id i,
    exists response,
      call_tool req req_id name i = ([], i, Ok response) /\
      id_of response = Some req_id /\
      result_member_of response = None /\
      error_code_of response = Some (-32601)%Z /\
      error_message_of response = Some (u "Unknown tool: " ++ fmt rt name).

(** The request is an object whose method is [method]. *)
Definition has_method (req : json) (method : string) : bool :=
  match req with
  | JObj kvs => eq_str (dict_get kvs "method" JNull) method
  | _ => false
  end.

(** The URL the [weather] branches fetch for an encoded city. *)
Definition weather_url (city_encoded : pystr) : pystr :=
  u "https://wttr.in/" ++ city_encoded ++ u "?format=j1".

End Observed.
Import Observed.

(* ===================================================================== *)
(** ** More documents to run the scripts on *)
(* ===================================================================== *)

Module Cases.

Definition reverse_abc : json :=
  Sample.call (Some 11%Z) "reverse" (JObj [kv "text" (str "abc")]).

Definition reverse_cba : json :=
  Sample.call (Some 12%Z) "reverse" (JObj [kv "text" (str "cba")]).

Definition documents : list json := [reverse_abc; reverse_cba].

(** [json.loads] on the texts of [documents] and of [Sample.documents]. *)
Definition loads (s : pystr) : result json :=
  match find (fun v => PyStr.eqb (Sample.encode v) s) documents with
  | Some v => Ok v
  | None => Sample.loads s
  end.

(** The runtime of the samples, without network, reading these
    documents too. *)
Definition offline : Runtime :=
  {| json_loads := loads;
     py_repr := py_repr Sample.offline;
     error_text := error_text Sample.offline;
     quote := quote Sample.offline;
     urlopen := urlopen Sample.offline;
     py_int := py_int Sample.offline;
     py_lower := py_lower Sample.offline;
     today := today Sample.offline;
     strptime_ymd := strptime_ymd Sample.offline;
     strftime_long := strftime_long Sample.offline |}.

(** A line with white space before the document and CR LF after it. *)
Definition padded_line_of (v : json) : pystr :=
  [32; 9] ++ Sample.encode v ++ [13; 10].

End Cases.

(* ===================================================================== *)
(** ** Basic facts *)
(* ===================================================================== *)

Lemma pystr_eqb_eq (a b : pystr) : PyStr.eqb a b = true <-> a = b.
Proof.
  revert b; induction a as [|x a IH]; intros [|y b]; simpl;
    try (split; [discriminate | congruence]); try tauto.
  rewrite andb_true_iff, N.eqb_eq, IH.
  split; [intros [-> ->]; reflexivity | intros H; inversion H; auto].
Qed.

Lemma pystr_eqb_refl (a : pystr) : PyStr.eqb a a = true.
Proof. apply pystr_eqb_eq; reflexivity. Qed.

Lemma eq_str_true (v : json) (lit : string) :
  eq_str v lit = true <-> v = str lit.
Proof.
  unfold eq_str, str; destruct v; try (split; [discriminate | congruence]).
  rewrite pystr_eqb_eq; split; [congruence | intros H; inversion H; auto].
Qed.

Lemma eq_str_false (v : json) (lit : string) :
  eq_str v lit = false <-> v <> str lit.
Proof.
  rewrite <- eq_str_true; destruct (eq_str v lit); split; congruence.
Qed.

Lemma eq_str_refl (lit : string) : eq_str (str lit) lit = true.
Proof. apply eq_str_true; reflexivity. Qed.

Lemma is_not_none_true (v : json) : is_not_none v = true <-> v <> JNull.
Proof. destruct v; simpl; split; congruence. Qed.

Lemma is_not_none_false (v : json) : is_not_none v = false <-> v = JNull.
Proof. destruct v; simpl; split; congruence. Qed.

Lemma contains_suffix (pre s : pystr) : contains (pre ++ s) s.
Proof. exists pre, []; rewrite app_nil_r; reflexivity. Qed.

(** Closed goals about the samples, by evaluation. *)
Ltac evaluated :=
  first [ vm_compute; reflexivity
        | vm_compute; discriminate
        | split; evaluated ].

(** *** The monad *)

Section MonadFacts.
Context {A B : Type}.

Lemma bind_lift_ok (a : A) (f : A -> M B) (i : bool) :
  bind (lift (Ok a)) f i = f a i.
Proof. unfold bind, lift; destruct (f a i) as [[tr i'] r]; reflexivity. Qed.

Lemma bind_lift_raise (e : exn) (f : A -> M B) (i : bool) :
  bind (lift (Raise e)) f i = ([], i, Raise e).
Proof. reflexivity. Qed.

Lemma bind_ret (a : A) (f : A -> M B) (i : bool) :
  bind (ret a) f i = f a i.
Proof. unfold bind, ret; destruct (f a i) as [[tr i'] r]; reflexivity. Qed.

Lemma bind_outcome (m : M A) (f : A -> M B) (i i' : bool)
  (tr : list effect) (a : A) :
  m i = (tr, i', Ok a) ->
  bind m f i = (tr ++ trace_of (f a i'), flag_of (f a i'), result_of (f a i')).
Proof.
  intros H; unfold bind; rewrite H.
  destruct (f a i') as [[tr' i''] r]; reflexivity.
Qed.

Lemma bind_raised (m : M A) (f : A -> M B) (i i' : bool)
  (tr : list effect) (e : exn) :
  m i = (tr, i', Raise e) -> bind m f i = (tr, i', Raise e).
Proof. intros H; unfold bind; rewrite H; reflexivity. Qed.

End MonadFacts.

(** *** What a client reads in the two responses the scripts build *)

Lemma text_result_read (req_id : json) (text : pystr) :
  id_of (text_result req_id text) = Some req_id /\
  error_of (text_result req_id text) = None /\
  result_text_of (text_result req_id text) = Some text.
Proof. repeat split. Qed.

Lemma error_response_read (req_id : json) (code : Z) (message : pystr) :
  id_of (error_response req_id code message) = Some req_id /\
  result_member_of (error_response req_id code message) = None /\
  error_code_of (error_response req_id code message) = Some code /\
  error_message_of (error_response req_id code message) = Some message.
Proof. repeat split. Qed.

Lemma print_flush_run (msg : json) (i : bool) :
  print_flush msg i = ([Print msg; Flush], i, Ok tt).
Proof. reflexivity. Qed.

Lemma get_dict (rt : Runtime) (kvs : list (pystr * json)) (k : string)
  (d : json) : get rt (JObj kvs) k d = Ok (dict_get kvs k d).
Proof. reflexivity. Qed.

Lemma get_not_dict (rt : Runtime) (v : json) (k : string) (d : json) :
  is_dict v = false ->
  get rt v k d = raise_error rt AttributeError v (str "get").
Proof. destruct v; simpl; intros H; try reflexivity; discriminate. Qed.

(** *** Computations that print nothing and leave [initialized] alone *)

Lemma prints_app (tr tr' : list effect) :
  prints (tr ++ tr') = prints tr ++ prints tr'.
Proof.
  induction tr as [|[msg| |url t] tr IH]; simpl; rewrite ?IH; reflexivity.
Qed.

Lemma responses_app (tr tr' : list effect) :
  responses (tr ++ tr') = responses tr ++ responses tr'.
Proof.
  induction tr as [|[msg| |url t] tr IH]; simpl; rewrite ?IH; try reflexivity.
  destruct (is_response msg); simpl; rewrite ?IH; reflexivity.
Qed.

Lemma prints_nil_responses (tr : list effect) :
  prints tr = [] -> responses tr = [].
Proof.
  induction tr as [|[msg| |url t] tr IH]; simpl; auto; discriminate.
Qed.

Lemma notifications_app (method : string) (tr tr' : list effect) :
  notifications method (tr ++ tr')
  = notifications method tr ++ notifications method tr'.
Proof.
  induction tr as [|[msg| |url t] tr IH]; cbn [notifications app]; auto.
  destruct msg; auto.
  destruct (dict_lookup (u "id") kvs); auto.
  destruct (dict_lookup (u "method") kvs) as [m|]; auto.
  destruct (eq_str m method); simpl; rewrite ?IH; reflexivity.
Qed.

Lemma prints_nil_notifications (method : string) (tr : list effect) :
  prints tr = [] -> notifications method tr = [].
Proof.
  induction tr as [|[msg| |url t] tr IH]; simpl; auto; discriminate.
Qed.

Lemma quiet_ret {A} (a : A) : quiet (ret a).
Proof. intros i; split; reflexivity. Qed.

Lemma quiet_lift {A} (r : result A) : quiet (lift r).
Proof. intros i; split; reflexivity. Qed.

Lemma quiet_fetch (rt : Runtime) (url : pystr) (t : Z) : quiet (fetch rt url t).
Proof.
  intros i; unfold fetch, bind, emit, lift; simpl.
  destruct (urlopen rt url t); split; reflexivity.
Qed.

Ltac outcome := unfold flag_of, trace_of, result_of in *; cbn [fst snd] in *.

Lemma quiet_bind {A B} (m : M A) (f : A -> M B) :
  quiet m -> (forall a, quiet (f a)) -> quiet (bind m f).
Proof.
  intros Hm Hf i; specialize (Hm i); unfold bind.
  destruct (m i) as [[tr i'] [a|e]]; outcome; destruct Hm as [-> Hp].
  - specialize (Hf a i); destruct (f a i) as [[tr' i''] r]; outcome.
    destruct Hf as [-> Hp']; rewrite prints_app, Hp, Hp'; auto.
  - auto.
Qed.

Lemma quiet_try {A} (m : M A) (h : exn -> M A) :
  quiet m -> (forall e, quiet (h e)) -> quiet (try_except m h).
Proof.
  intros Hm Hh i; specialize (Hm i); unfold try_except.
  destruct (m i) as [[tr i'] [a|e]]; outcome; destruct Hm as [-> Hp].
  - auto.
  - specialize (Hh e i); destruct (h e i) as [[tr' i''] r]; outcome.
    destruct Hh as [-> Hp']; rewrite prints_app, Hp, Hp'; auto.
Qed.

Lemma quiet_if {A} (c : bool) (m m' : M A) :
  quiet m -> quiet m' -> quiet (if c then m else m').
Proof. destruct c; auto. Qed.

Ltac quiet_steps :=
  repeat first
    [ apply quiet_ret | apply quiet_lift | apply quiet_fetch
    | apply quiet_if | apply quiet_bind; [|intros ?] ].

(** A quiet computation in full: its trace holds no response. *)
Lemma quiet_outcome {A} (m : M A) (i : bool) :
  quiet m ->
  exists tr r, m i = (tr, i, r) /\ prints tr = [].
Proof.
  intros H; specialize (H i); destruct (m i) as [[tr i'] r]; outcome.
  destruct H as [-> Hp]; eauto.
Qed.

(** *** The loop *)

Section LoopFacts.
Variable rt : Runtime.
Variable handle : json -> M unit.

Lemma iteration_decoded (i : bool) (line : pystr) (req : json) :
  decodes_to rt line req ->
  iteration rt handle i line =
  match handle req i with
  | (tr, i', Ok _) => (Running i', tr)
  | (tr, i', Raise e) =>
      match exn_class_of e with
      | JSONDecodeError => (Running i', tr)
      | _ => (Exited, tr)
      end
  end.
Proof.
  intros [Hs Hl]; unfold iteration.
  destruct line as [|c line]; [exfalso; apply Hs; reflexivity|].
  destruct (strip (c :: line)) as [|d s] eqn:E; [congruence|].
  rewrite Hl; reflexivity.
Qed.

Lemma iteration_skipped (i : bool) (line : pystr) (e : exn) :
  line <> [] -> json_loads rt (strip line) = Raise e ->
  exn_class_of e = JSONDecodeError ->
  iteration rt handle i line = (Running i, []).
Proof.
  intros Hn Hl He; unfold iteration.
  destruct line as [|c line]; [congruence|].
  destruct (strip (c :: line)) as [|d s]; [reflexivity|].
  rewrite Hl, He; reflexivity.
Qed.

Lemma iteration_undecoded (i : bool) (line : pystr) (e : exn) :
  strip line <> [] -> json_loads rt (strip line) = Raise e ->
  exn_class_of e <> JSONDecodeError ->
  iteration rt handle i line = (Exited, []).
Proof.
  intros Hs Hl He; unfold iteration.
  destruct line as [|c line]; [exfalso; apply Hs; reflexivity|].
  destruct (strip (c :: line)) as [|d s]; [congruence|].
  rewrite Hl; destruct (exn_class_of e); congruence.
Qed.

Lemma run_exited (evs : list event) : run rt handle Exited evs = (Exited, []).
Proof. induction evs as [|ev evs IH]; simpl; rewrite ?IH; reflexivity. Qed.

Lemma run_cons (p : process) (ev : event) (evs : list event) :
  run rt handle p (ev :: evs) =
  (fst (run rt handle (fst (step rt handle p ev)) evs),
   snd (step rt handle p ev)
   ++ snd (run rt handle (fst (step rt handle p ev)) evs)).
Proof.
  simpl; destruct (step rt handle p ev) as [p' tr]; simpl.
  destruct (run rt handle p' evs); reflexivity.
Qed.

Lemma run_lingering (evs : list event) :
  forallb (fun ev => negb (is_signal ev)) evs = true ->
  run rt handle Lingering evs = (Lingering, []).
Proof.
  induction evs as [|ev evs IH]; simpl; [reflexivity|].
  rewrite andb_true_iff; intros [Hev Hevs].
  destruct ev; simpl in *; try discriminate; rewrite IH; auto.
Qed.

End LoopFacts.

(** *** Computations that leave [initialized] alone *)

Lemma quiet_keeps_flag {A} (m : M A) : quiet m -> keeps_flag m.
Proof. intros H i; apply H. Qed.

Lemma keeps_flag_print_flush (msg : json) : keeps_flag (print_flush msg).
Proof. intros i; reflexivity. Qed.

Lemma keeps_flag_bind {A B} (m : M A) (f : A -> M B) :
  keeps_flag m -> (forall a, keeps_flag (f a)) -> keeps_flag (bind m f).
Proof.
  intros Hm Hf i; specialize (Hm i); unfold bind.
  destruct (m i) as [[tr i'] [a|e]]; outcome; subst i'; [|reflexivity].
  specialize (Hf a i); destruct (f a i) as [[tr' i''] r]; outcome; assumption.
Qed.

Lemma keeps_flag_if {A} (c : bool) (m m' : M A) :
  keeps_flag m -> keeps_flag m' -> keeps_flag (if c then m else m').
Proof. destruct c; auto. Qed.

(** *** A document that is no [dict] *)

Section NotADict.
Variable rt : Runtime.
Variable v : json.
Hypothesis not_dict : is_dict v = false.

Let attribute_error : exn :=
  Exn AttributeError (error_text rt AttributeError v (str "get")).

Lemma xjg_handle_not_dict (i : bool) :
  Xjg.handle rt v i = ([], i, Raise attribute_error).
Proof.
  unfold Xjg.handle; rewrite (get_not_dict rt v "method" JNull not_dict).
  reflexivity.
Qed.

Lemma xavier_handle_not_dict (i : bool) :
  Xavier.handle rt v i = ([], i, Raise attribute_error).
Proof.
  unfold Xavier.handle; rewrite (get_not_dict rt v "method" JNull not_dict).
  reflexivity.
Qed.

End NotADict.

(** *** The dispatch on a [dict] *)

Section Dispatch.
Variable rt : Runtime.
Variable kvs : list (pystr * json).

Let method : json := dict_get kvs "method" JNull.
Let req_id : json := dict_get kvs "id" JNull.

Lemma xjg_handle_dict (i : bool) :
  Xjg.handle rt (JObj kvs) i =
  (if eq_str method "initialize" then
     bind (if is_not_none req_id
           then print_flush (Xjg.initialize_response req_id) else ret tt)
       (fun _ => bind (set_initialized true)
                   (fun _ => Xjg.send_tool_declaration))
   else if eq_str method "tools/list" then
     if is_not_none req_id
     then print_flush (Xjg.tools_list_response req_id) else ret tt
   else if eq_str method "tools/call" then
     if is_not_none req_id then
       bind (lift (tool_name_of rt (JObj kvs)))
         (fun tool_name =>
            bind (Xjg.call_tool rt (JObj kvs) req_id tool_name)
              (fun response => print_flush response))
     else ret tt
   else
     if is_not_none req_id
     then print_flush (error_response req_id (-32601)
                         (u "Unknown method: " ++ fmt rt method))
     else ret tt) i.
Proof.
  unfold Xjg.handle; cbn [get]; rewrite !bind_lift_ok; reflexivity.
Qed.

Lemma xavier_handle_dict (i : bool) :
  Xavier.handle rt (JObj kvs) i =
  (if eq_str method "initialize" then
     bind (if is_not_none req_id
           then print_flush (Xavier.initialize_response req_id) else ret tt)
       (fun _ => bind (set_initialized true)
                   (fun _ => Xavier.send_tool_declaration))
   else if eq_str method "tools/list" then
     if is_not_none req_id
     then print_flush (Xavier.tools_list_response req_id) else ret tt
   else if eq_str method "tools/call" then
     if is_not_none req_id then
       bind (lift (tool_name_of rt (JObj kvs)))
         (fun tool_name =>
            bind (Xavier.call_tool rt (JObj kvs) req_id tool_name)
              (fun response => print_flush response))
     else ret tt
   else
     if is_not_none req_id
     then print_flush (error_response req_id (-32601)
                         (u "Unknown method: " ++ fmt rt method))
     else ret tt) i.
Proof.
  unfold Xavier.handle; cbn [get]; rewrite !bind_lift_ok; reflexivity.
Qed.

Lemma backup_handle_dict (i : bool) :
  XjgBackup.handle rt (JObj kvs) i =
  (if eq_str method "initialize" then
     bind (if is_not_none req_id
           then print_flush (XjgBackup.initialize_response req_id)
           else ret tt)
       (fun _ => bind (set_initialized true)
                   (fun _ => XjgBackup.send_tool_declaration))
   else if eq_str method "tools/call" then
     if is_not_none req_id then
       bind (lift (tool_name_of rt (JObj kvs)))
         (fun tool_name =>
            bind (XjgBackup.call_tool rt (JObj kvs) req_id tool_name)
              (fun response => print_flush response))
     else ret tt
   else
     if is_not_none req_id
     then print_flush (error_response req_id (-32601)
                         (u "Unknown method: " ++ fmt rt method))
     else ret tt) i.
Proof.
  unfold XjgBackup.handle; cbn [get]; rewrite !bind_lift_ok; reflexivity.
Qed.

End Dispatch.

(* ===================================================================== *)
(** ** The word counts *)
(* ===================================================================== *)

(** C2, as the script computes it: [word_count] on the empty string
    reports 0 words, 0 characters, 0 characters without spaces and 0
    lines; on ["a b  c"], with two spaces between [b] and [c], it reports
    3 words, 6 characters and 3 characters without spaces (and 1 line),
    in the report of [xjg.py]. *)
Theorem word_count_literal_cases (rt : Runtime) :
  count_words [] = WordStats 0 0 0 0 /\
  count_words (u "a b  c") = WordStats 3 6 3 1 /\
  word_count_text rt Xjg.word_count_report (str "")
  = Ok (u "Text Analysis:" ++ [10; 0x1f4dd] ++ u " Words: 0"
        ++ [10; 0x1f524] ++ u " Characters: 0"
        ++ [10; 0x1f524] ++ u " Characters (no spaces): 0"
        ++ [10; 0x1f4c4] ++ u " Lines: 0") /\
  word_count_text rt Xjg.word_count_report (str "a b  c")
  = Ok (u "Text Analysis:" ++ [10; 0x1f4dd] ++ u " Words: 3"
        ++ [10; 0x1f524] ++ u " Characters: 6"
        ++ [10; 0x1f524] ++ u " Characters (no spaces): 3"
        ++ [10; 0x1f4c4] ++ u " Lines: 1").
Proof. repeat split. Qed.

(** C2 as the specification words it fails: on ["a b  c"] the count of
    characters without spaces is not 4. *)
Lemma word_count_no_spaces_is_not_4 :
  ~ (word_count (count_words (u "a b  c")) = 3 /\
     char_count (count_words (u "a b  c")) = 6 /\
     char_count_no_spaces (count_words (u "a b  c")) = 4).
Proof. intros (_ & _ & H); vm_compute in H; discriminate. Qed.

(* ===================================================================== *)
(** ** Lines that do not decode, and documents that are no object *)
(* ===================================================================== *)

(** C9, as the script does it: a line on which [json.loads] raises
    [json.JSONDecodeError] is answered by nothing, leaves the loop
    running in the same state, and the lines after it are processed as
    if it had not been there. *)
Theorem malformed_line_skipped (rt : Runtime) (b : bool) (line : pystr)
  (e : exn) (rest : list event) :
  line <> [] ->
  json_loads rt (strip line) = Raise e ->
  exn_class_of e = JSONDecodeError ->
  Xjg.step rt (Running b) (Readline line) = (Running b, []) /\
  responses (snd (Xjg.step rt (Running b) (Readline line))) = [] /\
  Xjg.run rt (Running b) (Readline line :: rest)
  = Xjg.run rt (Running b) rest.
Proof.
  intros Hn Hl He.
  assert (E : Xjg.step rt (Running b) (Readline line) = (Running b, []))
    by (apply (iteration_skipped _ _ _ _ e); assumption).
  split; [exact E|].
  split; [rewrite E; reflexivity|].
  unfold Xjg.run, Xjg.step in *; rewrite run_cons, E; cbn [fst snd app].
  destruct (run rt (Xjg.handle rt) (Running b) rest); reflexivity.
Qed.

Lemma malformed_line_skipped_witness :
  Xjg.step Sample.offline (Running false) (Readline Sample.malformed_line)
  = (Running false, []) /\
  responses (snd (Xjg.step Sample.offline (Running false)
                    (Readline Sample.malformed_line))) = [] /\
  Xjg.run Sample.offline (Running false)
    [Readline Sample.malformed_line; Readline (Sample.line_of Sample.ping_10)]
  = Xjg.run Sample.offline (Running false)
      [Readline (Sample.line_of Sample.ping_10)].
Proof.
  apply (malformed_line_skipped Sample.offline false Sample.malformed_line
           (Exn JSONDecodeError (u "Expecting value"))
           [Readline (Sample.line_of Sample.ping_10)]); evaluated.
Defined.

(** C9 as the specification words it fails: a line of a thousand
    opening brackets is not valid JSON, and [json.loads] raises
    [RecursionError] on it, which [except json.JSONDecodeError] does
    not catch; the loop of [xjg.py] ends, and the valid line after it,
    answered when it comes alone, is not processed. *)
Lemma deeply_nested_line_ends_loop :
  json_loads Sample.offline (strip Sample.deep_line)
  = Raise (Exn RecursionError
             (u "maximum recursion depth exceeded while decoding a JSON array from a unicode string")) /\
  Xjg.step Sample.offline (Running true) (Readline Sample.deep_line)
  = (Exited, []) /\
  Xjg.run Sample.offline (Running true)
    [Readline Sample.deep_line; Readline (Sample.line_of Sample.ping_10)]
  = (Exited, []) /\
  Xjg.run Sample.offline (Running true)
    [Readline (Sample.line_of Sample.ping_10)]
  = (Running true,
     [Print (error_response (JInt 10) (-32601) (u "Unknown method: ping"));
      Flush]).
Proof.
  evaluated.
Qed.

(** C10: a line that decodes to a document that is no object (an array,
    a string, a number, [null]) ends the loop of [xjg.py] and of
    [xavier.py]: nothing is printed for it and no later line is
    processed, where a malformed line is only skipped. *)
Theorem non_object_document_ends_loop (rt : Runtime) (b : bool)
  (line : pystr) (v : json) (rest : list event) :
  decodes_to rt line v ->
  is_dict v = false ->
  Xjg.step rt (Running b) (Readline line) = (Exited, []) /\
  Xavier.step rt (Running b) (Readline line) = (Exited, []) /\
  Xjg.run rt (Running b) (Readline line :: rest) = (Exited, []) /\
  Xavier.run rt (Running b) (Readline line :: rest) = (Exited, []).
Proof.
  intros Hd Hv.
  assert (E1 : Xjg.step rt (Running b) (Readline line) = (Exited, [])).
  { unfold Xjg.step; cbn [step]; rewrite (iteration_decoded _ _ _ _ _ Hd).
    rewrite (xjg_handle_not_dict rt v Hv); reflexivity. }
  assert (E2 : Xavier.step rt (Running b) (Readline line) = (Exited, [])).
  { unfold Xavier.step; cbn [step]; rewrite (iteration_decoded _ _ _ _ _ Hd).
    rewrite (xavier_handle_not_dict rt v Hv); reflexivity. }
  repeat split; try assumption.
  - unfold Xjg.run, Xjg.step in *; rewrite run_cons, E1; cbn [fst snd].
    rewrite run_exited; reflexivity.
  - unfold Xavier.run, Xavier.step in *; rewrite run_cons, E2; cbn [fst snd].
    rewrite run_exited; reflexivity.
Qed.

Lemma non_object_document_ends_loop_witness :
  Xjg.run Sample.offline (Running true)
    [Readline (Sample.line_of (JArr []));
     Readline (Sample.line_of Sample.ping_10)]
  = (Exited, []).
Proof.
  apply (non_object_document_ends_loop Sample.offline true
           (Sample.line_of (JArr [])) (JArr [])
           [Readline (Sample.line_of Sample.ping_10)]); evaluated.
Defined.

(* ===================================================================== *)
(** ** [initialize], [tools/list] and the unknown names *)
(* ===================================================================== *)

Section Methods.
Variable rt : Runtime.
Variable kvs : list (pystr * json).

Let method : json := dict_get kvs "method" JNull.
Let req_id : json := dict_get kvs "id" JNull.

Lemma xjg_handle_initialize (i : bool) :
  method = str "initialize" ->
  Xjg.handle rt (JObj kvs) i =
  ((if is_not_none req_id
    then [Print (Xjg.initialize_response req_id); Flush] else [])
   ++ [Print Xjg.tool_declaration; Flush], true, Ok tt).
Proof.
  intros Hm; rewrite xjg_handle_dict; fold method req_id.
  rewrite Hm, eq_str_refl; destruct (is_not_none req_id); reflexivity.
Qed.

Lemma xjg_handle_tools_list (i : bool) :
  method = str "tools/list" ->
  Xjg.handle rt (JObj kvs) i =
  (if is_not_none req_id
   then [Print (Xjg.tools_list_response req_id); Flush] else [], i, Ok tt).
Proof.
  intros Hm; rewrite xjg_handle_dict; fold method req_id.
  rewrite Hm; change (eq_str (str "tools/list") "initialize") with false.
  rewrite eq_str_refl; destruct (is_not_none req_id); reflexivity.
Qed.

Lemma xavier_handle_tools_list (i : bool) :
  method = str "tools/list" ->
  Xavier.handle rt (JObj kvs) i =
  (if is_not_none req_id
   then [Print (Xavier.tools_list_response req_id); Flush] else [], i, Ok tt).
Proof.
  intros Hm; rewrite xavier_handle_dict; fold method req_id.
  rewrite Hm; change (eq_str (str "tools/list") "initialize") with false.
  rewrite eq_str_refl; destruct (is_not_none req_id); reflexivity.
Qed.

Lemma backup_handle_tools_list (i : bool) :
  method = str "tools/list" ->
  XjgBackup.handle rt (JObj kvs) i =
  (if is_not_none req_id
   then [Print (error_response req_id (-32601)
                  (u "Unknown method: tools/list")); Flush]
   else [], i, Ok tt).
Proof.
  intros Hm; rewrite backup_handle_dict; fold method req_id.
  rewrite Hm; change (eq_str (str "tools/list") "initialize") with false.
  change (eq_str (str "tools/list") "tools/call") with false.
  destruct (is_not_none req_id); reflexivity.
Qed.

Lemma xjg_handle_call_notification (i : bool) :
  method = str "tools/call" -> req_id = JNull ->
  Xjg.handle rt (JObj kvs) i = ([], i, Ok tt).
Proof.
  intros Hm Hi; rewrite xjg_handle_dict; fold method req_id.
  rewrite Hm, Hi; reflexivity.
Qed.

Lemma xavier_handle_call_notification (i : bool) :
  method = str "tools/call" -> req_id = JNull ->
  Xavier.handle rt (JObj kvs) i = ([], i, Ok tt).
Proof.
  intros Hm Hi; rewrite xavier_handle_dict; fold method req_id.
  rewrite Hm, Hi; reflexivity.
Qed.

Lemma xjg_handle_unknown_method (i : bool) :
  method <> str "initialize" -> method <> str "tools/list" ->
  method <> str "tools/call" ->
  Xjg.handle rt (JObj kvs) i =
  (if is_not_none req_id
   then [Print (error_response req_id (-32601)
                  (u "Unknown method: " ++ fmt rt method)); Flush]
   else [], i, Ok tt).
Proof.
  intros H1 H2 H3; rewrite xjg_handle_dict; fold method req_id.
  apply eq_str_false in H1, H2, H3; rewrite H1, H2, H3.
  destruct (is_not_none req_id); reflexivity.
Qed.

Lemma xjg_handle_unknown_tool (i : bool) (tool_name : json) :
  method = str "tools/call" -> req_id <> JNull ->
  tool_name_of rt (JObj kvs) = Ok tool_name ->
  xjg_tool tool_name = false ->
  Xjg.handle rt (JObj kvs) i =
  ([Print (error_response req_id (-32601)
             (u "Unknown tool: " ++ fmt rt tool_name)); Flush], i, Ok tt).
Proof.
  intros Hm Hi Hn Ht; rewrite xjg_handle_dict; fold method req_id.
  apply is_not_none_true in Hi; rewrite Hm, Hi, Hn.
  change (eq_str (str "tools/call") "initialize") with false.
  change (eq_str (str "tools/call") "tools/list") with false.
  rewrite eq_str_refl, bind_lift_ok.
  unfold xjg_tool in Ht; rewrite !orb_false_iff in Ht.
  destruct Ht as [[[H1 H2] H3] H4].
  unfold Xjg.call_tool; rewrite H1, H2, H3, H4; reflexivity.
Qed.

End Methods.

(** What one turn of the loop of [xjg.py] does on a line that decodes
    to a [dict] on which the dispatch does not raise. *)
Lemma xjg_step_handled (rt : Runtime) (b : bool) (line : pystr)
  (req : json) (tr : list effect) (b' : bool) :
  decodes_to rt line req ->
  Xjg.handle rt req b = (tr, b', Ok tt) ->
  Xjg.step rt (Running b) (Readline line) = (Running b', tr).
Proof.
  intros Hd Hh; unfold Xjg.step; cbn [step].
  rewrite (iteration_decoded _ _ _ _ _ Hd), Hh; reflexivity.
Qed.

Lemma xavier_step_handled (rt : Runtime) (b : bool) (line : pystr)
  (req : json) (tr : list effect) (b' : bool) :
  decodes_to rt line req ->
  Xavier.handle rt req b = (tr, b', Ok tt) ->
  Xavier.step rt (Running b) (Readline line) = (Running b', tr).
Proof.
  intros Hd Hh; unfold Xavier.step; cbn [step].
  rewrite (iteration_decoded _ _ _ _ _ Hd), Hh; reflexivity.
Qed.

Lemma backup_step_handled (rt : Runtime) (b : bool) (line : pystr)
  (req : json) (tr : list effect) (b' : bool) :
  decodes_to rt line req ->
  XjgBackup.handle rt req b = (tr, b', Ok tt) ->
  XjgBackup.step rt (Running b) (Readline line) = (Running b', tr).
Proof.
  intros Hd Hh; unfold XjgBackup.step; cbn [step].
  rewrite (iteration_decoded _ _ _ _ _ Hd), Hh; reflexivity.
Qed.



(** C3, as the scripts have it: a [tools/call] message without an id is
    not answered and its tool is not run either; the dispatch of
    [xjg.py] and of [xavier.py] does nothing at all on it (no output, no
    fetch, [params] not even read) and the loop goes on unchanged. *)
Theorem call_notification_runs_nothing (rt : Runtime) (b : bool)
  (line : pystr) (kvs : list (pystr * json)) :
  decodes_to rt line (JObj kvs) ->
  dict_get kvs "method" JNull = str "tools/call" ->
  dict_get kvs "id" JNull = JNull ->
  Xjg.handle rt (JObj kvs) b = ([], b, Ok tt) /\
  Xavier.handle rt (JObj kvs) b = ([], b, Ok tt) /\
  Xjg.step rt (Running b) (Readline line) = (Running b, []) /\
  Xavier.step rt (Running b) (Readline line) = (Running b, []).
Proof.
  intros Hd Hm Hi.
  pose proof (xjg_handle_call_notification rt kvs b Hm Hi) as H1.
  pose proof (xavier_handle_call_notification rt kvs b Hm Hi) as H2.
  repeat split; try assumption.
  - exact (xjg_step_handled _ _ _ _ _ _ Hd H1).
  - exact (xavier_step_handled _ _ _ _ _ _ Hd H2).
Qed.

Lemma call_notification_runs_nothing_witness :
  Xjg.step (Sample.serving Sample.forecast) (Running true)
    (Readline (Sample.line_of Sample.weather_notification))
  = (Running true, []).
Proof.
  apply (call_notification_runs_nothing (Sample.serving Sample.forecast) true
           (Sample.line_of Sample.weather_notification)
           (Sample.members Sample.weather_notification)); evaluated.
Defined.

(** C3 as the specification words it fails: on a [weather] call without
    an id nothing is fetched, where the same call with an id fetches. *)
Lemma weather_notification_fetches_nothing :
  ~ (exists url,
       In url (fetches (snd (Xjg.step (Sample.serving Sample.forecast)
                               (Running true)
                               (Readline (Sample.line_of
                                            Sample.weather_notification))))))
  /\ fetches (snd (Xjg.step (Sample.serving Sample.forecast) (Running true)
                     (Readline (Sample.line_of Sample.weather_5))))
     = [u "https://wttr.in/Denver?format=j1"].
Proof.
  split; [|reflexivity].
  intros [url H]; vm_compute in H; exact H.
Qed.

(** C5, as the scripts have it: [xjg.py] and [xavier.py] answer a
    [tools/list] request that has an id with the sequence of tool
    descriptors, one per declared tool and in the order of the
    declaration, each with the name, description and schema declared;
    [xjg_backup.py] has no [tools/list] branch and answers the request
    with the error -32601 "Unknown method: tools/list". *)
Theorem tools_list_answer (rt : Runtime) (b : bool) (line : pystr)
  (kvs : list (pystr * json)) :
  decodes_to rt line (JObj kvs) ->
  dict_get kvs "method" JNull = str "tools/list" ->
  dict_get kvs "id" JNull <> JNull ->
  let req_id := dict_get kvs "id" JNull in
  Xjg.step rt (Running b) (Readline line)
  = (Running b, [Print (Xjg.tools_list_response req_id); Flush]) /\
  listed_tools (Xjg.tools_list_response req_id)
  = map descriptor (declared_tools Xjg.tool_declaration) /\
  error_of (Xjg.tools_list_response req_id) = None /\
  Xavier.step rt (Running b) (Readline line)
  = (Running b, [Print (Xavier.tools_list_response req_id); Flush]) /\
  listed_tools (Xavier.tools_list_response req_id)
  = map descriptor (declared_tools Xavier.tool_declaration) /\
  error_of (Xavier.tools_list_response req_id) = None /\
  XjgBackup.step rt (Running b) (Readline line)
  = (Running b,
     [Print (error_response req_id (-32601)
               (u "Unknown method: tools/list")); Flush]).
Proof.
  intros Hd Hm Hi req_id.
  apply is_not_none_true in Hi.
  pose proof (xjg_handle_tools_list rt kvs b Hm) as H1.
  pose proof (xavier_handle_tools_list rt kvs b Hm) as H2.
  pose proof (backup_handle_tools_list rt kvs b Hm) as H3.
  rewrite Hi in H1, H2, H3.
  repeat split.
  - exact (xjg_step_handled _ _ _ _ _ _ Hd H1).
  - exact (xavier_step_handled _ _ _ _ _ _ Hd H2).
  - exact (backup_step_handled _ _ _ _ _ _ Hd H3).
Qed.

Lemma tools_list_answer_witness :
  Xjg.step Sample.offline (Running true)
    (Readline (Sample.line_of Sample.list_2))
  = (Running true, [Print (Xjg.tools_list_response (JInt 2)); Flush]).
Proof.
  apply (tools_list_answer Sample.offline true
           (Sample.line_of Sample.list_2) (Sample.members Sample.list_2));
    evaluated.
Defined.

(** C5 as the specification words it fails: [xjg_backup.py] answers
    [tools/list] with an "Unknown method" error. *)
Lemma backup_tools_list_is_unknown_method :
  XjgBackup.step Sample.offline (Running true)
    (Readline (Sample.line_of Sample.list_2))
  = (Running true,
     [Print (error_response (JInt 2) (-32601)
               (u "Unknown method: tools/list")); Flush]).
Proof. vm_compute; reflexivity. Qed.

(** C7: in [xjg.py], a [tools/call] request with an id whose
    [params.name] is none of the tools of the script is answered by one
    message, printed and flushed, that carries the id of the request,
    has no ["result"] and has an ["error"] whose ["code"] is -32601 and
    whose ["message"] is [Unknown tool: ] followed by the name, so that
    it holds the name; a request with an id whose method is none of
    [initialize], [tools/list], [tools/call] is answered by one such
    message with the same code, whose ["message"] is [Unknown method: ]
    followed by the method. Nothing else is printed and the loop goes
    on in the same state. *)
Theorem unknown_tool_and_method_errors (rt : Runtime) (b : bool)
  (line : pystr) (kvs : list (pystr * json)) :
  decodes_to rt line (JObj kvs) ->
  dict_get kvs "id" JNull <> JNull ->
  let method := dict_get kvs "method" JNull in
  let req_id := dict_get kvs "id" JNull in
  (forall tool_name,
     method = str "tools/call" ->
     tool_name_of rt (JObj kvs) = Ok tool_name ->
     xjg_tool tool_name = false ->
     exists response message,
       Xjg.step rt (Running b) (Readline line)
       = (Running b, [Print response; Flush]) /\
       id_of response = Some req_id /\
       result_member_of response = None /\
       error_code_of response = Some (-32601)%Z /\
       error_message_of response = Some message /\
       message = u "Unknown tool: " ++ fmt rt tool_name /\
       contains message (fmt rt tool_name) /\
       (forall s, tool_name = JStr s -> contains message s)) /\
  (method <> str "initialize" ->
   method <> str "tools/list" ->
   method <> str "tools/call" ->
   exists response message,
     Xjg.step rt (Running b) (Readline line)
     = (Running b, [Print response; Flush]) /\
     id_of response = Some req_id /\
     result_member_of response = None /\
     error_code_of response = Some (-32601)%Z /\
     error_message_of response = Some message /\
     message = u "Unknown method: " ++ fmt rt method /\
     contains message (fmt rt method) /\
     (forall s, method = JStr s -> contains message s)).
Proof.
  intros Hd Hi method req_id; split.
  - intros tool_name Hm Hn Ht.
    exists (error_response req_id (-32601)
              (u "Unknown tool: " ++ fmt rt tool_name)),
      (u "Unknown tool: " ++ fmt rt tool_name).
    split; [|repeat split].
    + apply (xjg_step_handled _ _ _ _ _ _ Hd).
      apply xjg_handle_unknown_tool; assumption.
    + apply contains_suffix.
    + intros s ->; apply contains_suffix.
  - intros H1 H2 H3.
    exists (error_response req_id (-32601)
              (u "Unknown method: " ++ fmt rt method)),
      (u "Unknown method: " ++ fmt rt method).
    split; [|repeat split].
    + apply (xjg_step_handled _ _ _ _ _ _ Hd).
      rewrite (xjg_handle_unknown_method rt kvs b H1 H2 H3).
      apply is_not_none_true in Hi; rewrite Hi; reflexivity.
    + apply contains_suffix.
    + intros s Hs; fold method; rewrite Hs; apply contains_suffix.
Qed.

Lemma unknown_tool_and_method_errors_witness :
  (exists response message,
     Xjg.step Sample.offline (Running true)
       (Readline (Sample.line_of Sample.unknown_tool_9))
     = (Running true, [Print response; Flush]) /\
     id_of response = Some (JInt 9) /\
     error_code_of response = Some (-32601)%Z /\
     error_message_of response = Some message /\
     contains message (u "translate")) /\
  (exists response message,
     Xjg.step Sample.offline (Running true)
       (Readline (Sample.line_of Sample.ping_10))
     = (Running true, [Print response; Flush]) /\
     id_of response = Some (JInt 10) /\
     error_code_of response = Some (-32601)%Z /\
     error_message_of response = Some message /\
     contains message (u "ping")).
Proof.
  split.
  - destruct (unknown_tool_and_method_errors Sample.offline true
                (Sample.line_of Sample.unknown_tool_9)
                (Sample.members Sample.unknown_tool_9)) as [H _];
      [evaluated | evaluated |].
    destruct (H (str "translate"))
      as (response & message & E & Hid & _ & Hc & Hm & _ & Hn & _);
      [evaluated | evaluated | evaluated |].
    exists response, message; repeat split; assumption.
  - destruct (unknown_tool_and_method_errors Sample.offline true
                (Sample.line_of Sample.ping_10)
                (Sample.members Sample.ping_10)) as [_ H];
      [evaluated | evaluated |].
    destruct H
      as (response & message & E & Hid & _ & Hc & Hm & _ & Hn & _);
      [evaluated | evaluated | evaluated |].
    exists response, message; repeat split; assumption.
Defined.

(* ===================================================================== *)
(** ** The flag [initialized] and the end of the input *)
(* ===================================================================== *)

Lemma xjg_weather_info_quiet (rt : Runtime) (city : json) :
  quiet (Xjg.weather_info rt city).
Proof.
  apply quiet_try.
  - unfold Xjg.weather_try; quiet_steps.
  - intros e; unfold Xjg.weather_except.
    destruct (exn_class_of e); apply quiet_ret.
Qed.

Lemma xjg_call_tool_quiet (rt : Runtime) (req req_id tool_name : json) :
  quiet (Xjg.call_tool rt req req_id tool_name).
Proof.
  unfold Xjg.call_tool; quiet_steps; apply xjg_weather_info_quiet.
Qed.

(** In [xjg.py] only an [initialize] message sets the flag. *)
Lemma xjg_handle_flag (rt : Runtime) (req : json) (i : bool) :
  flag_of (Xjg.handle rt req i) = i || is_initialize req.
Proof.
  destruct (is_dict req) eqn:Hd.
  - destruct req; try discriminate; rewrite xjg_handle_dict.
    cbn [is_initialize].
    destruct (eq_str (dict_get kvs "method" JNull) "initialize").
    + rewrite orb_true_r.
      destruct (is_not_none (dict_get kvs "id" JNull)); reflexivity.
    + rewrite orb_false_r.
      enough (H : keeps_flag
                    (if eq_str (dict_get kvs "method" JNull) "tools/list"
                     then
                       if is_not_none (dict_get kvs "id" JNull)
                       then print_flush
                              (Xjg.tools_list_response
                                 (dict_get kvs "id" JNull))
                       else ret tt
                     else
                       if eq_str (dict_get kvs "method" JNull) "tools/call"
                       then
                         if is_not_none (dict_get kvs "id" JNull)
                         then
                           bind (lift (tool_name_of rt (JObj kvs)))
                             (fun tool_name =>
                                bind (Xjg.call_tool rt (JObj kvs)
                                        (dict_get kvs "id" JNull) tool_name)
                                  (fun response => print_flush response))
                         else ret tt
                       else
                         if is_not_none (dict_get kvs "id" JNull)
                         then print_flush
                                (error_response (dict_get kvs "id" JNull)
                                   (-32601)
                                   (u "Unknown method: "
                                    ++ fmt rt (dict_get kvs "method" JNull)))
                         else ret tt)) by apply H.
      repeat first
        [ apply keeps_flag_print_flush
        | apply quiet_keeps_flag; first [apply quiet_ret | apply quiet_lift
                                        | apply xjg_call_tool_quiet]
        | apply keeps_flag_if
        | apply keeps_flag_bind; [|intros ?] ].
  - rewrite (xjg_handle_not_dict rt req Hd).
    destruct req; try discriminate; rewrite orb_false_r; reflexivity.
Qed.

Lemma xjg_iteration_flag (rt : Runtime) (b b' : bool) (line : pystr)
  (tr : list effect) :
  iteration rt (Xjg.handle rt) b line = (Running b', tr) ->
  b' = b || initialize_line rt line.
Proof.
  unfold iteration, initialize_line.
  destruct line as [|c line]; [destruct b; discriminate|].
  destruct (strip (c :: line)) as [|d s].
  - intros H; inversion H; rewrite orb_false_r; reflexivity.
  - destruct (json_loads rt (d :: s)) as [req|e0].
    + pose proof (xjg_handle_flag rt req b) as Hf.
      destruct (Xjg.handle rt req b) as [[tr' i'] [[]|e]]; outcome.
      * intros H; inversion H; congruence.
      * destruct (exn_class_of e); intros H; inversion H; congruence.
    + destruct (exn_class_of e0); intros H; inversion H;
        rewrite orb_false_r; reflexivity.
Qed.

Lemma run_not_running_again (rt : Runtime) (handle : json -> M unit)
  (p : process) (evs : list event) (b : bool) (tr : list effect) :
  run rt handle p evs = (Running b, tr) -> exists b0, p = Running b0.
Proof.
  revert p tr; induction evs as [|ev evs IH]; intros p tr.
  - simpl; intros H; inversion H; eauto.
  - rewrite run_cons; intros H.
    destruct (run rt handle (fst (step rt handle p ev)) evs) as [p' tr'] eqn:E.
    cbn [fst snd] in H; inversion H; subst p'.
    destruct (IH _ _ E) as [b0 Hb0].
    destruct p; eauto; destruct ev; simpl in Hb0; discriminate.
Qed.

Lemma xjg_run_flag (rt : Runtime) (lines : list pystr) (b b' : bool)
  (tr : list effect) :
  Xjg.run rt (Running b) (map Readline lines) = (Running b', tr) ->
  b' = b || existsb (initialize_line rt) lines.
Proof.
  unfold Xjg.run; revert b tr; induction lines as [|line lines IH];
    intros b tr.
  - simpl; intros H; inversion H; rewrite orb_false_r; reflexivity.
  - cbn [map]; rewrite run_cons; cbn [step existsb].
    destruct (iteration rt (Xjg.handle rt) b line) as [p tr1] eqn:E1.
    cbn [fst snd].
    destruct (run rt (Xjg.handle rt) p (map Readline lines))
      as [p' tr2] eqn:E2.
    cbn [fst snd]; intros H; inversion H; subst p'.
    destruct (run_not_running_again _ _ _ _ _ _ E2) as [b1 ->].
    apply xjg_iteration_flag in E1; apply IH in E2; subst.
    rewrite orb_assoc; reflexivity.
Qed.

(** C8: when the end of the input is read in [xjg.py] after lines none
    of which was an [initialize] message, the process exits; when one of
    them was, the process enters the idle loop instead, stays there
    through any number of sleeps (and reads nothing more), and exits
    when a signal is delivered. *)
Theorem end_of_input (rt : Runtime) (lines : list pystr) (b : bool)
  (tr : list effect) :
  Xjg.run rt (Running false) (map Readline lines) = (Running b, tr) ->
  (existsb (initialize_line rt) lines = false ->
   Xjg.step rt (Running b) (Readline []) = (Exited, [])) /\
  (existsb (initialize_line rt) lines = true ->
   Xjg.step rt (Running b) (Readline []) = (Lingering, []) /\
   (forall evs, forallb (fun ev => negb (is_signal ev)) evs = true ->
                Xjg.run rt Lingering evs = (Lingering, [])) /\
   (forall signum, Xjg.step rt Lingering (Signal signum) = (Exited, []))).
Proof.
  intros H; apply xjg_run_flag in H; cbn [orb] in H; subst b.
  split; intros ->; [reflexivity|].
  split; [reflexivity|]; split; [|reflexivity].
  intros evs Hevs; apply run_lingering; assumption.
Qed.

Lemma end_of_input_witness :
  Xjg.step Sample.offline (Running false) (Readline []) = (Exited, []) /\
  Xjg.run Sample.offline (Running false)
    [Readline (Sample.line_of Sample.initialize_1); Readline [];
     Slept; Slept; Readline (Sample.line_of Sample.ping_10); Slept]
  = (Lingering,
     [Print (Xjg.initialize_response (JInt 1)); Flush;
      Print Xjg.tool_declaration; Flush]) /\
  Xjg.step Sample.offline Lingering (Signal 15) = (Exited, []).
Proof.
  split; [|split].
  - destruct (end_of_input Sample.offline [Sample.line_of Sample.ping_10]
                false
                [Print (error_response (JInt 10) (-32601)
                          (u "Unknown method: ping")); Flush])
      as [H _]; [evaluated|].
    apply H; evaluated.
  - destruct (end_of_input Sample.offline
                [Sample.line_of Sample.initialize_1] true
                [Print (Xjg.initialize_response (JInt 1)); Flush;
                 Print Xjg.tool_declaration; Flush])
      as [_ H]; [evaluated|].
    destruct H as (H1 & H2 & _); [evaluated|].
    unfold Xjg.run in *; rewrite run_cons.
    replace (step Sample.offline (Xjg.handle Sample.offline) (Running false)
               (Readline (Sample.line_of Sample.initialize_1)))
      with (Running true,
            [Print (Xjg.initialize_response (JInt 1)); Flush;
             Print Xjg.tool_declaration; Flush]) by evaluated.
    cbn [fst snd]; rewrite run_cons.
    unfold Xjg.step in H1; rewrite H1; cbn [fst snd].
    rewrite H2 by evaluated; reflexivity.
  - destruct (end_of_input Sample.offline
                [Sample.line_of Sample.initialize_1] true
                [Print (Xjg.initialize_response (JInt 1)); Flush;
                 Print Xjg.tool_declaration; Flush])
      as [_ H]; [evaluated|].
    destruct H as (_ & _ & H3); [evaluated|].
    apply H3.
Defined.

(* ===================================================================== *)
(** ** Tool calls *)
(* ===================================================================== *)

Lemma raise_error_fatal (rt : Runtime) (c : exn_class) (obj key : json) :
  c <> JSONDecodeError -> fatal (Exn c (error_text rt c obj key)).
Proof. intros H; exact H. Qed.


Lemma xavier_step_raised (rt : Runtime) (b : bool) (line : pystr)
  (req : json) (tr : list effect) (b' : bool) (e : exn) :
  decodes_to rt line req ->
  Xavier.handle rt req b = (tr, b', Raise e) -> fatal e ->
  Xavier.step rt (Running b) (Readline line) = (Exited, tr).
Proof.
  intros Hd Hh He; unfold Xavier.step; cbn [step].
  rewrite (iteration_decoded _ _ _ _ _ Hd), Hh.
  unfold fatal in He; destruct (exn_class_of e); congruence.
Qed.

(** *** Reading [params] and [arguments] *)

Section Arguments.
Variable rt : Runtime.
Variable kvs : list (pystr * json).

Lemma tool_name_of_dict (params : list (pystr * json)) :
  dict_get kvs "params" (JObj []) = JObj params ->
  tool_name_of rt (JObj kvs) = Ok (dict_get params "name" JNull).
Proof. intros H; unfold tool_name_of; cbn [get]; rewrite H; reflexivity. Qed.

Lemma tool_name_of_not_dict :
  is_dict (dict_get kvs "params" (JObj [])) = false ->
  exists e, tool_name_of rt (JObj kvs) = Raise e /\ fatal e.
Proof.
  intros H; unfold tool_name_of; cbn [get].
  rewrite (get_not_dict rt _ "name" JNull H).
  eexists; split; [reflexivity | discriminate].
Qed.

Lemma argument_dict (params arguments : list (pystr * json)) (key : string)
  (default : json) :
  dict_get kvs "params" (JObj []) = JObj params ->
  dict_get params "arguments" (JObj []) = JObj arguments ->
  argument rt (JObj kvs) key default = Ok (dict_get arguments key default).
Proof.
  intros Hp Ha; unfold argument; cbn [get]; rewrite Hp; cbn [get].
  rewrite Ha; reflexivity.
Qed.

Lemma argument_not_dict (params : list (pystr * json)) (key : string)
  (default : json) :
  dict_get kvs "params" (JObj []) = JObj params ->
  is_dict (dict_get params "arguments" (JObj [])) = false ->
  exists e, argument rt (JObj kvs) key default = Raise e /\ fatal e.
Proof.
  intros Hp Ha; unfold argument; cbn [get]; rewrite Hp; cbn [get].
  rewrite (get_not_dict rt _ key default Ha).
  eexists; split; [reflexivity | discriminate].
Qed.

End Arguments.

(** *** The text branches *)

Lemma reverse_text_fit (rt : Runtime) (text : json) :
  is_text_or_list text = true -> exists line, reverse_text rt text = Ok line.
Proof.
  destruct text; try discriminate; intros _; unfold reverse_text;
    cbn [slice_reversed]; eauto.
Qed.


Lemma word_count_text_fit (rt : Runtime) (report : word_stats -> pystr)
  (text : json) :
  is_text text = true -> exists line, word_count_text rt report text = Ok line.
Proof. destruct text; try discriminate; intros _; simpl; eauto. Qed.


(** *** The [weather] branch of [xjg.py] *)

(** A fault inside the [try:] becomes the text of its [except] clause. *)
Lemma xjg_weather_fault_text (rt : Runtime) (city : json) (i i' : bool)
  (tr : list effect) (e : exn) :
  Xjg.weather_try rt city i = (tr, i', Raise e) ->
  Xjg.weather_info rt city i =
  (tr, i',
   Ok (match exn_class_of e with
       | URLError =>
           [0x1f310] ++ u " Network error getting weather: " ++ exn_str e
       | _ =>
           [0x26a0; 0xfe0f] ++ u " Error processing weather data: "
           ++ exn_str e
       end)).
Proof.
  intros H; unfold Xjg.weather_info, try_except; rewrite H.
  unfold Xjg.weather_except; destruct (exn_class_of e); unfold ret;
    rewrite app_nil_r; reflexivity.
Qed.

Lemma xjg_weather_info_total (rt : Runtime) (city : json) (i : bool) :
  exists tr text,
    Xjg.weather_info rt city i = (tr, i, Ok text) /\ prints tr = [].
Proof.
  destruct (quiet_outcome _ i (xjg_weather_info_quiet rt city))
    as (tr & r & E & Hp).
  assert (H : exists text, result_of (Xjg.weather_info rt city i) = Ok text).
  { unfold Xjg.weather_info, try_except.
    destruct (Xjg.weather_try rt city i) as [[tr0 i0] [a|e]]; outcome; eauto.
    unfold Xjg.weather_except; destruct (exn_class_of e); unfold ret;
      outcome; eauto. }
  destruct H as [text H]; rewrite E in H; outcome; subst r; eauto.
Qed.

(** *** The chain of tools of [xjg.py] *)

Section XjgCall.
Variable rt : Runtime.
Variable kvs params : list (pystr * json).
Variable req_id : json.
Hypothesis params_dict : dict_get kvs "params" (JObj []) = JObj params.

Let name : json := dict_get params "name" JNull.

Lemma xjg_call_unknown (i : bool) :
  xjg_tool name = false ->
  Xjg.call_tool rt (JObj kvs) req_id name i =
  ([], i, Ok (error_response req_id (-32601)
                (u "Unknown tool: " ++ fmt rt name))).
Proof.
  unfold xjg_tool; rewrite !orb_false_iff; intros [[[H1 H2] H3] H4].
  unfold Xjg.call_tool; rewrite H1, H2, H3, H4; reflexivity.
Qed.


Lemma xjg_call_fit (arguments : list (pystr * json)) (i : bool) :
  xjg_tool name = true ->
  dict_get params "arguments" (JObj []) = JObj arguments ->
  xjg_arguments_fit name arguments = true ->
  exists tr text,
    Xjg.call_tool rt (JObj kvs) req_id name i
    = (tr, i, Ok (text_result req_id text)) /\ prints tr = [].
Proof.
  intros Ht Ha Hf; unfold Xjg.call_tool, xjg_tool, xjg_arguments_fit in *.
  destruct (eq_str name "echo").
  { rewrite (argument_dict rt kvs params arguments _ _ params_dict Ha).
    rewrite bind_lift_ok; unfold ret; eauto. }
  destruct (eq_str name "reverse").
  { rewrite (argument_dict rt kvs params arguments _ _ params_dict Ha).
    rewrite bind_lift_ok.
    destruct (reverse_text_fit rt _ Hf) as [line ->].
    rewrite bind_lift_ok; unfold ret; eauto. }
  destruct (eq_str name "word_count").
  { rewrite (argument_dict rt kvs params arguments _ _ params_dict Ha).
    rewrite bind_lift_ok.
    destruct (word_count_text_fit rt Xjg.word_count_report _ Hf) as [line ->].
    rewrite bind_lift_ok; unfold ret; eauto. }
  destruct (eq_str name "weather"); [|discriminate].
  rewrite (argument_dict rt kvs params arguments _ _ params_dict Ha).
  rewrite bind_lift_ok.
  destruct (xjg_weather_info_total rt
              (dict_get arguments "city" (str "Frisco, Colorado")) i)
    as (tr & text & E & Hp).
  rewrite (bind_outcome _ _ _ _ _ _ E); unfold ret; outcome.
  rewrite app_nil_r; eauto.
Qed.


End XjgCall.

(** The dispatch of [xjg.py] on a [tools/call] request with an id: one
    response when the request fits, an exception before any output when
    it does not. *)
Lemma xjg_handle_call_fit (rt : Runtime) (kvs : list (pystr * json))
  (i : bool) :
  dict_get kvs "method" JNull = str "tools/call" ->
  dict_get kvs "id" JNull <> JNull ->
  xjg_call_fits kvs = true ->
  exists tr name response,
    Xjg.handle rt (JObj kvs) i = (tr ++ [Print response; Flush], i, Ok tt)
    /\ prints tr = []
    /\ tool_name_of rt (JObj kvs) = Ok name
    /\ (if xjg_tool name
        then exists text, response = text_result (dict_get kvs "id" JNull) text
        else response = error_response (dict_get kvs "id" JNull) (-32601)
                          (u "Unknown tool: " ++ fmt rt name)).
Proof.
  intros Hm Hi Hf; rewrite xjg_handle_dict.
  apply is_not_none_true in Hi; rewrite Hm, Hi.
  change (eq_str (str "tools/call") "initialize") with false.
  change (eq_str (str "tools/call") "tools/list") with false.
  rewrite eq_str_refl; cbv iota.
  unfold xjg_call_fits, call_fits in Hf.
  destruct (dict_get kvs "params" (JObj [])) as [| | | | | |params] eqn:Hp;
    try discriminate.
  rewrite (tool_name_of_dict rt kvs params Hp), bind_lift_ok.
  destruct (xjg_tool (dict_get params "name" JNull)) eqn:Ht.
  - destruct (dict_get params "arguments" (JObj []))
      as [| | | | | |arguments] eqn:Ha; try discriminate.
    destruct (xjg_call_fit rt kvs params (dict_get kvs "id" JNull) Hp
                arguments i Ht Ha Hf) as (tr & text & E & Hpr).
    exists tr, (dict_get params "name" JNull),
      (text_result (dict_get kvs "id" JNull) text).
    rewrite (bind_outcome _ _ _ _ _ _ E), Ht; outcome.
    repeat split; eauto.
  - exists [], (dict_get params "name" JNull),
      (error_response (dict_get kvs "id" JNull) (-32601)
         (u "Unknown tool: " ++ fmt rt (dict_get params "name" JNull))).
    rewrite (bind_outcome _ _ _ _ _ _
               (xjg_call_unknown rt kvs params _ i Ht)), Ht.
    repeat split.
Qed.





(** *** The [weather] and [get_availability] branches of [xavier.py] *)

Lemma xavier_weather_info_quiet (rt : Runtime) (city : pystr) :
  quiet (Xavier.weather_info rt city).
Proof.
  apply quiet_try.
  - unfold Xavier.weather_try, Xavier.tomorrow_summary_of.
    repeat first [ progress cbv zeta | progress quiet_steps ].
  - intros e; unfold Xavier.weather_except.
    destruct (exn_class_of e); apply quiet_ret.
Qed.

(** A fault inside the [try:] becomes the text of its [except] clause. *)
Lemma xavier_weather_fault_text (rt : Runtime) (city : pystr) (i i' : bool)
  (tr : list effect) (e : exn) :
  Xavier.weather_try rt city i = (tr, i', Raise e) ->
  Xavier.weather_info rt city i =
  (tr, i',
   Ok (match exn_class_of e with
       | URLError =>
           [0x11f; 0x178; 0x152] ++ u " Network error getting weather for "
           ++ city ++ u ": " ++ exn_str e
       | JSONDecodeError =>
           [0xe2; 0x161; 0xa0; 0xef; 0xb8]
           ++ u " Error parsing weather data for " ++ city
           ++ u ": Invalid response format"
       | KeyError =>
           [0xe2; 0x161; 0xa0; 0xef; 0xb8]
           ++ u " Incomplete weather data for " ++ city ++ u ": Missing "
           ++ exn_str e
       | _ =>
           [0xe2; 0x161; 0xa0; 0xef; 0xb8]
           ++ u " Error getting weather for " ++ city ++ u ": " ++ exn_str e
       end)).
Proof.
  intros H; unfold Xavier.weather_info, try_except; rewrite H.
  unfold Xavier.weather_except; destruct (exn_class_of e); unfold ret;
    rewrite app_nil_r; reflexivity.
Qed.

Lemma xavier_weather_info_total (rt : Runtime) (city : pystr) (i : bool) :
  exists tr text,
    Xavier.weather_info rt city i = (tr, i, Ok text) /\ prints tr = [].
Proof.
  destruct (quiet_outcome _ i (xavier_weather_info_quiet rt city))
    as (tr & r & E & Hp).
  assert (H : exists text,
             result_of (Xavier.weather_info rt city i) = Ok text).
  { unfold Xavier.weather_info, try_except.
    destruct (Xavier.weather_try rt city i) as [[tr0 i0] [a|e]]; outcome;
      eauto.
    unfold Xavier.weather_except; destruct (exn_class_of e); unfold ret;
      outcome; eauto. }
  destruct H as [text H]; rewrite E in H; outcome; subst r; eauto.
Qed.

Lemma city_of_fit (rt : Runtime) (city_arg : json) :
  negb (truthy city_arg) || is_text city_arg = true ->
  exists city, Xavier.city_of rt city_arg = Ok city.
Proof.
  unfold Xavier.city_of; destruct (truthy city_arg); cbn [negb orb];
    [|eauto].
  destruct city_arg; try discriminate; intros _; cbn [strip_method].
  destruct (strip s); eauto.
Qed.

Lemma city_of_unfit (rt : Runtime) (city_arg : json) :
  negb (truthy city_arg) || is_text city_arg = false ->
  exists e, Xavier.city_of rt city_arg = Raise e /\ fatal e.
Proof.
  unfold Xavier.city_of; destruct (truthy city_arg); cbn [negb orb];
    [|discriminate].
  destruct city_arg; try discriminate; intros _; cbn [strip_method];
    (eexists; split; [reflexivity | discriminate]).
Qed.

Lemma day_name_of_fit (rt : Runtime) (date_arg : json) :
  is_text date_arg = true ->
  exists day_name, Xavier.day_name_of rt date_arg = Ok day_name.
Proof.
  destruct date_arg; try discriminate; intros _.
  unfold Xavier.day_name_of; cbn [lower_method].
  destruct (PyStr.eqb (py_lower rt s) (u "today")); [eauto|].
  destruct (PyStr.eqb (py_lower rt s) (u "tomorrow")); [eauto|].
  destruct (strptime_ymd rt (JStr s)); eauto.
Qed.

Lemma day_name_of_unfit (rt : Runtime) (date_arg : json) :
  is_text date_arg = false ->
  exists e, Xavier.day_name_of rt date_arg = Raise e /\ fatal e.
Proof.
  destruct date_arg; try discriminate; intros _;
    unfold Xavier.day_name_of; cbn [lower_method];
    (eexists; split; [reflexivity | discriminate]).
Qed.

(** *** The chain of tools of [xavier.py] *)

Section XavierCall.
Variable rt : Runtime.
Variable kvs params : list (pystr * json).
Variable req_id : json.
Hypothesis params_dict : dict_get kvs "params" (JObj []) = JObj params.

Let name : json := dict_get params "name" JNull.

Lemma xavier_call_unknown (i : bool) :
  xavier_tool name = false ->
  Xavier.call_tool rt (JObj kvs) req_id name i =
  ([], i, Ok (error_response req_id (-32601)
                (u "Unknown tool: " ++ fmt rt name))).
Proof.
  unfold xavier_tool, xjg_tool; rewrite !orb_false_iff.
  intros [[[[H1 H2] H3] H4] H5].
  unfold Xavier.call_tool; rewrite H1, H2, H3, H4, H5; reflexivity.
Qed.

Lemma xavier_call_arguments_not_dict (i : bool) :
  xavier_tool name = true ->
  is_dict (dict_get params "arguments" (JObj [])) = false ->
  exists e, Xavier.call_tool rt (JObj kvs) req_id name i = ([], i, Raise e)
            /\ fatal e.
Proof.
  intros Ht Ha; unfold Xavier.call_tool, xavier_tool, xjg_tool in *.
  destruct (eq_str name "echo");
    [|destruct (eq_str name "reverse");
      [|destruct (eq_str name "word_count");
        [|destruct (eq_str name "weather");
          [|destruct (eq_str name "get_availability"); [|discriminate]]]]].
  all: match goal with
       | |- context [argument rt (JObj kvs) ?k ?d] =>
           destruct (argument_not_dict rt kvs params k d params_dict Ha)
             as (e & -> & He)
       end; exists e; split; [reflexivity | assumption].
Qed.

Lemma xavier_call_fit (arguments : list (pystr * json)) (i : bool) :
  xavier_tool name = true ->
  dict_get params "arguments" (JObj []) = JObj arguments ->
  xavier_arguments_fit name arguments = true ->
  exists tr text,
    Xavier.call_tool rt (JObj kvs) req_id name i
    = (tr, i, Ok (text_result req_id text)) /\ prints tr = [].
Proof.
  intros Ht Ha Hf.
  unfold Xavier.call_tool, xavier_tool, xjg_tool, xavier_arguments_fit,
    xjg_arguments_fit in *.
  destruct (eq_str name "echo") eqn:E1.
  { rewrite (argument_dict rt kvs params arguments _ _ params_dict Ha).
    rewrite bind_lift_ok; unfold ret; eauto. }
  destruct (eq_str name "reverse") eqn:E2.
  { rewrite (argument_dict rt kvs params arguments _ _ params_dict Ha).
    rewrite bind_lift_ok.
    apply eq_str_true in E2; rewrite E2 in Hf.
    change (eq_str (str "reverse") "weather") with false in Hf.
    change (eq_str (str "reverse") "get_availability") with false in Hf.
    cbv iota in Hf.
    destruct (reverse_text_fit rt _ Hf) as [line ->].
    rewrite bind_lift_ok; unfold ret; eauto. }
  destruct (eq_str name "word_count") eqn:E3.
  { rewrite (argument_dict rt kvs params arguments _ _ params_dict Ha).
    rewrite bind_lift_ok.
    apply eq_str_true in E3; rewrite E3 in Hf.
    change (eq_str (str "word_count") "weather") with false in Hf.
    change (eq_str (str "word_count") "get_availability") with false in Hf.
    cbv iota in Hf.
    destruct (word_count_text_fit rt Xavier.word_count_report _ Hf)
      as [line ->].
    rewrite bind_lift_ok; unfold ret; eauto. }
  destruct (eq_str name "weather") eqn:E4.
  { rewrite (argument_dict rt kvs params arguments _ _ params_dict Ha).
    rewrite bind_lift_ok.
    destruct (city_of_fit rt _ Hf) as [city ->].
    rewrite bind_lift_ok.
    destruct (xavier_weather_info_total rt city i) as (tr & text & E & Hp).
    rewrite (bind_outcome _ _ _ _ _ _ E); unfold ret; outcome.
    rewrite app_nil_r; eauto. }
  destruct (eq_str name "get_availability"); [|discriminate].
  rewrite (argument_dict rt kvs params arguments _ _ params_dict Ha).
  rewrite bind_lift_ok.
  destruct (day_name_of_fit rt _ Hf) as [day_name ->].
  rewrite bind_lift_ok; unfold ret; eauto.
Qed.

End XavierCall.

Lemma xavier_handle_call_fit (rt : Runtime) (kvs : list (pystr * json))
  (i : bool) :
  dict_get kvs "method" JNull = str "tools/call" ->
  dict_get kvs "id" JNull <> JNull ->
  xavier_call_fits kvs = true ->
  exists tr name response,
    Xavier.handle rt (JObj kvs) i = (tr ++ [Print response; Flush], i, Ok tt)
    /\ prints tr = []
    /\ tool_name_of rt (JObj kvs) = Ok name
    /\ (if xavier_tool name
        then exists text, response = text_result (dict_get kvs "id" JNull) text
        else response = error_response (dict_get kvs "id" JNull) (-32601)
                          (u "Unknown tool: " ++ fmt rt name)).
Proof.
  intros Hm Hi Hf; rewrite xavier_handle_dict.
  apply is_not_none_true in Hi; rewrite Hm, Hi.
  change (eq_str (str "tools/call") "initialize") with false.
  change (eq_str (str "tools/call") "tools/list") with false.
  rewrite eq_str_refl; cbv iota.
  unfold xavier_call_fits, call_fits in Hf.
  destruct (dict_get kvs "params" (JObj [])) as [| | | | | |params] eqn:Hp;
    try discriminate.
  rewrite (tool_name_of_dict rt kvs params Hp), bind_lift_ok.
  destruct (xavier_tool (dict_get params "name" JNull)) eqn:Ht.
  - destruct (dict_get params "arguments" (JObj []))
      as [| | | | | |arguments] eqn:Ha; try discriminate.
    destruct (xavier_call_fit rt kvs params (dict_get kvs "id" JNull) Hp
                arguments i Ht Ha Hf) as (tr & text & E & Hpr).
    exists tr, (dict_get params "name" JNull),
      (text_result (dict_get kvs "id" JNull) text).
    rewrite (bind_outcome _ _ _ _ _ _ E), Ht; outcome.
    repeat split; eauto.
  - exists [], (dict_get params "name" JNull),
      (error_response (dict_get kvs "id" JNull) (-32601)
         (u "Unknown tool: " ++ fmt rt (dict_get params "name" JNull))).
    rewrite (bind_outcome _ _ _ _ _ _
               (xavier_call_unknown rt kvs params _ i Ht)), Ht.
    repeat split.
Qed.

(** *** A [weather] call, from the line read to the text printed *)

Lemma xjg_weather_outcome (rt : Runtime) (city : json) (i i' : bool)
  (tr : list effect) (r : result pystr) :
  Xjg.weather_try rt city i = (tr, i', r) ->
  Xjg.weather_info rt city i =
  (tr, i,
   Ok (match r with
       | Ok report => report
       | Raise e =>
           match exn_class_of e with
           | URLError =>
               [0x1f310] ++ u " Network error getting weather: " ++ exn_str e
           | _ =>
               [0x26a0; 0xfe0f] ++ u " Error processing weather data: "
               ++ exn_str e
           end
       end)).
Proof.
  intros H.
  pose proof (proj1 (xjg_weather_info_quiet rt city i)) as Hq.
  destruct r as [report|e].
  - assert (E : Xjg.weather_info rt city i = (tr, i', Ok report))
      by (unfold Xjg.weather_info, try_except; rewrite H; reflexivity).
    rewrite E in Hq |- *; outcome; subst i'; reflexivity.
  - pose proof (xjg_weather_fault_text _ _ _ _ _ _ H) as E.
    rewrite E in Hq |- *; outcome; subst i'; reflexivity.
Qed.

Lemma xavier_weather_outcome (rt : Runtime) (city : pystr) (i i' : bool)
  (tr : list effect) (r : result pystr) :
  Xavier.weather_try rt city i = (tr, i', r) ->
  Xavier.weather_info rt city i =
  (tr, i,
   Ok (match r with
       | Ok report => report
       | Raise e =>
           match exn_class_of e with
           | URLError =>
               [0x11f; 0x178; 0x152]
               ++ u " Network error getting weather for "
               ++ city ++ u ": " ++ exn_str e
           | JSONDecodeError =>
               [0xe2; 0x161; 0xa0; 0xef; 0xb8]
               ++ u " Error parsing weather data for " ++ city
               ++ u ": Invalid response format"
           | KeyError =>
               [0xe2; 0x161; 0xa0; 0xef; 0xb8]
               ++ u " Incomplete weather data for " ++ city
               ++ u ": Missing " ++ exn_str e
           | _ =>
               [0xe2; 0x161; 0xa0; 0xef; 0xb8]
               ++ u " Error getting weather for " ++ city ++ u ": "
               ++ exn_str e
           end
       end)).
Proof.
  intros H.
  pose proof (proj1 (xavier_weather_info_quiet rt city i)) as Hq.
  destruct r as [report|e].
  - assert (E : Xavier.weather_info rt city i = (tr, i', Ok report))
      by (unfold Xavier.weather_info, try_except; rewrite H; reflexivity).
    rewrite E in Hq |- *; outcome; subst i'; reflexivity.
  - pose proof (xavier_weather_fault_text _ _ _ _ _ _ H) as E.
    rewrite E in Hq |- *; outcome; subst i'; reflexivity.
Qed.

Section WeatherCall.
Variable rt : Runtime.
Variable b : bool.
Variable line : pystr.
Variables kvs params arguments : list (pystr * json).
Hypothesis decoded : decodes_to rt line (JObj kvs).
Hypothesis is_call : dict_get kvs "method" JNull = str "tools/call".
Hypothesis has_id : dict_get kvs "id" JNull <> JNull.
Hypothesis params_dict : dict_get kvs "params" (JObj []) = JObj params.
Hypothesis is_weather : dict_get params "name" JNull = str "weather".
Hypothesis arguments_dict :
  dict_get params "arguments" (JObj []) = JObj arguments.

Let req_id : json := dict_get kvs "id" JNull.

Lemma xjg_step_weather (tr : list effect) (text : pystr) :
  Xjg.weather_info rt (dict_get arguments "city" (str "Frisco, Colorado")) b
  = (tr, b, Ok text) ->
  Xjg.step rt (Running b) (Readline line)
  = (Running b, tr ++ [Print (text_result req_id text); Flush]).
Proof.
  intros E; apply (xjg_step_handled _ _ _ _ _ _ decoded).
  pose proof has_id as Hi; apply is_not_none_true in Hi.
  rewrite xjg_handle_dict, is_call, Hi.
  change (eq_str (str "tools/call") "initialize") with false.
  change (eq_str (str "tools/call") "tools/list") with false.
  rewrite eq_str_refl; cbv iota.
  rewrite (tool_name_of_dict rt kvs params params_dict), bind_lift_ok.
  rewrite is_weather; unfold Xjg.call_tool.
  change (eq_str (str "weather") "echo") with false.
  change (eq_str (str "weather") "reverse") with false.
  change (eq_str (str "weather") "word_count") with false.
  rewrite eq_str_refl; cbv iota.
  rewrite (argument_dict rt kvs params arguments _ _ params_dict
             arguments_dict).
  assert (Ec : bind (lift (Ok (dict_get arguments "city"
                                 (str "Frisco, Colorado"))))
                 (fun city =>
                    bind (Xjg.weather_info rt city)
                      (fun info =>
                         ret (text_result (dict_get kvs "id" JNull) info)))
                 b
               = (tr, b, Ok (text_result req_id text))).
  { rewrite bind_lift_ok, (bind_outcome _ _ _ _ _ _ E); unfold ret.
    outcome; rewrite app_nil_r; reflexivity. }
  rewrite (bind_outcome _ _ _ _ _ _ Ec); reflexivity.
Qed.

Lemma xavier_step_weather (city : pystr) (tr : list effect) (text : pystr) :
  Xavier.city_of rt (dict_get arguments "city" JNull) = Ok city ->
  Xavier.weather_info rt city b = (tr, b, Ok text) ->
  Xavier.step rt (Running b) (Readline line)
  = (Running b, tr ++ [Print (text_result req_id text); Flush]).
Proof.
  intros Hc E; apply (xavier_step_handled _ _ _ _ _ _ decoded).
  pose proof has_id as Hi; apply is_not_none_true in Hi.
  rewrite xavier_handle_dict, is_call, Hi.
  change (eq_str (str "tools/call") "initialize") with false.
  change (eq_str (str "tools/call") "tools/list") with false.
  rewrite eq_str_refl; cbv iota.
  rewrite (tool_name_of_dict rt kvs params params_dict), bind_lift_ok.
  rewrite is_weather; unfold Xavier.call_tool.
  change (eq_str (str "weather") "echo") with false.
  change (eq_str (str "weather") "reverse") with false.
  change (eq_str (str "weather") "word_count") with false.
  rewrite eq_str_refl; cbv iota.
  rewrite (argument_dict rt kvs params arguments _ _ params_dict
             arguments_dict).
  assert (Ec : bind (lift (Ok (dict_get arguments "city" JNull)))
                 (fun city_arg =>
                    bind (lift (Xavier.city_of rt city_arg))
                      (fun city =>
                         bind (Xavier.weather_info rt city)
                           (fun info =>
                              ret (text_result (dict_get kvs "id" JNull)
                                     info))))
                 b
               = (tr, b, Ok (text_result req_id text))).
  { rewrite bind_lift_ok, Hc, bind_lift_ok, (bind_outcome _ _ _ _ _ _ E).
    unfold ret; outcome; rewrite app_nil_r; reflexivity. }
  rewrite (bind_outcome _ _ _ _ _ _ Ec); reflexivity.
Qed.

End WeatherCall.

(** C6, as the scripts have it: a [tools/call] request with an id that
    names a tool of the script and fits (in [xavier.py] moreover the
    [city] is missing, falsy or a string and the [date] a string) is
    answered by exactly one message, which carries the id of the
    request, has no ["error"] and has a ["result"] with one text, and
    the dispatch does not raise, whatever the network and the weather
    document do. For the [weather] tool the text printed is decided by
    the [try:] of the branch: the report when it ends, and when it
    raises (network, parsing, missing field, any other exception) the
    text of the matching [except] clause, built from the exception. *)
Theorem tool_call_that_fits_yields_result (rt : Runtime) (b : bool)
  (line : pystr) (kvs : list (pystr * json)) (name : json) :
  decodes_to rt line (JObj kvs) ->
  dict_get kvs "method" JNull = str "tools/call" ->
  dict_get kvs "id" JNull <> JNull ->
  tool_name_of rt (JObj kvs) = Ok name ->
  let req_id := dict_get kvs "id" JNull in
  (xjg_tool name = true -> xjg_call_fits kvs = true ->
   exists tr response text,
     Xjg.handle rt (JObj kvs) b
     = (tr ++ [Print response; Flush], b, Ok tt) /\
     Xjg.step rt (Running b) (Readline line)
     = (Running b, tr ++ [Print response; Flush]) /\
     prints tr = [] /\
     id_of response = Some req_id /\
     error_of response = None /\
     result_text_of response = Some text) /\
  (xavier_tool name = true -> xavier_call_fits kvs = true ->
   exists tr response text,
     Xavier.handle rt (JObj kvs) b
     = (tr ++ [Print response; Flush], b, Ok tt) /\
     Xavier.step rt (Running b) (Readline line)
     = (Running b, tr ++ [Print response; Flush]) /\
     prints tr = [] /\
     id_of response = Some req_id /\
     error_of response = None /\
     result_text_of response = Some text) /\
  (forall params arguments tr i' r,
     name = str "weather" ->
     dict_get kvs "params" (JObj []) = JObj params ->
     dict_get params "arguments" (JObj []) = JObj arguments ->
     Xjg.weather_try rt (dict_get arguments "city" (str "Frisco, Colorado")) b
     = (tr, i', r) ->
     exists response,
       Xjg.step rt (Running b) (Readline line)
       = (Running b, tr ++ [Print response; Flush]) /\
       prints tr = [] /\
       id_of response = Some req_id /\
       error_of response = None /\
       result_text_of response =
       Some (match r with
             | Ok report => report
             | Raise e =>
                 match exn_class_of e with
                 | URLError =>
                     [0x1f310] ++ u " Network error getting weather: "
                     ++ exn_str e
                 | _ =>
                     [0x26a0; 0xfe0f] ++ u " Error processing weather data: "
                     ++ exn_str e
                 end
             end)) /\
  (forall params arguments city tr i' r,
     name = str "weather" ->
     dict_get kvs "params" (JObj []) = JObj params ->
     dict_get params "arguments" (JObj []) = JObj arguments ->
     Xavier.city_of rt (dict_get arguments "city" JNull) = Ok city ->
     Xavier.weather_try rt city b = (tr, i', r) ->
     exists response,
       Xavier.step rt (Running b) (Readline line)
       = (Running b, tr ++ [Print response; Flush]) /\
       prints tr = [] /\
       id_of response = Some req_id /\
       error_of response = None /\
       result_text_of response =
       Some (match r with
             | Ok report => report
             | Raise e =>
                 match exn_class_of e with
                 | URLError =>
                     [0x11f; 0x178; 0x152]
                     ++ u " Network error getting weather for "
                     ++ city ++ u ": " ++ exn_str e
                 | JSONDecodeError =>
                     [0xe2; 0x161; 0xa0; 0xef; 0xb8]
                     ++ u " Error parsing weather data for " ++ city
                     ++ u ": Invalid response format"
                 | KeyError =>
                     [0xe2; 0x161; 0xa0; 0xef; 0xb8]
                     ++ u " Incomplete weather data for " ++ city
                     ++ u ": Missing " ++ exn_str e
                 | _ =>
                     [0xe2; 0x161; 0xa0; 0xef; 0xb8]
                     ++ u " Error getting weather for " ++ city ++ u ": "
                     ++ exn_str e
                 end
             end)).
Proof.
  intros Hd Hm Hi Hn req_id; split; [|split; [|split]].
  - intros Ht Hf.
    destruct (xjg_handle_call_fit rt kvs b Hm Hi Hf)
      as (tr & name' & response & E & Hp & Hn' & Hr).
    rewrite Hn in Hn'; inversion Hn'; subst name'; rewrite Ht in Hr.
    destruct Hr as [text ->].
    exists tr, (text_result req_id text), text.
    split; [exact E|].
    split; [exact (xjg_step_handled _ _ _ _ _ _ Hd E)|].
    split; [exact Hp|apply text_result_read].
  - intros Ht Hf.
    destruct (xavier_handle_call_fit rt kvs b Hm Hi Hf)
      as (tr & name' & response & E & Hp & Hn' & Hr).
    rewrite Hn in Hn'; inversion Hn'; subst name'; rewrite Ht in Hr.
    destruct Hr as [text ->].
    exists tr, (text_result req_id text), text.
    split; [exact E|].
    split; [exact (xavier_step_handled _ _ _ _ _ _ Hd E)|].
    split; [exact Hp|apply text_result_read].
  - intros params arguments tr i' r Hw Hp Ha Ht.
    rewrite (tool_name_of_dict rt kvs params Hp) in Hn.
    inversion Hn as [Hn']; rewrite Hw in Hn'.
    pose proof (xjg_weather_outcome _ _ _ _ _ _ Ht) as E.
    pose proof (proj2 (xjg_weather_info_quiet rt
                         (dict_get arguments "city" (str "Frisco, Colorado"))
                         b)) as Hq.
    rewrite E in Hq; outcome.
    eexists; split;
      [exact (xjg_step_weather rt b line kvs params arguments Hd Hm Hi Hp
                Hn' Ha tr _ E)|].
    split; [exact Hq|apply text_result_read].
  - intros params arguments city tr i' r Hw Hp Ha Hc Ht.
    rewrite (tool_name_of_dict rt kvs params Hp) in Hn.
    inversion Hn as [Hn']; rewrite Hw in Hn'.
    pose proof (xavier_weather_outcome _ _ _ _ _ _ Ht) as E.
    pose proof (proj2 (xavier_weather_info_quiet rt city b)) as Hq.
    rewrite E in Hq; outcome.
    eexists; split;
      [exact (xavier_step_weather rt b line kvs params arguments Hd Hm Hi
                Hp Hn' Ha city tr _ Hc E)|].
    split; [exact Hq|apply text_result_read].
Qed.

Lemma tool_call_that_fits_yields_result_witness :
  (exists response,
     Xjg.step Sample.offline (Running true)
       (Readline (Sample.line_of Sample.weather_5))
     = (Running true,
        [Fetch (weather_url (u "Denver")) 10; Print response; Flush]) /\
     id_of response = Some (JInt 5) /\
     error_of response = None /\
     result_text_of response
     = Some ([0x1f310] ++ u " Network error getting weather: "
             ++ u "<urlopen error timed out>")) /\
  (exists response,
     Xavier.step (Sample.serving Sample.forecast_incomplete) (Running true)
       (Readline (Sample.line_of Sample.weather_5))
     = (Running true,
        [Fetch (weather_url (u "Denver")) 15; Print response; Flush]) /\
     id_of response = Some (JInt 5) /\
     error_of response = None /\
     result_text_of response
     = Some ([0xe2; 0x161; 0xa0; 0xef; 0xb8]
             ++ u " Incomplete weather data for Denver: Missing "
             ++ u "'current_condition'")).
Proof.
  split.
  - destruct (tool_call_that_fits_yields_result Sample.offline true
                (Sample.line_of Sample.weather_5)
                (Sample.members Sample.weather_5) (str "weather"))
      as (_ & _ & H & _); [evaluated | evaluated | evaluated | evaluated |].
    destruct (H [kv "name" (str "weather");
                 kv "arguments" (JObj [kv "city" (str "Denver")])]
                [kv "city" (str "Denver")]
                [Fetch (weather_url (u "Denver")) 10] true
                (Raise (Exn URLError (u "<urlopen error timed out>"))))
      as (response & E & _ & Hid & He & Ht);
      [evaluated | evaluated | evaluated | evaluated |].
    exists response; repeat split; assumption.
  - destruct (tool_call_that_fits_yields_result
                (Sample.serving Sample.forecast_incomplete) true
                (Sample.line_of Sample.weather_5)
                (Sample.members Sample.weather_5) (str "weather"))
      as (_ & _ & _ & H); [evaluated | evaluated | evaluated | evaluated |].
    destruct (H [kv "name" (str "weather");
                 kv "arguments" (JObj [kv "city" (str "Denver")])]
                [kv "city" (str "Denver")] (u "Denver")
                [Fetch (weather_url (u "Denver")) 15] true
                (Raise (Exn KeyError (u "'current_condition'"))))
      as (response & E & _ & Hid & He & Ht);
      [evaluated | evaluated | evaluated | evaluated | evaluated |].
    exists response; repeat split; assumption.
Defined.

(** C6 as the specification words it fails: the request has the id 7
    and names the tool [weather] of [xjg.py], its [arguments] is a list,
    and the dispatch raises: nothing is printed and the loop ends. *)
Lemma weather_with_list_arguments_raises :
  tool_name_of Sample.offline Sample.weather_list_arguments_7
  = Ok (str "weather") /\
  xjg_tool (str "weather") = true /\
  dict_get (Sample.members Sample.weather_list_arguments_7) "id" JNull
  = JInt 7 /\
  (exists e,
     Xjg.handle Sample.offline Sample.weather_list_arguments_7 true
     = ([], true, Raise e)) /\
  Xjg.step Sample.offline (Running true)
    (Readline (Sample.line_of Sample.weather_list_arguments_7))
  = (Exited, []).
Proof.
  split; [evaluated|]; split; [evaluated|]; split; [evaluated|].
  split; [|evaluated].
  eexists; vm_compute; reflexivity.
Qed.

(** The same request, a [weather] call whose [city] is a number, is
    answered by [xjg.py], where [quote] fails inside the [try:], and
    ends the loop of [xavier.py], where [city_arg.strip()] runs before
    the [try:]. *)
Example number_city_in_both_scripts :
  (exists text,
     Xjg.step Sample.offline (Running true)
       (Readline (Sample.line_of Sample.weather_number_city_8))
     = (Running true, [Print (text_result (JInt 8) text); Flush])) /\
  Xavier.step Sample.offline (Running true)
    (Readline (Sample.line_of Sample.weather_number_city_8))
  = (Exited, []).
Proof. split; [eexists; vm_compute; reflexivity | evaluated]. Qed.

(* ===================================================================== *)
(** ** Further properties: the counts of [word_count] *)
(* ===================================================================== *)

Lemma lstrip_nil_blank (s : pystr) : lstrip s = [] <-> blank s = true.
Proof.
  unfold blank; induction s as [|c s IH]; simpl; [tauto|].
  destruct (is_space c); simpl; [exact IH|].
  split; discriminate.
Qed.

Lemma blank_rev (s : pystr) : blank (rev s) = blank s.
Proof.
  unfold blank; induction s as [|c s IH]; simpl; [reflexivity|].
  rewrite forallb_app, IH; simpl.
  rewrite andb_true_r; apply andb_comm.
Qed.

Lemma lstrip_head (s : pystr) (c : N) (r : pystr) :
  lstrip s = c :: r -> is_space c = false.
Proof.
  induction s as [|d s IH]; simpl; [discriminate|].
  destruct (is_space d) eqn:E; [exact IH|].
  intros H; inversion H; subst; assumption.
Qed.

Lemma lstrip_blank_suffix (s : pystr) : blank (lstrip s) = true -> blank s = true.
Proof.
  unfold blank; induction s as [|c s IH]; simpl; [reflexivity|].
  destruct (is_space c) eqn:E; simpl; [exact IH|].
  rewrite E; discriminate.
Qed.

Lemma strip_nil_blank (s : pystr) : strip s = [] <-> blank s = true.
Proof.
  unfold strip, rstrip; split.
  - intros H.
    assert (H' : lstrip (rev (lstrip s)) = []).
    { apply (f_equal (@rev N)) in H; rewrite rev_involutive in H.
      exact H. }
    apply lstrip_nil_blank in H'; rewrite blank_rev in H'.
    apply lstrip_blank_suffix; assumption.
  - intros H; apply lstrip_nil_blank in H; rewrite H; reflexivity.
Qed.

(** The words found after the run [cur]: none exactly when what is left
    is blank and no run is open. *)
Lemma split_from_nil (s cur : pystr) :
  split_from s cur = [] <-> (blank s = true /\ cur = []).
Proof.
  unfold blank; revert cur; induction s as [|c s IH]; intros cur; simpl.
  - destruct cur; split; try tauto; try discriminate.
    intros [_ H]; discriminate.
  - destruct (is_space c); simpl.
    + destruct cur; [apply IH|].
      split; [discriminate | intros [_ H]; discriminate].
    + rewrite IH; split; [intros [_ H]; discriminate | intros [H _]; discriminate].
Qed.

Lemma split_from_length (s cur : pystr) :
  (List.length (split_from s cur)
   <= List.length (filter (fun c => negb (is_space c)) s) + open_run cur)%nat.
Proof.
  revert cur; induction s as [|c s IH]; intros cur; simpl.
  - destruct cur; simpl; lia.
  - destruct (is_space c); simpl.
    + destruct cur; simpl; specialize (IH []); simpl in IH; lia.
    + specialize (IH (c :: cur)); simpl in IH; lia.
Qed.

Lemma replace1_space_filter (s : pystr) :
  replace1 32 [] s = filter (fun c => negb (c =? 32)) s.
Proof.
  unfold replace1; induction s as [|c s IH]; simpl; [reflexivity|].
  destruct (c =? 32); simpl; rewrite IH; reflexivity.
Qed.

Lemma filter_length_le {A} (f g : A -> bool) (l : list A) :
  (forall x, f x = true -> g x = true) ->
  (List.length (filter f l) <= List.length (filter g l))%nat.
Proof.
  intros H; induction l as [|x l IH]; simpl; [lia|].
  destruct (f x) eqn:E.
  - rewrite (H x E); simpl; lia.
  - destruct (g x); simpl; lia.
Qed.

Lemma filter_partition_length {A} (f : A -> bool) (l : list A) :
  (List.length (filter f l) + List.length (filter (fun x => negb (f x)) l)
   = List.length l)%nat.
Proof.
  induction l as [|x l IH]; simpl; [reflexivity|].
  destruct (f x); simpl; lia.
Qed.

(** The lines found after the run [cur], by the length of what is left. *)
Lemma splitlines_from_length (n : nat) :
  forall s cur, (List.length s <= n)%nat ->
  (List.length (splitlines_from s cur) <= List.length s + open_run cur)%nat.
Proof.
  induction n as [|n IH]; intros s cur Hn.
  - destruct s; [|simpl in Hn; lia]. destruct cur; simpl; lia.
  - destruct s as [|c s]; [destruct cur; simpl; lia|].
    simpl in Hn; cbn [splitlines_from].
    destruct (c =? 13).
    + destruct s as [|d s].
      * simpl; lia.
      * pose proof (IH s [] ltac:(simpl in Hn; lia)) as H1.
        pose proof (IH (d :: s) [] ltac:(simpl in *; lia)) as H2.
        cbn [List.length open_run] in H1, H2.
        generalize dependent (splitlines_from (d :: s) []).
        generalize dependent (splitlines_from s []).
        intros l1 H1 l2 H2.
        destruct d as [|p]; [cbn [List.length]; lia|].
        do 4 (destruct p; try (cbn [List.length]; lia)).
    + destruct (is_linebreak c); cbn [List.length].
      * specialize (IH s [] ltac:(lia)); simpl in IH; lia.
      * specialize (IH s (c :: cur) ltac:(lia)); simpl in IH; lia.
Qed.

(** The characters of a text are its spaces and its other characters:
    the count without spaces and the number of U+0020 add up to the
    count of characters. Tabs and line breaks count as characters in
    both. *)
Theorem word_count_characters_add_up (text : pystr) :
  char_count (count_words text)
  = char_count_no_spaces (count_words text) + spaces text.
Proof.
  unfold count_words, spaces, len; cbn [char_count char_count_no_spaces].
  rewrite replace1_space_filter, <- Nat2N.inj_add; f_equal.
  rewrite Nat.add_comm; symmetry; apply filter_partition_length.
Qed.

(** The counts are ordered: words <= characters without spaces <=
    characters, and lines <= characters. No word is counted exactly when
    the text is empty or blank, and the guards [if text.strip()] and
    [if text] change nothing: the counts are the numbers of items of
    [text.split()] and of [text.splitlines()]. *)
Theorem word_count_bounds (text : pystr) :
  word_count (count_words text) = N.of_nat (List.length (split text)) /\
  line_count (count_words text) = N.of_nat (List.length (splitlines text)) /\
  (word_count (count_words text) = 0 <-> blank text = true) /\
  word_count (count_words text) <= char_count_no_spaces (count_words text) /\
  char_count_no_spaces (count_words text) <= char_count (count_words text) /\
  line_count (count_words text) <= char_count (count_words text).
Proof.
  assert (Hw : word_count (count_words text)
               = N.of_nat (List.length (split text))).
  { unfold count_words; cbn [word_count].
    destruct (strip text) eqn:E; [|reflexivity].
    apply strip_nil_blank in E.
    assert (H : split text = []) by (apply split_from_nil; auto).
    rewrite H; reflexivity. }
  assert (Hl : line_count (count_words text)
               = N.of_nat (List.length (splitlines text))).
  { unfold count_words; cbn [line_count]; destruct text; reflexivity. }
  split; [exact Hw|]; split; [exact Hl|]; split; [|split; [|split]].
  - rewrite Hw; split; intros H.
    + assert (E : split text = [])
        by (destruct (split text); [reflexivity | simpl in H; lia]).
      apply split_from_nil in E; tauto.
    + assert (E : split text = []) by (apply split_from_nil; auto).
      rewrite E; reflexivity.
  - rewrite Hw; unfold count_words, len; cbn [char_count_no_spaces].
    rewrite replace1_space_filter.
    pose proof (split_from_length text []) as H; simpl in H.
    pose proof (filter_length_le (fun c => negb (is_space c))
                  (fun c => negb (c =? 32)) text) as H'.
    unfold split; assert (forall x, negb (is_space x) = true ->
                                    negb (x =? 32) = true).
    { intros x; destruct (x =? 32) eqn:E; [|reflexivity].
      apply N.eqb_eq in E; subst x; discriminate. }
    specialize (H' H0); lia.
  - unfold count_words, len; cbn [char_count_no_spaces char_count].
    rewrite replace1_space_filter.
    pose proof (filter_partition_length (fun c => c =? 32) text); lia.
  - rewrite Hl; unfold count_words, len; cbn [char_count].
    pose proof (splitlines_from_length (List.length text) text []
                  (Nat.le_refl _)) as H.
    unfold splitlines; simpl in H; lia.
Qed.

(* ===================================================================== *)
(** ** Further properties: what the traces of the loop show *)
(* ===================================================================== *)

(** *** Properties of traces that pass to sequences of computations *)

Section Traced.
Variable P : list effect -> Prop.
Hypothesis P_nil : P [].
Hypothesis P_app : forall a b, P a -> P b -> P (a ++ b).

Lemma traced_ret {A} (a : A) : traced P (ret a).
Proof. intros i; exact P_nil. Qed.

Lemma traced_lift {A} (r : result A) : traced P (lift r).
Proof. intros i; exact P_nil. Qed.

Lemma traced_set_initialized (b : bool) : traced P (set_initialized b).
Proof. intros i; exact P_nil. Qed.

Lemma traced_bind {A B} (m : M A) (f : A -> M B) :
  traced P m -> (forall a, traced P (f a)) -> traced P (bind m f).
Proof.
  intros Hm Hf i; specialize (Hm i); unfold bind.
  destruct (m i) as [[tr i'] [a|e]]; outcome; [|assumption].
  specialize (Hf a i'); destruct (f a i') as [[tr' i''] r]; outcome; auto.
Qed.

Lemma traced_try {A} (m : M A) (h : exn -> M A) :
  traced P m -> (forall e, traced P (h e)) -> traced P (try_except m h).
Proof.
  intros Hm Hh i; specialize (Hm i); unfold try_except.
  destruct (m i) as [[tr i'] [a|e]]; outcome; [assumption|].
  specialize (Hh e i'); destruct (h e i') as [[tr' i''] r]; outcome; auto.
Qed.

Lemma traced_if {A} (c : bool) (m m' : M A) :
  traced P m -> traced P m' -> traced P (if c then m else m').
Proof. destruct c; auto. Qed.

(** What holds of the traces of the dispatch holds of the trace of every
    run of the loop. *)
Lemma traced_run (rt : Runtime) (handle : json -> M unit) :
  (forall req, traced P (handle req)) ->
  forall evs p, P (snd (run rt handle p evs)).
Proof.
  intros Hh; induction evs as [|ev evs IH]; intros p; [exact P_nil|].
  rewrite run_cons; cbn [snd]; apply P_app; [|apply IH].
  destruct p as [b| |]; [|destruct ev; exact P_nil | exact P_nil].
  destruct ev as [line|e| |signum];
    [|cbn [step]; destruct (exn_class_of e); exact P_nil
     |exact P_nil | exact P_nil].
  cbn [step]; unfold iteration.
  destruct line as [|c line]; [destruct b; exact P_nil|].
  destruct (strip (c :: line)) as [|d s]; [exact P_nil|].
  destruct (json_loads rt (d :: s)) as [req|e];
    [|destruct (exn_class_of e); exact P_nil].
  specialize (Hh req b).
  destruct (handle req b) as [[tr i] [[]|e]]; outcome; [assumption|].
  destruct (exn_class_of e); assumption.
Qed.

End Traced.

Ltac traced_steps leaf Hnil Happ :=
  repeat first
    [ leaf
    | apply (traced_ret _ Hnil)
    | apply (traced_lift _ Hnil)
    | apply (traced_set_initialized _ Hnil)
    | apply traced_if
    | apply (traced_bind _ Happ); [|intros ?]
    | apply (traced_try _ Happ); [|intros ?]
    | progress cbv zeta ].

(** *** Every message is flushed *)

Lemma flushed_app_length (n : nat) :
  forall a b, (List.length a <= n)%nat ->
  flushed a = true -> flushed b = true -> flushed (a ++ b) = true.
Proof.
  induction n as [|n IH]; intros a b Hn Ha Hb.
  - destruct a; [assumption | simpl in Hn; lia].
  - destruct a as [|[msg| |url t] a]; [assumption| | |].
    + destruct a as [|[msg'| |url' t'] a]; try discriminate.
      cbn [app flushed] in *; apply IH; auto; simpl in Hn; lia.
    + cbn [app flushed] in *; apply IH; auto; simpl in Hn; lia.
    + cbn [app flushed] in *; apply IH; auto; simpl in Hn; lia.
Qed.

Lemma flushed_app (a b : list effect) :
  flushed a = true -> flushed b = true -> flushed (a ++ b) = true.
Proof. apply (flushed_app_length (List.length a)); lia. Qed.

Lemma flushed_print_flush (msg : json) : traced all_flushed (print_flush msg).
Proof. intros i; reflexivity. Qed.

Lemma flushed_fetch (rt : Runtime) (url : pystr) (t : Z) :
  traced all_flushed (fetch rt url t).
Proof.
  intros i; unfold fetch, bind, emit, lift.
  destruct (urlopen rt url t); reflexivity.
Qed.

Ltac flushed_steps :=
  traced_steps
    ltac:(first [apply flushed_print_flush | apply flushed_fetch])
    (eq_refl : all_flushed []) flushed_app.

Lemma xjg_handle_flushed (rt : Runtime) (req : json) :
  traced all_flushed (Xjg.handle rt req).
Proof.
  unfold Xjg.handle, Xjg.send_tool_declaration, Xjg.call_tool,
    Xjg.weather_info, Xjg.weather_try.
  flushed_steps.
  unfold Xjg.weather_except.
  match goal with
  | |- context [exn_class_of ?e] => destruct (exn_class_of e)
  end; flushed_steps.
Qed.

Lemma xavier_handle_flushed (rt : Runtime) (req : json) :
  traced all_flushed (Xavier.handle rt req).
Proof.
  unfold Xavier.handle, Xavier.send_tool_declaration, Xavier.call_tool,
    Xavier.weather_info, Xavier.weather_try, Xavier.tomorrow_summary_of.
  flushed_steps.
  unfold Xavier.weather_except.
  match goal with
  | |- context [exn_class_of ?e] => destruct (exn_class_of e)
  end; flushed_steps.
Qed.

Lemma backup_handle_flushed (rt : Runtime) (req : json) :
  traced all_flushed (XjgBackup.handle rt req).
Proof.
  unfold XjgBackup.handle, XjgBackup.send_tool_declaration,
    XjgBackup.call_tool.
  flushed_steps.
Qed.

(** In the three scripts, whatever is read and in whatever state, every
    message printed on standard output is followed at once by a flush,
    before anything else is printed or fetched: no output is left in the
    buffer across two messages or across a fetch. *)
Theorem every_message_is_flushed (rt : Runtime) (p : process)
  (evs : list event) :
  flushed (snd (Xjg.run rt p evs)) = true /\
  flushed (snd (Xavier.run rt p evs)) = true /\
  flushed (snd (XjgBackup.run rt p evs)) = true.
Proof.
  repeat split.
  - apply (traced_run all_flushed eq_refl flushed_app rt (Xjg.handle rt)
             (xjg_handle_flushed rt)).
  - apply (traced_run all_flushed eq_refl flushed_app rt (Xavier.handle rt)
             (xavier_handle_flushed rt)).
  - apply (traced_run all_flushed eq_refl flushed_app rt
             (XjgBackup.handle rt) (backup_handle_flushed rt)).
Qed.

(** *** The network is reached by the [weather] tool only *)

Lemma fetches_app (a b : list effect) :
  fetches (a ++ b) = fetches a ++ fetches b.
Proof.
  induction a as [|[msg| |url t] a IH]; simpl; rewrite ?IH; reflexivity.
Qed.

Lemma no_fetch_app (a b : list effect) :
  no_fetch a -> no_fetch b -> no_fetch (a ++ b).
Proof.
  unfold no_fetch; intros Ha Hb; rewrite fetches_app, Ha, Hb; reflexivity.
Qed.

Lemma no_effect_app (a b : list effect) :
  no_effect a -> no_effect b -> no_effect (a ++ b).
Proof. unfold no_effect; intros -> ->; reflexivity. Qed.

Lemma no_fetch_print_flush (msg : json) : traced no_fetch (print_flush msg).
Proof. intros i; reflexivity. Qed.

Ltac no_fetch_steps :=
  traced_steps ltac:(apply no_fetch_print_flush)
    (eq_refl : no_fetch []) no_fetch_app.

Ltac no_effect_steps :=
  traced_steps ltac:(fail) (eq_refl : no_effect []) no_effect_app.

(** A computation without effect, in full. *)
Lemma no_effect_outcome {A} (m : M A) (i : bool) :
  traced no_effect m -> quiet m -> exists r, m i = ([], i, r).
Proof.
  intros Ht Hq; specialize (Ht i); specialize (Hq i).
  destruct (m i) as [[tr i'] r]; outcome; destruct Hq as [-> _].
  unfold no_effect in Ht; subst tr; eauto.
Qed.

Lemma backup_handle_no_fetch (rt : Runtime) (req : json) :
  traced no_fetch (XjgBackup.handle rt req).
Proof.
  unfold XjgBackup.handle, XjgBackup.send_tool_declaration,
    XjgBackup.call_tool.
  no_fetch_steps.
Qed.

Lemma xjg_call_tool_no_fetch (rt : Runtime) (req req_id name : json) :
  eq_str name "weather" = false ->
  traced no_fetch (Xjg.call_tool rt req req_id name).
Proof.
  intros H; unfold Xjg.call_tool; rewrite H; no_fetch_steps.
Qed.

Lemma xavier_call_tool_no_fetch (rt : Runtime) (req req_id name : json) :
  eq_str name "weather" = false ->
  traced no_fetch (Xavier.call_tool rt req req_id name).
Proof.
  intros H; unfold Xavier.call_tool; rewrite H; no_fetch_steps.
Qed.

Lemma xjg_handle_no_fetch (rt : Runtime) (req : json) (i : bool) :
  is_call_with_id req && names_tool req "weather" = false ->
  fetches (trace_of (Xjg.handle rt req i)) = [].
Proof.
  intros H; destruct (is_dict req) eqn:Hd;
    [|rewrite (xjg_handle_not_dict rt req Hd); reflexivity].
  destruct req; try discriminate; rewrite xjg_handle_dict.
  cbn [is_call_with_id names_tool] in H.
  destruct (eq_str (dict_get kvs "method" JNull) "initialize").
  { destruct (is_not_none (dict_get kvs "id" JNull)); reflexivity. }
  destruct (eq_str (dict_get kvs "method" JNull) "tools/list").
  { destruct (is_not_none (dict_get kvs "id" JNull)); reflexivity. }
  destruct (eq_str (dict_get kvs "method" JNull) "tools/call");
    [|destruct (is_not_none (dict_get kvs "id" JNull)); reflexivity].
  destruct (is_not_none (dict_get kvs "id" JNull)); [|reflexivity].
  cbn [andb] in H.
  destruct (is_dict (dict_get kvs "params" (JObj []))) eqn:Hp.
  - destruct (dict_get kvs "params" (JObj [])) as [| | | | | |params] eqn:E;
      try discriminate.
    rewrite (tool_name_of_dict rt kvs params E), bind_lift_ok.
    apply (traced_bind no_fetch no_fetch_app);
      [apply xjg_call_tool_no_fetch; assumption|].
    intros response; apply no_fetch_print_flush.
  - destruct (tool_name_of_not_dict rt kvs Hp) as (e & -> & _); reflexivity.
Qed.

Lemma xavier_handle_no_fetch (rt : Runtime) (req : json) (i : bool) :
  is_call_with_id req && names_tool req "weather" = false ->
  fetches (trace_of (Xavier.handle rt req i)) = [].
Proof.
  intros H; destruct (is_dict req) eqn:Hd;
    [|rewrite (xavier_handle_not_dict rt req Hd); reflexivity].
  destruct req; try discriminate; rewrite xavier_handle_dict.
  cbn [is_call_with_id names_tool] in H.
  destruct (eq_str (dict_get kvs "method" JNull) "initialize").
  { destruct (is_not_none (dict_get kvs "id" JNull)); reflexivity. }
  destruct (eq_str (dict_get kvs "method" JNull) "tools/list").
  { destruct (is_not_none (dict_get kvs "id" JNull)); reflexivity. }
  destruct (eq_str (dict_get kvs "method" JNull) "tools/call");
    [|destruct (is_not_none (dict_get kvs "id" JNull)); reflexivity].
  destruct (is_not_none (dict_get kvs "id" JNull)); [|reflexivity].
  cbn [andb] in H.
  destruct (is_dict (dict_get kvs "params" (JObj []))) eqn:Hp.
  - destruct (dict_get kvs "params" (JObj [])) as [| | | | | |params] eqn:E;
      try discriminate.
    rewrite (tool_name_of_dict rt kvs params E), bind_lift_ok.
    apply (traced_bind no_fetch no_fetch_app);
      [apply xavier_call_tool_no_fetch; assumption|].
    intros response; apply no_fetch_print_flush.
  - destruct (tool_name_of_not_dict rt kvs Hp) as (e & -> & _); reflexivity.
Qed.

(** Only a [tools/call] request with an id that names the tool
    [weather] reaches the network: on every other document the dispatch
    of [xjg.py] and of [xavier.py] fetches nothing, and [xjg_backup.py]
    fetches nothing in any run. *)
Theorem only_weather_calls_fetch (rt : Runtime) (req : json) (i : bool)
  (p : process) (evs : list event) :
  (is_call_with_id req && names_tool req "weather" = false ->
   fetches (trace_of (Xjg.handle rt req i)) = [] /\
   fetches (trace_of (Xavier.handle rt req i)) = []) /\
  fetches (snd (XjgBackup.run rt p evs)) = [].
Proof.
  split.
  - intros H; split;
      [apply xjg_handle_no_fetch | apply xavier_handle_no_fetch]; assumption.
  - apply (traced_run no_fetch eq_refl no_fetch_app rt (XjgBackup.handle rt)
             (backup_handle_no_fetch rt)).
Qed.

Lemma only_weather_calls_fetch_witness :
  fetches (trace_of (Xjg.handle (Sample.serving Sample.forecast)
                       Sample.count_4 true)) = [] /\
  fetches (trace_of (Xavier.handle (Sample.serving Sample.forecast)
                       Sample.weather_notification true)) = [].
Proof.
  split.
  - apply (only_weather_calls_fetch (Sample.serving Sample.forecast)
             Sample.count_4 true Exited []); evaluated.
  - apply (only_weather_calls_fetch (Sample.serving Sample.forecast)
             Sample.weather_notification true Exited []); evaluated.
Defined.

(** *** A [weather] call fetches once, before it answers *)

Lemma bind_fetch {B} (rt : Runtime) (url : pystr) (t : Z)
  (f : http_response -> M B) (i : bool) :
  (forall response, traced no_effect (f response)) ->
  (forall response, quiet (f response)) ->
  exists r, bind (fetch rt url t) f i = ([Fetch url t], i, r).
Proof.
  intros Ht Hq; unfold fetch, bind at 1 2, emit, lift.
  destruct (urlopen rt url t) as [response|e]; [|eauto].
  destruct (no_effect_outcome (f response) i (Ht response) (Hq response))
    as [r E].
  cbn [app]; rewrite E; eauto.
Qed.

Lemma xjg_weather_try_fetches (rt : Runtime) (city : json) (enc : pystr)
  (i : bool) :
  quote rt city = Ok enc ->
  exists r, Xjg.weather_try rt city i = ([Fetch (weather_url enc) 10], i, r).
Proof.
  intros Hq; unfold Xjg.weather_try; rewrite Hq, bind_lift_ok; cbv zeta.
  apply bind_fetch; intros response; [no_effect_steps | quiet_steps].
Qed.

Lemma xavier_weather_try_fetches (rt : Runtime) (city enc : pystr)
  (i : bool) :
  quote rt (JStr city) = Ok enc ->
  exists r,
    Xavier.weather_try rt city i = ([Fetch (weather_url enc) 15], i, r).
Proof.
  intros Hq; unfold Xavier.weather_try; rewrite Hq, bind_lift_ok; cbv zeta.
  apply bind_fetch; intros response; unfold Xavier.tomorrow_summary_of;
    [no_effect_steps | repeat first [progress cbv zeta | progress quiet_steps]].
Qed.

Lemma xjg_weather_info_fetches (rt : Runtime) (city : json) (enc : pystr)
  (i : bool) :
  quote rt city = Ok enc ->
  exists text,
    Xjg.weather_info rt city i = ([Fetch (weather_url enc) 10], i, Ok text).
Proof.
  intros Hq; destruct (xjg_weather_try_fetches rt city enc i Hq) as [[text|e] E].
  - exists text; unfold Xjg.weather_info, try_except; rewrite E; reflexivity.
  - rewrite (xjg_weather_fault_text _ _ _ _ _ _ E); eauto.
Qed.

Lemma xavier_weather_info_fetches (rt : Runtime) (city enc : pystr)
  (i : bool) :
  quote rt (JStr city) = Ok enc ->
  exists text,
    Xavier.weather_info rt city i
    = ([Fetch (weather_url enc) 15], i, Ok text).
Proof.
  intros Hq.
  destruct (xavier_weather_try_fetches rt city enc i Hq) as [[text|e] E].
  - exists text; unfold Xavier.weather_info, try_except; rewrite E.
    reflexivity.
  - rewrite (xavier_weather_fault_text _ _ _ _ _ _ E); eauto.
Qed.

Lemma xjg_weather_info_unquotable (rt : Runtime) (city : json) (e : exn)
  (i : bool) :
  quote rt city = Raise e ->
  exists text, Xjg.weather_info rt city i = ([], i, Ok text).
Proof.
  intros Hq.
  assert (E : Xjg.weather_try rt city i = ([], i, Raise e))
    by (unfold Xjg.weather_try; rewrite Hq; reflexivity).
  rewrite (xjg_weather_fault_text _ _ _ _ _ _ E); eauto.
Qed.

(** A [weather] call with an id whose [arguments] is an object: when
    the city can be quoted, the loop of [xjg.py] fetches
    [https://wttr.in/<quoted city>?format=j1] once, with a timeout of 10
    seconds, and only then prints its one answer; that of [xavier.py]
    does the same for the stripped city with a timeout of 15 seconds.
    When [quote] raises on the city, [xjg.py] answers without fetching
    anything. *)
Theorem weather_call_fetches_once (rt : Runtime) (b : bool) (line : pystr)
  (kvs params arguments : list (pystr * json)) :
  decodes_to rt line (JObj kvs) ->
  dict_get kvs "method" JNull = str "tools/call" ->
  dict_get kvs "id" JNull <> JNull ->
  dict_get kvs "params" (JObj []) = JObj params ->
  dict_get params "name" JNull = str "weather" ->
  dict_get params "arguments" (JObj []) = JObj arguments ->
  let req_id := dict_get kvs "id" JNull in
  (forall enc,
     quote rt (dict_get arguments "city" (str "Frisco, Colorado")) = Ok enc ->
     exists text,
       Xjg.step rt (Running b) (Readline line)
       = (Running b,
          [Fetch (weather_url enc) 10;
           Print (text_result req_id text); Flush])) /\
  (forall e,
     quote rt (dict_get arguments "city" (str "Frisco, Colorado")) = Raise e ->
     exists text,
       Xjg.step rt (Running b) (Readline line)
       = (Running b, [Print (text_result req_id text); Flush])) /\
  (forall city enc,
     Xavier.city_of rt (dict_get arguments "city" JNull) = Ok city ->
     quote rt (JStr city) = Ok enc ->
     exists text,
       Xavier.step rt (Running b) (Readline line)
       = (Running b,
          [Fetch (weather_url enc) 15;
           Print (text_result req_id text); Flush])).
Proof.
  intros Hd Hm Hi Hp Hn Ha req_id.
  apply is_not_none_true in Hi.
  assert (E1 : forall tr text,
             Xjg.weather_info rt
               (dict_get arguments "city" (str "Frisco, Colorado")) b
             = (tr, b, Ok text) ->
             Xjg.step rt (Running b) (Readline line)
             = (Running b, tr ++ [Print (text_result req_id text); Flush])).
  { intros tr text E; apply (xjg_step_handled _ _ _ _ _ _ Hd).
    rewrite xjg_handle_dict, Hm, Hi.
    change (eq_str (str "tools/call") "initialize") with false.
    change (eq_str (str "tools/call") "tools/list") with false.
    rewrite eq_str_refl; cbv iota.
    rewrite (tool_name_of_dict rt kvs params Hp), bind_lift_ok, Hn.
    unfold Xjg.call_tool.
    change (eq_str (str "weather") "echo") with false.
    change (eq_str (str "weather") "reverse") with false.
    change (eq_str (str "weather") "word_count") with false.
    rewrite eq_str_refl; cbv iota.
    rewrite (argument_dict rt kvs params arguments _ _ Hp Ha).
    assert (Ec : bind (lift (Ok (dict_get arguments "city"
                                   (str "Frisco, Colorado"))))
                   (fun city =>
                      bind (Xjg.weather_info rt city)
                        (fun info =>
                           ret (text_result (dict_get kvs "id" JNull) info)))
                   b
                 = (tr, b, Ok (text_result req_id text))).
    { rewrite bind_lift_ok, (bind_outcome _ _ _ _ _ _ E); unfold ret.
      outcome; rewrite app_nil_r; reflexivity. }
    rewrite (bind_outcome _ _ _ _ _ _ Ec); reflexivity. }
  split; [|split].
  - intros enc Hq.
    destruct (xjg_weather_info_fetches rt _ enc b Hq) as [text E].
    exists text; apply (E1 _ _ E).
  - intros e Hq.
    destruct (xjg_weather_info_unquotable rt _ e b Hq) as [text E].
    exists text; apply (E1 _ _ E).
  - intros city enc Hc Hq.
    destruct (xavier_weather_info_fetches rt city enc b Hq) as [text E].
    exists text; apply (xavier_step_handled _ _ _ _ _ _ Hd).
    rewrite xavier_handle_dict, Hm, Hi.
    change (eq_str (str "tools/call") "initialize") with false.
    change (eq_str (str "tools/call") "tools/list") with false.
    rewrite eq_str_refl; cbv iota.
    rewrite (tool_name_of_dict rt kvs params Hp), bind_lift_ok, Hn.
    unfold Xavier.call_tool.
    change (eq_str (str "weather") "echo") with false.
    change (eq_str (str "weather") "reverse") with false.
    change (eq_str (str "weather") "word_count") with false.
    rewrite eq_str_refl; cbv iota.
    rewrite (argument_dict rt kvs params arguments _ _ Hp Ha).
    assert (Ec : bind (lift (Ok (dict_get arguments "city" JNull)))
                   (fun city_arg =>
                      bind (lift (Xavier.city_of rt city_arg))
                        (fun city =>
                           bind (Xavier.weather_info rt city)
                             (fun info =>
                                ret (text_result (dict_get kvs "id" JNull)
                                       info))))
                   b
                 = ([Fetch (weather_url enc) 15], b,
                    Ok (text_result req_id text))).
    { rewrite bind_lift_ok, Hc, bind_lift_ok, (bind_outcome _ _ _ _ _ _ E).
      unfold ret; outcome; reflexivity. }
    rewrite (bind_outcome _ _ _ _ _ _ Ec); reflexivity.
Qed.

Lemma weather_call_fetches_once_witness :
  (exists text,
     Xjg.step Sample.offline (Running true)
       (Readline (Sample.line_of Sample.weather_5))
     = (Running true,
        [Fetch (u "https://wttr.in/Denver?format=j1") 10;
         Print (text_result (JInt 5) text); Flush])) /\
  (exists text,
     Xjg.step Sample.offline (Running true)
       (Readline (Sample.line_of Sample.weather_number_city_8))
     = (Running true, [Print (text_result (JInt 8) text); Flush])) /\
  (exists text,
     Xavier.step Sample.offline (Running true)
       (Readline (Sample.line_of Sample.weather_5))
     = (Running true,
        [Fetch (u "https://wttr.in/Denver?format=j1") 15;
         Print (text_result (JInt 5) text); Flush])).
Proof.
  split; [|split].
  - destruct (weather_call_fetches_once Sample.offline true
                (Sample.line_of Sample.weather_5)
                (Sample.members Sample.weather_5)
                [kv "name" (str "weather");
                 kv "arguments" (JObj [kv "city" (str "Denver")])]
                [kv "city" (str "Denver")]) as (H & _ & _);
      [evaluated | evaluated | evaluated | evaluated | evaluated
      | evaluated |].
    apply (H (u "Denver")); evaluated.
  - destruct (weather_call_fetches_once Sample.offline true
                (Sample.line_of Sample.weather_number_city_8)
                (Sample.members Sample.weather_number_city_8)
                [kv "name" (str "weather");
                 kv "arguments" (JObj [kv "city" (JInt 80443)])]
                [kv "city" (JInt 80443)]) as (_ & H & _);
      [evaluated | evaluated | evaluated | evaluated | evaluated
      | evaluated |].
    apply (H (Exn TypeError (u "quote_from_bytes() expected bytes")));
      evaluated.
  - destruct (weather_call_fetches_once Sample.offline true
                (Sample.line_of Sample.weather_5)
                (Sample.members Sample.weather_5)
                [kv "name" (str "weather");
                 kv "arguments" (JObj [kv "city" (str "Denver")])]
                [kv "city" (str "Denver")]) as (_ & _ & H);
      [evaluated | evaluated | evaluated | evaluated | evaluated
      | evaluated |].
    apply (H (u "Denver") (u "Denver")); evaluated.
Defined.

(** *** The responses of a run *)

Lemma bind_result {A B} (m : M A) (f : A -> M B) (i i' : bool)
  (tr : list effect) (r : B) :
  bind m f i = (tr, i', Ok r) ->
  exists a i0 tr0 tr1,
    m i = (tr0, i0, Ok a) /\ f a i0 = (tr1, i', Ok r) /\ tr = tr0 ++ tr1.
Proof.
  unfold bind; destruct (m i) as [[tr0 i0] [a|e]]; [|discriminate].
  destruct (f a i0) as [[tr1 i1] r1] eqn:E; intros H; inversion H; subst.
  exists a, i0, tr0, tr1; auto.
Qed.

Ltac answer_found :=
  repeat match goal with
    | H : bind _ _ _ = (_, _, Ok _) |- _ =>
        apply bind_result in H;
        destruct H as (? & ? & ? & ? & _ & H & _)
    | H : ret _ _ = (_, _, Ok _) |- _ =>
        unfold ret in H; inversion H; subst; clear H
    end;
  first [ left; eexists; reflexivity | right; eexists; reflexivity ].

Lemma xjg_call_tool_answer (rt : Runtime) (req req_id name : json)
  (i i' : bool) (tr : list effect) (response : json) :
  Xjg.call_tool rt req req_id name i = (tr, i', Ok response) ->
  answer_to req_id response.
Proof.
  unfold Xjg.call_tool, answer_to.
  destruct (eq_str name "echo"); [intros H; answer_found|].
  destruct (eq_str name "reverse"); [intros H; answer_found|].
  destruct (eq_str name "word_count"); [intros H; answer_found|].
  destruct (eq_str name "weather"); intros H; answer_found.
Qed.

Lemma xavier_call_tool_answer (rt : Runtime) (req req_id name : json)
  (i i' : bool) (tr : list effect) (response : json) :
  Xavier.call_tool rt req req_id name i = (tr, i', Ok response) ->
  answer_to req_id response.
Proof.
  unfold Xavier.call_tool, answer_to.
  destruct (eq_str name "echo"); [intros H; answer_found|].
  destruct (eq_str name "reverse"); [intros H; answer_found|].
  destruct (eq_str name "word_count"); [intros H; answer_found|].
  destruct (eq_str name "weather"); [intros H; answer_found|].
  destruct (eq_str name "get_availability"); intros H; answer_found.
Qed.

Lemma backup_call_tool_answer (rt : Runtime) (req req_id name : json)
  (i i' : bool) (tr : list effect) (response : json) :
  XjgBackup.call_tool rt req req_id name i = (tr, i', Ok response) ->
  answer_to req_id response.
Proof.
  unfold XjgBackup.call_tool, answer_to.
  destruct (eq_str name "echo"); intros H; answer_found.
Qed.

Lemma xavier_call_tool_quiet (rt : Runtime) (req req_id tool_name : json) :
  quiet (Xavier.call_tool rt req req_id tool_name).
Proof.
  unfold Xavier.call_tool; quiet_steps; apply xavier_weather_info_quiet.
Qed.

Lemma backup_call_tool_quiet (rt : Runtime) (req req_id tool_name : json) :
  quiet (XjgBackup.call_tool rt req req_id tool_name).
Proof. unfold XjgBackup.call_tool; quiet_steps. Qed.

Lemma answer_to_id (req_id response : json) :
  answer_to req_id response -> id_of response = Some req_id.
Proof. intros [[text ->] | [message ->]]; reflexivity. Qed.

(** The tail of the [tools/call] branch, the same in the three
    scripts: the tool chain, then the one [print]. *)
Lemma call_answered_at_most_once (rt : Runtime) (kvs : list (pystr * json))
  (call_tool : json -> M json) (i : bool) :
  (forall name, quiet (call_tool name)) ->
  (forall name i i' tr response,
     call_tool name i = (tr, i', Ok response) ->
     answer_to (dict_get kvs "id" JNull) response) ->
  is_not_none (dict_get kvs "id" JNull) = true ->
  answered_at_most_once (JObj kvs)
    (trace_of (bind (lift (tool_name_of rt (JObj kvs)))
                 (fun tool_name =>
                    bind (call_tool tool_name)
                      (fun response => print_flush response)) i)).
Proof.
  intros Hq Ha Hi.
  destruct (tool_name_of rt (JObj kvs)) as [name|e];
    [rewrite bind_lift_ok | left; reflexivity].
  destruct (quiet_outcome _ i (Hq name)) as (tr & r & E & Hp).
  destruct r as [response|e].
  - rewrite (bind_outcome _ _ _ _ _ _ E); outcome.
    rewrite print_flush_run; cbn [fst]; unfold answered_at_most_once.
    rewrite responses_app, (prints_nil_responses _ Hp); cbn [app].
    pose proof (answer_to_id _ _ (Ha _ _ _ _ _ E)) as Hid.
    right; exists response; cbn [request_id]; repeat split; auto.
    + cbn [responses]; unfold is_response.
      unfold id_of in Hid; destruct response; try discriminate.
      rewrite Hid; reflexivity.
    + apply is_not_none_true; assumption.
  - rewrite (bind_raised _ _ _ _ _ _ E); outcome.
    left; apply prints_nil_responses; assumption.
Qed.

Ltac one_answer :=
  right; eexists; cbn [request_id];
  split; [reflexivity | split; [reflexivity | apply is_not_none_true; assumption]].

Lemma xjg_handle_answers (rt : Runtime) (req : json) (i : bool) :
  answered_at_most_once req (trace_of (Xjg.handle rt req i)).
Proof.
  destruct (is_dict req) eqn:Hd;
    [|rewrite (xjg_handle_not_dict rt req Hd); left; reflexivity].
  destruct req; try discriminate; rewrite xjg_handle_dict.
  destruct (is_not_none (dict_get kvs "id" JNull)) eqn:Hi.
  - destruct (eq_str (dict_get kvs "method" JNull) "initialize");
      [one_answer|].
    destruct (eq_str (dict_get kvs "method" JNull) "tools/list");
      [one_answer|].
    destruct (eq_str (dict_get kvs "method" JNull) "tools/call");
      [|one_answer].
    apply call_answered_at_most_once; auto.
    + intros name; apply xjg_call_tool_quiet.
    + intros name i0 i' tr response; apply xjg_call_tool_answer.
  - left.
    destruct (eq_str (dict_get kvs "method" JNull) "initialize");
      [reflexivity|].
    destruct (eq_str (dict_get kvs "method" JNull) "tools/list");
      [reflexivity|].
    destruct (eq_str (dict_get kvs "method" JNull) "tools/call");
      reflexivity.
Qed.

Lemma xavier_handle_answers (rt : Runtime) (req : json) (i : bool) :
  answered_at_most_once req (trace_of (Xavier.handle rt req i)).
Proof.
  destruct (is_dict req) eqn:Hd;
    [|rewrite (xavier_handle_not_dict rt req Hd); left; reflexivity].
  destruct req; try discriminate; rewrite xavier_handle_dict.
  destruct (is_not_none (dict_get kvs "id" JNull)) eqn:Hi.
  - destruct (eq_str (dict_get kvs "method" JNull) "initialize");
      [one_answer|].
    destruct (eq_str (dict_get kvs "method" JNull) "tools/list");
      [one_answer|].
    destruct (eq_str (dict_get kvs "method" JNull) "tools/call");
      [|one_answer].
    apply call_answered_at_most_once; auto.
    + intros name; apply xavier_call_tool_quiet.
    + intros name i0 i' tr response; apply xavier_call_tool_answer.
  - left.
    destruct (eq_str (dict_get kvs "method" JNull) "initialize");
      [reflexivity|].
    destruct (eq_str (dict_get kvs "method" JNull) "tools/list");
      [reflexivity|].
    destruct (eq_str (dict_get kvs "method" JNull) "tools/call");
      reflexivity.
Qed.

Lemma backup_handle_not_dict (rt : Runtime) (v : json) (i : bool) :
  is_dict v = false ->
  XjgBackup.handle rt v i
  = ([], i, Raise (Exn AttributeError
                     (error_text rt AttributeError v (str "get")))).
Proof.
  intros H; unfold XjgBackup.handle.
  rewrite (get_not_dict rt v "method" JNull H); reflexivity.
Qed.

Lemma backup_handle_answers (rt : Runtime) (req : json) (i : bool) :
  answered_at_most_once req (trace_of (XjgBackup.handle rt req i)).
Proof.
  destruct (is_dict req) eqn:Hd;
    [|rewrite (backup_handle_not_dict rt req i Hd); left; reflexivity].
  destruct req; try discriminate; rewrite backup_handle_dict.
  destruct (is_not_none (dict_get kvs "id" JNull)) eqn:Hi.
  - destruct (eq_str (dict_get kvs "method" JNull) "initialize");
      [one_answer|].
    destruct (eq_str (dict_get kvs "method" JNull) "tools/call");
      [|one_answer].
    apply call_answered_at_most_once; auto.
    + intros name; apply backup_call_tool_quiet.
    + intros name i0 i' tr response; apply backup_call_tool_answer.
  - left.
    destruct (eq_str (dict_get kvs "method" JNull) "initialize");
      [reflexivity|].
    destruct (eq_str (dict_get kvs "method" JNull) "tools/call");
      reflexivity.
Qed.

Section RunAnswers.
Variable rt : Runtime.
Variable handle : json -> M unit.
Hypothesis handle_answers :
  forall req i, answered_at_most_once req (trace_of (handle req i)).

Lemma step_answers (p : process) (ev : event) :
  (List.length (responses (snd (step rt handle p ev))) <= 1)%nat /\
  Forall carries_id (responses (snd (step rt handle p ev))).
Proof.
  assert (Hnil : (List.length (responses []) <= 1)%nat
                 /\ Forall carries_id (responses []))
    by (split; [simpl; lia | constructor]).
  destruct p as [b| |]; [|destruct ev; exact Hnil | exact Hnil].
  destruct ev as [line|e| |signum];
    [|cbn [step]; destruct (exn_class_of e); exact Hnil
     |exact Hnil | exact Hnil].
  cbn [step]; unfold iteration.
  destruct line as [|c line]; [destruct b; exact Hnil|].
  destruct (strip (c :: line)) as [|d s]; [exact Hnil|].
  destruct (json_loads rt (d :: s)) as [req|e];
    [|destruct (exn_class_of e); exact Hnil].
  specialize (handle_answers req b).
  assert (H : (List.length (responses (trace_of (handle req b))) <= 1)%nat
              /\ Forall carries_id (responses (trace_of (handle req b)))).
  { destruct handle_answers as [-> | (response & -> & Hid & Hn)];
      [exact Hnil|].
    split; [simpl; lia|].
    constructor; [|constructor]; unfold carries_id; rewrite Hid; exact Hn. }
  destruct (handle req b) as [[tr i] [[]|e]]; outcome; [assumption|].
  destruct (exn_class_of e); assumption.
Qed.

Lemma run_answers (evs : list event) :
  forall p,
    (List.length (responses (snd (run rt handle p evs)))
     <= List.length evs)%nat /\
    Forall carries_id (responses (snd (run rt handle p evs))).
Proof.
  induction evs as [|ev evs IH]; intros p;
    [split; [simpl; lia | constructor]|].
  rewrite run_cons; cbn [snd]; rewrite responses_app, length_app.
  destruct (step_answers p ev) as [H1 H2].
  destruct (IH (fst (step rt handle p ev))) as [H3 H4].
  split; [simpl; lia | apply Forall_app; auto].
Qed.

End RunAnswers.

(** In every run of the three scripts, whatever the lines are, there
    are no more responses than events, and every response carries an
    id that is not null: nothing is answered twice, and nothing without
    an id is answered. *)
Theorem responses_never_exceed_lines (rt : Runtime) (p : process)
  (evs : list event) :
  ((List.length (responses (snd (Xjg.run rt p evs))) <= List.length evs)%nat
   /\ Forall carries_id (responses (snd (Xjg.run rt p evs)))) /\
  ((List.length (responses (snd (Xavier.run rt p evs)))
    <= List.length evs)%nat
   /\ Forall carries_id (responses (snd (Xavier.run rt p evs)))) /\
  ((List.length (responses (snd (XjgBackup.run rt p evs)))
    <= List.length evs)%nat
   /\ Forall carries_id (responses (snd (XjgBackup.run rt p evs)))).
Proof.
  split; [|split].
  - apply run_answers; intros req i; apply xjg_handle_answers.
  - apply run_answers; intros req i; apply xavier_handle_answers.
  - apply run_answers; intros req i; apply backup_handle_answers.
Qed.

(** *** The flag [initialized] is never reset *)

Lemma never_resets_keeps {A} (m : M A) : keeps_flag m -> never_resets m.
Proof. intros H; apply H. Qed.

Lemma never_resets_bind {A B} (m : M A) (f : A -> M B) :
  never_resets m -> (forall a, never_resets (f a)) -> never_resets (bind m f).
Proof.
  unfold never_resets, bind; intros Hm Hf.
  destruct (m true) as [[tr i'] [a|e]]; outcome; subst i'; [|reflexivity].
  specialize (Hf a); destruct (f a true) as [[tr' i''] r]; outcome.
  assumption.
Qed.

Lemma never_resets_if {A} (c : bool) (m m' : M A) :
  never_resets m -> never_resets m' -> never_resets (if c then m else m').
Proof. destruct c; auto. Qed.

Ltac never_resets_steps leaf :=
  repeat first
    [ leaf
    | apply never_resets_keeps; apply keeps_flag_print_flush
    | apply never_resets_keeps; apply quiet_keeps_flag;
      first [apply quiet_ret | apply quiet_lift]
    | reflexivity
    | apply never_resets_if
    | apply never_resets_bind; [|intros ?] ].

Lemma xjg_handle_never_resets (rt : Runtime) (req : json) :
  never_resets (Xjg.handle rt req).
Proof.
  unfold Xjg.handle, Xjg.send_tool_declaration.
  never_resets_steps
    ltac:(apply never_resets_keeps; apply quiet_keeps_flag;
          apply xjg_call_tool_quiet).
Qed.

Lemma xavier_handle_never_resets (rt : Runtime) (req : json) :
  never_resets (Xavier.handle rt req).
Proof.
  unfold Xavier.handle, Xavier.send_tool_declaration.
  never_resets_steps
    ltac:(apply never_resets_keeps; apply quiet_keeps_flag;
          apply xavier_call_tool_quiet).
Qed.

Lemma backup_handle_never_resets (rt : Runtime) (req : json) :
  never_resets (XjgBackup.handle rt req).
Proof.
  unfold XjgBackup.handle, XjgBackup.send_tool_declaration.
  never_resets_steps
    ltac:(apply never_resets_keeps; apply quiet_keeps_flag;
          apply backup_call_tool_quiet).
Qed.

Section RunFlag.
Variable rt : Runtime.
Variable handle : json -> M unit.
Hypothesis handle_never_resets : forall req, never_resets (handle req).

Lemma step_never_resets (p : process) (ev : event) :
  p <> Running false -> fst (step rt handle p ev) <> Running false.
Proof.
  intros Hp; destruct p as [[|]| |]; try congruence;
    [|destruct ev; discriminate | discriminate].
  destruct ev as [line|e| |signum];
    [|cbn [step]; destruct (exn_class_of e); discriminate
     |discriminate | discriminate].
  cbn [step]; unfold iteration.
  destruct line as [|c line]; [discriminate|].
  destruct (strip (c :: line)) as [|d s]; [discriminate|].
  destruct (json_loads rt (d :: s)) as [req|e];
    [|destruct (exn_class_of e); discriminate].
  specialize (handle_never_resets req); unfold never_resets in *.
  destruct (handle req true) as [[tr i] [[]|e]]; outcome; subst i;
    [discriminate|].
  destruct (exn_class_of e); discriminate.
Qed.

Lemma run_never_resets (evs : list event) :
  forall p, p <> Running false ->
            fst (run rt handle p evs) <> Running false.
Proof.
  induction evs as [|ev evs IH]; intros p Hp; [exact Hp|].
  rewrite run_cons; cbn [fst]; apply IH, step_never_resets, Hp.
Qed.

End RunFlag.

(** Once [initialized] is set, no sequence of lines, sleeps and signals
    brings any of the three scripts back to reading lines with the flag
    unset: the flag is never reset. *)
Theorem initialized_is_never_reset (rt : Runtime) (evs : list event) :
  fst (Xjg.run rt (Running true) evs) <> Running false /\
  fst (Xavier.run rt (Running true) evs) <> Running false /\
  fst (XjgBackup.run rt (Running true) evs) <> Running false.
Proof.
  split; [|split]; apply run_never_resets; try discriminate.
  - apply xjg_handle_never_resets.
  - apply xavier_handle_never_resets.
  - apply backup_handle_never_resets.
Qed.

(** *** One declaration for each [initialize] message *)

Lemma id_of_no_notification (method : string) (msg : json) (id : json) :
  id_of msg = Some id -> notifications method [Print msg; Flush] = [].
Proof.
  unfold id_of; destruct msg; try discriminate; intros H.
  cbn [notifications]; rewrite H; reflexivity.
Qed.

Lemma call_declares_nothing (rt : Runtime) (kvs : list (pystr * json))
  (call_tool : json -> M json) (i : bool) :
  (forall name, quiet (call_tool name)) ->
  (forall name i i' tr response,
     call_tool name i = (tr, i', Ok response) ->
     answer_to (dict_get kvs "id" JNull) response) ->
  notifications "tools/declare"
    (trace_of (bind (lift (tool_name_of rt (JObj kvs)))
                 (fun tool_name =>
                    bind (call_tool tool_name)
                      (fun response => print_flush response)) i)) = [].
Proof.
  intros Hq Ha.
  destruct (tool_name_of rt (JObj kvs)) as [name|e];
    [rewrite bind_lift_ok | reflexivity].
  destruct (quiet_outcome _ i (Hq name)) as (tr & r & E & Hp).
  destruct r as [response|e].
  - rewrite (bind_outcome _ _ _ _ _ _ E); outcome.
    rewrite print_flush_run; cbn [fst].
    rewrite notifications_app, (prints_nil_notifications _ _ Hp).
    apply (id_of_no_notification _ _ _ (answer_to_id _ _ (Ha _ _ _ _ _ E))).
  - rewrite (bind_raised _ _ _ _ _ _ E); outcome.
    apply prints_nil_notifications; assumption.
Qed.

Lemma xjg_handle_declares (rt : Runtime) (req : json) (i : bool) :
  notifications "tools/declare" (trace_of (Xjg.handle rt req i))
  = if is_initialize req then [Xjg.tool_declaration] else [].
Proof.
  destruct (is_dict req) eqn:Hd;
    [|rewrite (xjg_handle_not_dict rt req Hd); destruct req;
      try discriminate; reflexivity].
  destruct req; try discriminate; rewrite xjg_handle_dict.
  cbn [is_initialize].
  destruct (eq_str (dict_get kvs "method" JNull) "initialize").
  { destruct (is_not_none (dict_get kvs "id" JNull)); reflexivity. }
  destruct (eq_str (dict_get kvs "method" JNull) "tools/list").
  { destruct (is_not_none (dict_get kvs "id" JNull)); reflexivity. }
  destruct (eq_str (dict_get kvs "method" JNull) "tools/call");
    [|destruct (is_not_none (dict_get kvs "id" JNull)); reflexivity].
  destruct (is_not_none (dict_get kvs "id" JNull)); [|reflexivity].
  apply call_declares_nothing.
  - intros name; apply xjg_call_tool_quiet.
  - intros name i0 i' tr response; apply xjg_call_tool_answer.
Qed.

Lemma xavier_handle_declares (rt : Runtime) (req : json) (i : bool) :
  notifications "tools/declare" (trace_of (Xavier.handle rt req i))
  = if is_initialize req then [Xavier.tool_declaration] else [].
Proof.
  destruct (is_dict req) eqn:Hd;
    [|rewrite (xavier_handle_not_dict rt req Hd); destruct req;
      try discriminate; reflexivity].
  destruct req; try discriminate; rewrite xavier_handle_dict.
  cbn [is_initialize].
  destruct (eq_str (dict_get kvs "method" JNull) "initialize").
  { destruct (is_not_none (dict_get kvs "id" JNull)); reflexivity. }
  destruct (eq_str (dict_get kvs "method" JNull) "tools/list").
  { destruct (is_not_none (dict_get kvs "id" JNull)); reflexivity. }
  destruct (eq_str (dict_get kvs "method" JNull) "tools/call");
    [|destruct (is_not_none (dict_get kvs "id" JNull)); reflexivity].
  destruct (is_not_none (dict_get kvs "id" JNull)); [|reflexivity].
  apply call_declares_nothing.
  - intros name; apply xavier_call_tool_quiet.
  - intros name i0 i' tr response; apply xavier_call_tool_answer.
Qed.

Lemma backup_handle_declares (rt : Runtime) (req : json) (i : bool) :
  notifications "tools/declare" (trace_of (XjgBackup.handle rt req i))
  = if is_initialize req then [XjgBackup.tool_declaration] else [].
Proof.
  destruct (is_dict req) eqn:Hd;
    [|rewrite (backup_handle_not_dict rt req i Hd); destruct req;
      try discriminate; reflexivity].
  destruct req; try discriminate; rewrite backup_handle_dict.
  cbn [is_initialize].
  destruct (eq_str (dict_get kvs "method" JNull) "initialize").
  { destruct (is_not_none (dict_get kvs "id" JNull)); reflexivity. }
  destruct (eq_str (dict_get kvs "method" JNull) "tools/call");
    [|destruct (is_not_none (dict_get kvs "id" JNull)); reflexivity].
  destruct (is_not_none (dict_get kvs "id" JNull)); [|reflexivity].
  apply call_declares_nothing.
  - intros name; apply backup_call_tool_quiet.
  - intros name i0 i' tr response; apply backup_call_tool_answer.
Qed.

Lemma step_declares (rt : Runtime) (handle : json -> M unit)
  (declaration : json) (b : bool) (line : pystr) :
  (forall req i,
     notifications "tools/declare" (trace_of (handle req i))
     = if is_initialize req then [declaration] else []) ->
  notifications "tools/declare"
    (snd (step rt handle (Running b) (Readline line)))
  = if initialize_line rt line then [declaration] else [].
Proof.
  intros Hh; cbn [step]; unfold iteration, initialize_line.
  destruct line as [|c line]; [destruct b; reflexivity|].
  destruct (strip (c :: line)) as [|d s]; [reflexivity|].
  destruct (json_loads rt (d :: s)) as [req|e];
    [|destruct (exn_class_of e); reflexivity].
  specialize (Hh req b).
  destruct (handle req b) as [[tr i] [[]|e]]; outcome; [assumption|].
  destruct (exn_class_of e); assumption.
Qed.

(** In the three scripts, the line read yields the [tools/declare]
    notification of the script exactly when it decodes to an
    [initialize] message, once, and also when [initialized] is set
    already: a repeated [initialize] declares the tools again, and no
    other line ever prints a notification. *)
Theorem declaration_for_each_initialize (rt : Runtime) (b : bool)
  (line : pystr) :
  notifications "tools/declare"
    (snd (Xjg.step rt (Running b) (Readline line)))
  = (if initialize_line rt line then [Xjg.tool_declaration] else []) /\
  notifications "tools/declare"
    (snd (Xavier.step rt (Running b) (Readline line)))
  = (if initialize_line rt line then [Xavier.tool_declaration] else []) /\
  notifications "tools/declare"
    (snd (XjgBackup.step rt (Running b) (Readline line)))
  = (if initialize_line rt line then [XjgBackup.tool_declaration] else []).
Proof.
  split; [|split]; apply step_declares.
  - apply xjg_handle_declares.
  - apply xavier_handle_declares.
  - apply backup_handle_declares.
Qed.

(** *** Responses in the order of the requests *)

Lemma xjg_handle_fit (rt : Runtime) (kvs : list (pystr * json)) (b : bool) :
  xjg_request_fits kvs = true ->
  exists tr b',
    Xjg.handle rt (JObj kvs) b = (tr, b', Ok tt) /\
    map id_of (responses tr)
    = if is_not_none (dict_get kvs "id" JNull)
      then [Some (dict_get kvs "id" JNull)] else [].
Proof.
  unfold xjg_request_fits; intros Hf.
  destruct (eq_str (dict_get kvs "method" JNull) "initialize") eqn:E1.
  { apply eq_str_true in E1; rewrite (xjg_handle_initialize rt kvs b E1).
    do 2 eexists; split; [reflexivity|].
    destruct (is_not_none (dict_get kvs "id" JNull)); reflexivity. }
  destruct (eq_str (dict_get kvs "method" JNull) "tools/list") eqn:E2.
  { apply eq_str_true in E2; rewrite (xjg_handle_tools_list rt kvs b E2).
    do 2 eexists; split; [reflexivity|].
    destruct (is_not_none (dict_get kvs "id" JNull)); reflexivity. }
  destruct (eq_str (dict_get kvs "method" JNull) "tools/call") eqn:E3.
  { apply eq_str_true in E3.
    destruct (is_not_none (dict_get kvs "id" JNull)) eqn:Hi.
    - apply is_not_none_true in Hi.
      destruct (xjg_handle_call_fit rt kvs b E3 Hi Hf)
        as (tr & name & response & E & Hp & _ & Hr).
      rewrite E; do 2 eexists; split; [reflexivity|].
      rewrite responses_app, (prints_nil_responses _ Hp); cbn [app].
      destruct (xjg_tool name); [destruct Hr as [text ->] | subst response];
        reflexivity.
    - apply is_not_none_false in Hi.
      rewrite (xjg_handle_call_notification rt kvs b E3 Hi).
      do 2 eexists; split; reflexivity. }
  apply eq_str_false in E1, E2, E3.
  rewrite (xjg_handle_unknown_method rt kvs b E1 E2 E3).
  do 2 eexists; split; [reflexivity|].
  destruct (is_not_none (dict_get kvs "id" JNull)); reflexivity.
Qed.

(** When every line read decodes to a request object that fits, the
    loop of [xjg.py] is still running after the last one, and the ids of
    the responses it printed are, in order, the ids of the requests that
    had one: each such request is answered once, before the next line is
    looked at, and the others are not answered. *)
Theorem responses_follow_requests (rt : Runtime) (lines : list pystr)
  (b : bool) :
  Forall (fits_xjg rt) lines ->
  (exists b', fst (Xjg.run rt (Running b) (map Readline lines)) = Running b')
  /\ map id_of (responses (snd (Xjg.run rt (Running b)
                                  (map Readline lines))))
     = map Some (filter is_not_none (map (line_id rt) lines)).
Proof.
  unfold Xjg.run; intros H; revert b.
  induction H as [|line lines (kvs & Hd & Hf) _ IH]; intros b.
  - split; [exists b|]; reflexivity.
  - destruct (xjg_handle_fit rt kvs b Hf) as (tr & b' & E & Hr).
    pose proof (xjg_step_handled _ _ _ _ _ _ Hd E) as Hs.
    unfold Xjg.step in Hs.
    cbn [map]; rewrite run_cons, Hs; cbn [fst snd].
    destruct (IH b') as [Hrun Hids]; split; [exact Hrun|].
    rewrite responses_app, map_app, Hids, Hr.
    assert (Hl : line_id rt line = dict_get kvs "id" JNull).
    { unfold line_id; destruct Hd as [_ ->]; reflexivity. }
    cbn [filter]; rewrite Hl.
    destruct (is_not_none (dict_get kvs "id" JNull)); reflexivity.
Qed.

Lemma responses_follow_requests_witness :
  map id_of
    (responses
       (snd (Xjg.run Sample.offline (Running false)
               (map Readline
                  [Sample.line_of Sample.initialize_1;
                   Sample.line_of Sample.list_notification;
                   Sample.line_of Sample.echo_3;
                   Sample.line_of Sample.ping_10]))))
  = [Some (JInt 1); Some (JInt 3); Some (JInt 10)].
Proof.
  apply (responses_follow_requests Sample.offline
           [Sample.line_of Sample.initialize_1;
            Sample.line_of Sample.list_notification;
            Sample.line_of Sample.echo_3;
            Sample.line_of Sample.ping_10] false).
  repeat constructor.
  - exists (Sample.members Sample.initialize_1); evaluated.
  - exists (Sample.members Sample.list_notification); evaluated.
  - exists (Sample.members Sample.echo_3); evaluated.
  - exists (Sample.members Sample.ping_10); evaluated.
Defined.

(* ===================================================================== *)
(** ** Further properties: the tools *)
(* ===================================================================== *)

(** *** The tools declared are the tools dispatched *)

Lemma in_names_iff (name : json) (names : list string) :
  existsb (eq_str name) names = true <->
  exists s, name = JStr s /\ In s (map u names).
Proof.
  induction names as [|n names IH]; simpl.
  - split; [discriminate | intros (s & _ & [])].
  - rewrite orb_true_iff, IH, eq_str_true; split.
    + intros [-> | (s & -> & H)]; [exists (u n) | exists s]; auto.
    + intros (s & -> & [<- | H]); [left; reflexivity | right; eauto].
Qed.

Lemma xjg_tool_declared (name : json) :
  xjg_tool name = true <-> declared_in Xjg.tool_declaration name.
Proof.
  unfold declared_in.
  rewrite <- (in_names_iff name ["echo"; "reverse"; "word_count";
                                 "weather"]%string).
  unfold xjg_tool; cbn [existsb]; rewrite orb_false_r, !orb_assoc.
  reflexivity.
Qed.

Lemma xavier_tool_declared (name : json) :
  xavier_tool name = true <-> declared_in Xavier.tool_declaration name.
Proof.
  unfold declared_in.
  rewrite <- (in_names_iff name ["echo"; "reverse"; "word_count";
                                 "weather"; "get_availability"]%string).
  unfold xavier_tool, xjg_tool; cbn [existsb].
  rewrite orb_false_r, !orb_assoc; reflexivity.
Qed.

Lemma backup_tool_declared (name : json) :
  backup_tool name = true <-> declared_in XjgBackup.tool_declaration name.
Proof.
  unfold declared_in.
  rewrite <- (in_names_iff name ["echo"]%string).
  unfold backup_tool; cbn [existsb]; rewrite orb_false_r; reflexivity.
Qed.

Lemma not_declared (tool : json -> bool) (declaration name : json) :
  (tool name = true <-> declared_in declaration name) ->
  ~ declared_in declaration name -> tool name = false.
Proof. intros H Hn; destruct (tool name); [exfalso; tauto | reflexivity]. Qed.

(** A response the chain returns on a name it has a branch for is a
    result. *)
Ltac result_found :=
  repeat match goal with
    | H : bind _ _ _ = (_, _, Ok _) |- _ =>
        apply bind_result in H;
        destruct H as (? & ? & ? & ? & _ & H & _)
    | H : ret _ _ = (_, _, Ok _) |- _ =>
        unfold ret in H; inversion H; subst; clear H
    end;
  eexists; reflexivity.

Lemma xjg_call_tool_result (rt : Runtime) (req req_id name : json)
  (i i' : bool) (tr : list effect) (response : json) :
  xjg_tool name = true ->
  Xjg.call_tool rt req req_id name i = (tr, i', Ok response) ->
  exists text, response = text_result req_id text.
Proof.
  unfold Xjg.call_tool, xjg_tool.
  destruct (eq_str name "echo"); [intros _ H; result_found|].
  destruct (eq_str name "reverse"); [intros _ H; result_found|].
  destruct (eq_str name "word_count"); [intros _ H; result_found|].
  destruct (eq_str name "weather"); [intros _ H; result_found|].
  discriminate.
Qed.

Lemma xavier_call_tool_result (rt : Runtime) (req req_id name : json)
  (i i' : bool) (tr : list effect) (response : json) :
  xavier_tool name = true ->
  Xavier.call_tool rt req req_id name i = (tr, i', Ok response) ->
  exists text, response = text_result req_id text.
Proof.
  unfold Xavier.call_tool, xavier_tool, xjg_tool.
  destruct (eq_str name "echo"); [intros _ H; result_found|].
  destruct (eq_str name "reverse"); [intros _ H; result_found|].
  destruct (eq_str name "word_count"); [intros _ H; result_found|].
  destruct (eq_str name "weather"); [intros _ H; result_found|].
  destruct (eq_str name "get_availability"); [intros _ H; result_found|].
  discriminate.
Qed.

Lemma backup_call_tool_result (rt : Runtime) (req req_id name : json)
  (i i' : bool) (tr : list effect) (response : json) :
  backup_tool name = true ->
  XjgBackup.call_tool rt req req_id name i = (tr, i', Ok response) ->
  exists text, response = text_result req_id text.
Proof.
  unfold XjgBackup.call_tool, backup_tool.
  destruct (eq_str name "echo"); [intros _ H; result_found|].
  discriminate.
Qed.

(** On the request that gives no arguments every branch works on its
    default. *)
Lemma xjg_bare_call (rt : Runtime) (req_id name : json) (i : bool) :
  xjg_tool name = true ->
  exists tr text,
    Xjg.call_tool rt (bare_call name) req_id name i
    = (tr, i, Ok (text_result req_id text)).
Proof.
  intros Ht.
  destruct (xjg_call_fit rt [kv "params" (JObj [kv "name" name])]
              [kv "name" name] req_id eq_refl [] i Ht eq_refl)
    as (tr & text & E & _); [|eauto].
  unfold xjg_arguments_fit.
  repeat match goal with
         | |- context [if ?c then _ else _] => destruct c
         end; reflexivity.
Qed.

Lemma xavier_bare_call (rt : Runtime) (req_id name : json) (i : bool) :
  xavier_tool name = true ->
  exists tr text,
    Xavier.call_tool rt (bare_call name) req_id name i
    = (tr, i, Ok (text_result req_id text)).
Proof.
  intros Ht.
  destruct (xavier_call_fit rt [kv "params" (JObj [kv "name" name])]
              [kv "name" name] req_id eq_refl [] i Ht eq_refl)
    as (tr & text & E & _); [|eauto].
  unfold xavier_arguments_fit, xjg_arguments_fit.
  repeat match goal with
         | |- context [if ?c then _ else _] => destruct c
         end; reflexivity.
Qed.

Lemma backup_bare_call (rt : Runtime) (req_id name : json) (i : bool) :
  backup_tool name = true ->
  exists tr text,
    XjgBackup.call_tool rt (bare_call name) req_id name i
    = (tr, i, Ok (text_result req_id text)).
Proof.
  unfold backup_tool, XjgBackup.call_tool; intros ->.
  exists [], (echo_text rt (str "")); reflexivity.
Qed.

Lemma xjg_call_tool_unknown (rt : Runtime) (req req_id name : json)
  (i : bool) :
  xjg_tool name = false ->
  Xjg.call_tool rt req req_id name i
  = ([], i, Ok (error_response req_id (-32601)
                  (u "Unknown tool: " ++ fmt rt name))).
Proof.
  unfold xjg_tool; rewrite !orb_false_iff; intros [[[H1 H2] H3] H4].
  unfold Xjg.call_tool; rewrite H1, H2, H3, H4; reflexivity.
Qed.

Lemma xavier_call_tool_unknown (rt : Runtime) (req req_id name : json)
  (i : bool) :
  xavier_tool name = false ->
  Xavier.call_tool rt req req_id name i
  = ([], i, Ok (error_response req_id (-32601)
                  (u "Unknown tool: " ++ fmt rt name))).
Proof.
  unfold xavier_tool, xjg_tool; rewrite !orb_false_iff.
  intros [[[[H1 H2] H3] H4] H5].
  unfold Xavier.call_tool; rewrite H1, H2, H3, H4, H5; reflexivity.
Qed.

Lemma backup_call_tool_unknown (rt : Runtime) (req req_id name : json)
  (i : bool) :
  backup_tool name = false ->
  XjgBackup.call_tool rt req req_id name i
  = ([], i, Ok (error_response req_id (-32601)
                  (u "Unknown tool: " ++ fmt rt name))).
Proof.
  unfold backup_tool, XjgBackup.call_tool; intros ->; reflexivity.
Qed.

Section Chains.
Variable rt : Runtime.
Variable call_tool : json -> json -> json -> M json.
Variable tool : json -> bool.
Variable name : json.

Lemma chain_dispatches :
  (forall req req_id i i' tr response,
     call_tool req req_id name i = (tr, i', Ok response) ->
     exists text, response = text_result req_id text) ->
  (forall req_id i,
     exists tr text,
       call_tool (bare_call name) req_id name i
       = (tr, i, Ok (text_result req_id text))) ->
  dispatches call_tool name.
Proof.
  intros Hr Hb; split.
  - intros req req_id i tr i' response E.
    destruct (Hr _ _ _ _ _ _ E) as [text ->].
    destruct (text_result_read req_id text) as (H1 & H2 & H3); eauto.
  - intros req_id i; destruct (Hb req_id i) as (tr & text & E).
    exists tr, (text_result req_id text), text.
    split; [exact E | apply text_result_read].
Qed.

Lemma chain_rejects :
  (forall req req_id i,
     call_tool req req_id name i
     = ([], i, Ok (error_response req_id (-32601)
                     (u "Unknown tool: " ++ fmt rt name)))) ->
  rejects rt call_tool name.
Proof.
  intros H req req_id i; eexists; split; [apply H|].
  apply error_response_read.
Qed.

End Chains.

(** In each script the names the [if tool_name == ...] chain has a
    branch for are the names its [tools/declare] notification
    announces. On a declared name the chain never returns an error: a
    response it returns carries the id and a result with one text, and
    on the request that gives no arguments it returns one. On every
    other name, a string that is not declared or a value that is no
    string, the chain returns the error -32601 "Unknown tool" with the
    name, whatever the request. *)
Theorem declared_tools_are_dispatched (rt : Runtime) (name : json) :
  (declared_in Xjg.tool_declaration name ->
   dispatches (Xjg.call_tool rt) name) /\
  (~ declared_in Xjg.tool_declaration name ->
   rejects rt (Xjg.call_tool rt) name) /\
  (declared_in Xavier.tool_declaration name ->
   dispatches (Xavier.call_tool rt) name) /\
  (~ declared_in Xavier.tool_declaration name ->
   rejects rt (Xavier.call_tool rt) name) /\
  (declared_in XjgBackup.tool_declaration name ->
   dispatches (XjgBackup.call_tool rt) name) /\
  (~ declared_in XjgBackup.tool_declaration name ->
   rejects rt (XjgBackup.call_tool rt) name).
Proof.
  split; [|split; [|split; [|split; [|split]]]].
  - intros H; apply xjg_tool_declared in H; apply chain_dispatches.
    + intros req req_id i i' tr response.
      apply xjg_call_tool_result; exact H.
    + intros req_id i; apply xjg_bare_call; exact H.
  - intros H; apply (not_declared _ _ _ (xjg_tool_declared name)) in H.
    apply chain_rejects; intros req req_id i.
    apply xjg_call_tool_unknown; exact H.
  - intros H; apply xavier_tool_declared in H; apply chain_dispatches.
    + intros req req_id i i' tr response.
      apply xavier_call_tool_result; exact H.
    + intros req_id i; apply xavier_bare_call; exact H.
  - intros H; apply (not_declared _ _ _ (xavier_tool_declared name)) in H.
    apply chain_rejects; intros req req_id i.
    apply xavier_call_tool_unknown; exact H.
  - intros H; apply backup_tool_declared in H; apply chain_dispatches.
    + intros req req_id i i' tr response.
      apply backup_call_tool_result; exact H.
    + intros req_id i; apply backup_bare_call; exact H.
  - intros H; apply (not_declared _ _ _ (backup_tool_declared name)) in H.
    apply chain_rejects; intros req req_id i.
    apply backup_call_tool_unknown; exact H.
Qed.

Lemma declared_tools_are_dispatched_witness :
  dispatches (Xjg.call_tool Sample.offline) (str "reverse") /\
  rejects Sample.offline (XjgBackup.call_tool Sample.offline)
    (str "reverse").
Proof.
  destruct (declared_tools_are_dispatched Sample.offline (str "reverse"))
    as (H1 & _ & _ & _ & _ & H6).
  split.
  - apply H1; exists (u "reverse"); split; [reflexivity|].
    vm_compute; right; left; reflexivity.
  - apply H6; intros (s & Hs & Hin); inversion Hs; subst s.
    vm_compute in Hin; destruct Hin as [Hin|[]]; discriminate.
Defined.

(** *** [echo] and [reverse] *)

Section TextCalls.
Variable rt : Runtime.
Variable kvs params arguments : list (pystr * json).
Variable b : bool.
Hypothesis call : dict_get kvs "method" JNull = str "tools/call".
Hypothesis with_id : dict_get kvs "id" JNull <> JNull.
Hypothesis params_dict : dict_get kvs "params" (JObj []) = JObj params.
Hypothesis arguments_dict :
  dict_get params "arguments" (JObj []) = JObj arguments.

Let req_id : json := dict_get kvs "id" JNull.

Lemma xjg_handle_text_call (text : pystr) :
  Xjg.call_tool rt (JObj kvs) req_id (dict_get params "name" JNull) b
  = ([], b, Ok (text_result req_id text)) ->
  Xjg.handle rt (JObj kvs) b
  = ([Print (text_result req_id text); Flush], b, Ok tt).
Proof.
  intros E; rewrite xjg_handle_dict, call.
  apply is_not_none_true in with_id; rewrite with_id.
  change (eq_str (str "tools/call") "initialize") with false.
  change (eq_str (str "tools/call") "tools/list") with false.
  rewrite eq_str_refl; cbv iota.
  rewrite (tool_name_of_dict rt kvs params params_dict), bind_lift_ok.
  fold req_id; rewrite (bind_outcome _ _ _ _ _ _ E); reflexivity.
Qed.

Lemma xavier_handle_text_call (text : pystr) :
  Xavier.call_tool rt (JObj kvs) req_id (dict_get params "name" JNull) b
  = ([], b, Ok (text_result req_id text)) ->
  Xavier.handle rt (JObj kvs) b
  = ([Print (text_result req_id text); Flush], b, Ok tt).
Proof.
  intros E; rewrite xavier_handle_dict, call.
  apply is_not_none_true in with_id; rewrite with_id.
  change (eq_str (str "tools/call") "initialize") with false.
  change (eq_str (str "tools/call") "tools/list") with false.
  rewrite eq_str_refl; cbv iota.
  rewrite (tool_name_of_dict rt kvs params params_dict), bind_lift_ok.
  fold req_id; rewrite (bind_outcome _ _ _ _ _ _ E); reflexivity.
Qed.

Lemma backup_handle_text_call (text : pystr) :
  XjgBackup.call_tool rt (JObj kvs) req_id (dict_get params "name" JNull) b
  = ([], b, Ok (text_result req_id text)) ->
  XjgBackup.handle rt (JObj kvs) b
  = ([Print (text_result req_id text); Flush], b, Ok tt).
Proof.
  intros E; rewrite backup_handle_dict, call.
  apply is_not_none_true in with_id; rewrite with_id.
  change (eq_str (str "tools/call") "initialize") with false.
  rewrite eq_str_refl; cbv iota.
  rewrite (tool_name_of_dict rt kvs params params_dict), bind_lift_ok.
  fold req_id; rewrite (bind_outcome _ _ _ _ _ _ E); reflexivity.
Qed.

Lemma echo_handled :
  dict_get params "name" JNull = str "echo" ->
  let answer :=
    [Print (text_result req_id
              (u "Echo: " ++ fmt rt (dict_get arguments "message" (str ""))));
     Flush] in
  Xjg.handle rt (JObj kvs) b = (answer, b, Ok tt) /\
  Xavier.handle rt (JObj kvs) b = (answer, b, Ok tt) /\
  XjgBackup.handle rt (JObj kvs) b = (answer, b, Ok tt).
Proof.
  intros Hn answer; subst answer; split; [|split].
  - apply xjg_handle_text_call; rewrite Hn; unfold Xjg.call_tool.
    rewrite eq_str_refl.
    rewrite (argument_dict rt kvs params arguments _ _ params_dict
               arguments_dict), bind_lift_ok; reflexivity.
  - apply xavier_handle_text_call; rewrite Hn; unfold Xavier.call_tool.
    rewrite eq_str_refl.
    rewrite (argument_dict rt kvs params arguments _ _ params_dict
               arguments_dict), bind_lift_ok; reflexivity.
  - apply backup_handle_text_call; rewrite Hn; unfold XjgBackup.call_tool.
    rewrite eq_str_refl.
    rewrite (argument_dict rt kvs params arguments _ _ params_dict
               arguments_dict), bind_lift_ok; reflexivity.
Qed.

Lemma reverse_handled (text : pystr) :
  dict_get params "name" JNull = str "reverse" ->
  dict_get arguments "text" (str "") = JStr text ->
  let answer :=
    [Print (text_result req_id (u "Reversed: " ++ rev text)); Flush] in
  Xjg.handle rt (JObj kvs) b = (answer, b, Ok tt) /\
  Xavier.handle rt (JObj kvs) b = (answer, b, Ok tt).
Proof.
  intros Hn Ht answer; subst answer; split.
  - apply xjg_handle_text_call; rewrite Hn; unfold Xjg.call_tool.
    change (eq_str (str "reverse") "echo") with false.
    rewrite eq_str_refl; cbv iota.
    rewrite (argument_dict rt kvs params arguments _ _ params_dict
               arguments_dict), bind_lift_ok, Ht; reflexivity.
  - apply xavier_handle_text_call; rewrite Hn; unfold Xavier.call_tool.
    change (eq_str (str "reverse") "echo") with false.
    rewrite eq_str_refl; cbv iota.
    rewrite (argument_dict rt kvs params arguments _ _ params_dict
               arguments_dict), bind_lift_ok, Ht; reflexivity.
Qed.

End TextCalls.

(** The three scripts answer an [echo] call that has an id in the same
    way: one result whose text is "Echo: " followed by the message as
    an f-string formats it, the message itself when it is a string,
    and nothing when [arguments] has no ["message"]. *)
Theorem echo_is_answered_alike (rt : Runtime) (b : bool) (line : pystr)
  (kvs params arguments : list (pystr * json)) :
  decodes_to rt line (JObj kvs) ->
  dict_get kvs "method" JNull = str "tools/call" ->
  dict_get kvs "id" JNull <> JNull ->
  dict_get kvs "params" (JObj []) = JObj params ->
  dict_get params "name" JNull = str "echo" ->
  dict_get params "arguments" (JObj []) = JObj arguments ->
  let req_id := dict_get kvs "id" JNull in
  let text :=
    match dict_lookup (u "message") arguments with
    | Some (JStr message) => u "Echo: " ++ message
    | Some message => u "Echo: " ++ py_repr rt message
    | None => u "Echo: "
    end in
  Xjg.step rt (Running b) (Readline line)
  = (Running b, [Print (text_result req_id text); Flush]) /\
  Xavier.step rt (Running b) (Readline line)
  = (Running b, [Print (text_result req_id text); Flush]) /\
  XjgBackup.step rt (Running b) (Readline line)
  = (Running b, [Print (text_result req_id text); Flush]).
Proof.
  intros Hd Hm Hi Hp Hn Ha req_id text.
  destruct (echo_handled rt kvs params arguments b Hm Hi Hp Ha Hn)
    as (H1 & H2 & H3).
  assert (E : u "Echo: " ++ fmt rt (dict_get arguments "message" (str ""))
              = text).
  { unfold text, dict_get.
    destruct (dict_lookup (u "message") arguments) as [[]|]; reflexivity. }
  rewrite E in H1, H2, H3; split; [|split].
  - exact (xjg_step_handled _ _ _ _ _ _ Hd H1).
  - exact (xavier_step_handled _ _ _ _ _ _ Hd H2).
  - exact (backup_step_handled _ _ _ _ _ _ Hd H3).
Qed.

Lemma echo_is_answered_alike_witness :
  Xjg.step Sample.offline (Running true)
    (Readline (Sample.line_of Sample.echo_3))
  = (Running true, [Print (text_result (JInt 3) (u "Echo: hi")); Flush]) /\
  XjgBackup.step Sample.offline (Running true)
    (Readline (Sample.line_of Sample.echo_3))
  = (Running true, [Print (text_result (JInt 3) (u "Echo: hi")); Flush]).
Proof.
  destruct (echo_is_answered_alike Sample.offline true
              (Sample.line_of Sample.echo_3)
              (Sample.members Sample.echo_3)
              [kv "name" (str "echo");
               kv "arguments" (JObj [kv "message" (str "hi")])]
              [kv "message" (str "hi")]) as (H1 & _ & H3);
    [evaluated | evaluated | evaluated | evaluated | evaluated | evaluated |].
  split; assumption.
Defined.

(** A [reverse] call with an id on a string is answered, by [xjg.py]
    and [xavier.py] alike, with "Reversed: " and the code points of the
    string in the opposite order; the same call on that reversed string
    gives the string back: reversing is its own inverse, on the empty
    string and on any code points. *)
Theorem reverse_round_trip (rt : Runtime) (b : bool) (line line' : pystr)
  (kvs kvs' params params' arguments arguments' : list (pystr * json))
  (text : pystr) :
  decodes_to rt line (JObj kvs) ->
  dict_get kvs "method" JNull = str "tools/call" ->
  dict_get kvs "id" JNull <> JNull ->
  dict_get kvs "params" (JObj []) = JObj params ->
  dict_get params "name" JNull = str "reverse" ->
  dict_get params "arguments" (JObj []) = JObj arguments ->
  dict_get arguments "text" (str "") = JStr text ->
  decodes_to rt line' (JObj kvs') ->
  dict_get kvs' "method" JNull = str "tools/call" ->
  dict_get kvs' "id" JNull <> JNull ->
  dict_get kvs' "params" (JObj []) = JObj params' ->
  dict_get params' "name" JNull = str "reverse" ->
  dict_get params' "arguments" (JObj []) = JObj arguments' ->
  dict_get arguments' "text" (str "") = JStr (rev text) ->
  (Xjg.step rt (Running b) (Readline line)
   = (Running b,
      [Print (text_result (dict_get kvs "id" JNull)
                (u "Reversed: " ++ rev text)); Flush]) /\
   Xjg.step rt (Running b) (Readline line')
   = (Running b,
      [Print (text_result (dict_get kvs' "id" JNull)
                (u "Reversed: " ++ text)); Flush])) /\
  (Xavier.step rt (Running b) (Readline line)
   = (Running b,
      [Print (text_result (dict_get kvs "id" JNull)
                (u "Reversed: " ++ rev text)); Flush]) /\
   Xavier.step rt (Running b) (Readline line')
   = (Running b,
      [Print (text_result (dict_get kvs' "id" JNull)
                (u "Reversed: " ++ text)); Flush])).
Proof.
  intros Hd Hm Hi Hp Hn Ha Ht Hd' Hm' Hi' Hp' Hn' Ha' Ht'.
  destruct (reverse_handled rt kvs params arguments b Hm Hi Hp Ha text Hn Ht)
    as [H1 H2].
  destruct (reverse_handled rt kvs' params' arguments' b Hm' Hi' Hp' Ha'
              (rev text) Hn' Ht') as [H1' H2'].
  rewrite rev_involutive in H1', H2'.
  repeat split.
  - exact (xjg_step_handled _ _ _ _ _ _ Hd H1).
  - exact (xjg_step_handled _ _ _ _ _ _ Hd' H1').
  - exact (xavier_step_handled _ _ _ _ _ _ Hd H2).
  - exact (xavier_step_handled _ _ _ _ _ _ Hd' H2').
Qed.

Lemma reverse_round_trip_witness :
  Xjg.step Cases.offline (Running true)
    (Readline (Sample.line_of Cases.reverse_abc))
  = (Running true,
     [Print (text_result (JInt 11) (u "Reversed: cba")); Flush]) /\
  Xjg.step Cases.offline (Running true)
    (Readline (Sample.line_of Cases.reverse_cba))
  = (Running true,
     [Print (text_result (JInt 12) (u "Reversed: abc")); Flush]).
Proof.
  destruct (reverse_round_trip Cases.offline true
              (Sample.line_of Cases.reverse_abc)
              (Sample.line_of Cases.reverse_cba)
              (Sample.members Cases.reverse_abc)
              (Sample.members Cases.reverse_cba)
              [kv "name" (str "reverse");
               kv "arguments" (JObj [kv "text" (str "abc")])]
              [kv "name" (str "reverse");
               kv "arguments" (JObj [kv "text" (str "cba")])]
              [kv "text" (str "abc")] [kv "text" (str "cba")] (u "abc"))
    as [[H1 H2] _]; [evaluated .. | ].
  split; assumption.
Defined.

(** *** [strip] *)

Lemma lstrip_fixed (c : N) (r : pystr) :
  is_space c = false -> lstrip (c :: r) = c :: r.
Proof. intros H; simpl; rewrite H; reflexivity. Qed.

Lemma lstrip_idempotent (s : pystr) : lstrip (lstrip s) = lstrip s.
Proof.
  destruct (lstrip s) as [|c r] eqn:E; [reflexivity|].
  apply lstrip_fixed, (lstrip_head s c r E).
Qed.

Lemma lstrip_app_last (l : pystr) (c : N) :
  is_space c = false -> exists l', lstrip (l ++ [c]) = l' ++ [c].
Proof.
  intros H; induction l as [|d l IH]; simpl.
  - rewrite H; exists []; reflexivity.
  - destruct (is_space d); [exact IH|].
    exists (d :: l); reflexivity.
Qed.

Lemma rstrip_keeps_head (c : N) (r : pystr) :
  is_space c = false -> exists r', rstrip (c :: r) = c :: r'.
Proof.
  intros H; unfold rstrip; simpl.
  destruct (lstrip_app_last (rev r) c H) as [l' ->].
  rewrite rev_app_distr; simpl; eauto.
Qed.

Lemma rstrip_idempotent (s : pystr) : rstrip (rstrip s) = rstrip s.
Proof.
  unfold rstrip; rewrite rev_involutive, lstrip_idempotent; reflexivity.
Qed.

Lemma strip_idempotent (s : pystr) : strip (strip s) = strip s.
Proof.
  unfold strip.
  destruct (lstrip s) as [|c r] eqn:E; [reflexivity|].
  pose proof (lstrip_head s c r E) as Hc.
  destruct (rstrip_keeps_head c r Hc) as [r' E'].
  rewrite E', (lstrip_fixed c r' Hc), <- E'.
  apply rstrip_idempotent.
Qed.

(** *** The city of [xavier.py] *)

(** The city [xavier.py] asks the weather for is never empty and has no
    white space around it: it is "Frisco, Colorado" when the argument
    is missing, falsy or a blank string, and the stripped string
    otherwise. *)
Theorem xavier_city_is_never_blank (rt : Runtime) (city_arg : json)
  (city : pystr) :
  Xavier.city_of rt city_arg = Ok city ->
  city <> [] /\
  strip city = city /\
  (truthy city_arg = false -> city = u "Frisco, Colorado") /\
  (forall s, city_arg = JStr s ->
             city = if blank s then u "Frisco, Colorado" else strip s).
Proof.
  unfold Xavier.city_of.
  assert (Hdefault : u "Frisco, Colorado" <> []
                     /\ strip (u "Frisco, Colorado") = u "Frisco, Colorado")
    by (split; [discriminate | reflexivity]).
  destruct (truthy city_arg) eqn:Ht; cbn [negb].
  - destruct city_arg; cbn [strip_method]; try discriminate.
    destruct (strip s) as [|c r] eqn:E.
    + intros H; inversion H; subst city.
      destruct Hdefault as [H1 H2]; repeat split; auto.
      intros s' Hs; inversion Hs; subst s'.
      apply strip_nil_blank in E; rewrite E; reflexivity.
    + intros H; inversion H; subst city.
      repeat split; [discriminate | | discriminate |].
      * rewrite <- E; apply strip_idempotent.
      * intros s' Hs; inversion Hs; subst s'.
        destruct (blank s) eqn:Hb; [|symmetry; exact E].
        apply strip_nil_blank in Hb; congruence.
  - intros H; inversion H; subst city.
    destruct Hdefault as [H1 H2]; repeat split; auto.
    intros s ->; simpl in Ht; destruct s; [reflexivity | discriminate].
Qed.

Lemma xavier_city_is_never_blank_witness :
  strip (u "Denver") = u "Denver" /\
  u "Frisco, Colorado" <> [].
Proof.
  split.
  - apply (xavier_city_is_never_blank Sample.offline
             (JStr ([32; 9] ++ u "Denver" ++ [32])) (u "Denver")); evaluated.
  - apply (xavier_city_is_never_blank Sample.offline (JStr [32; 32])
             (u "Frisco, Colorado")); evaluated.
Defined.

(** *** The day of [get_availability] *)

(** For a date given as a string, [get_availability] never fails: a
    date that lowers to "today" gives the label of today and one that
    lowers to "tomorrow" that of the next day, whatever the case of its
    letters; any other date that [strptime] rejects is silently taken
    as today, and gives what "today" gives. *)
Theorem availability_day (rt : Runtime) (date : pystr) :
  py_lower rt (u "today") = u "today" ->
  (py_lower rt date = u "today" ->
   Xavier.day_name_of rt (JStr date) = Ok (strftime_long rt (today rt))) /\
  (py_lower rt date = u "tomorrow" ->
   Xavier.day_name_of rt (JStr date)
   = Ok (strftime_long rt (today rt + 1)%Z)) /\
  (py_lower rt date <> u "today" -> py_lower rt date <> u "tomorrow" ->
   (strptime_ymd rt (JStr date) = None ->
    Xavier.day_name_of rt (JStr date)
    = Xavier.day_name_of rt (str "today")) /\
   (forall d, strptime_ymd rt (JStr date) = Some d ->
              Xavier.day_name_of rt (JStr date) = Ok (strftime_long rt d))).
Proof.
  intros Hl; unfold Xavier.day_name_of, str; cbn [lower_method].
  split; [|split].
  - intros ->; reflexivity.
  - intros ->; reflexivity.
  - intros H1 H2.
    assert (E1 : PyStr.eqb (py_lower rt date) (u "today") = false).
    { destruct (PyStr.eqb (py_lower rt date) (u "today")) eqn:E;
        [apply pystr_eqb_eq in E; contradiction | reflexivity]. }
    assert (E2 : PyStr.eqb (py_lower rt date) (u "tomorrow") = false).
    { destruct (PyStr.eqb (py_lower rt date) (u "tomorrow")) eqn:E;
        [apply pystr_eqb_eq in E; contradiction | reflexivity]. }
    rewrite E1, E2, Hl; split.
    + intros ->; reflexivity.
    + intros d ->; reflexivity.
Qed.

Lemma availability_day_witness :
  Xavier.day_name_of Sample.offline (str "TODAY")
  = Ok (u "Wednesday, November 04, 2026") /\
  Xavier.day_name_of Sample.offline (str "Tomorrow")
  = Ok (u "Thursday, November 05, 2026") /\
  Xavier.day_name_of Sample.offline (str "next week")
  = Xavier.day_name_of Sample.offline (str "today").
Proof.
  split; [|split].
  - destruct (availability_day Sample.offline (u "TODAY"))
      as (H & _ & _); [evaluated|].
    exact (H ltac:(evaluated)).
  - destruct (availability_day Sample.offline (u "Tomorrow"))
      as (_ & H & _); [evaluated|].
    exact (H ltac:(evaluated)).
  - destruct (availability_day Sample.offline (u "next week"))
      as (_ & _ & H); [evaluated|].
    destruct H as [H _]; [evaluated | evaluated |].
    apply H; evaluated.
Defined.

(** *** The pattern of the day *)

Lemma fold_max_spec (ts : list Z) :
  forall t, In (fold_left Z.max ts t) (t :: ts)
            /\ forall x, In x (t :: ts) -> (x <= fold_left Z.max ts t)%Z.
Proof.
  induction ts as [|a ts IH]; intros t; simpl.
  - split; [auto | intros x [<- | []]; lia].
  - destruct (IH (Z.max t a)) as [Hin Hle]; split.
    + destruct Hin as [<- | Hin]; [|auto].
      destruct (Z.max_spec t a) as [[_ ->] | [_ ->]]; auto.
    + intros x [Hx | [Hx | Hx]].
      * specialize (Hle (Z.max t a) (or_introl eq_refl)); lia.
      * specialize (Hle (Z.max t a) (or_introl eq_refl)); lia.
      * apply Hle; right; assumption.
Qed.

Lemma fold_min_spec (ts : list Z) :
  forall t, In (fold_left Z.min ts t) (t :: ts)
            /\ forall x, In x (t :: ts) -> (fold_left Z.min ts t <= x)%Z.
Proof.
  induction ts as [|a ts IH]; intros t; simpl.
  - split; [auto | intros x [<- | []]; lia].
  - destruct (IH (Z.min t a)) as [Hin Hle]; split.
    + destruct Hin as [<- | Hin]; [|auto].
      destruct (Z.min_spec t a) as [[_ ->] | [_ ->]]; auto.
    + intros x [Hx | [Hx | Hx]].
      * specialize (Hle (Z.min t a) (or_introl eq_refl)); lia.
      * specialize (Hle (Z.min t a) (or_introl eq_refl)); lia.
      * apply Hle; right; assumption.
Qed.

(** The pattern [xavier.py] reports for the hourly temperatures of
    today depends on the spread between the lowest and the highest of
    them only: "Variable day" with both when they are more than 20
    degrees apart, "Moderate range" with both when more than 10, and
    "Steady temps" with the highest otherwise; with no hourly
    temperature the pattern is "Pattern data unavailable". *)
Theorem temperature_pattern_by_spread (temps : list Z) :
  Xavier.temperature_pattern [] = u "Pattern data unavailable" /\
  (temps <> [] ->
   exists lo hi,
     In lo temps /\ In hi temps /\
     (forall t, In t temps -> (lo <= t <= hi)%Z) /\
     Xavier.temperature_pattern temps
     = if (20 <? hi - lo)%Z then
         u "Variable day: " ++ of_Z lo ++ Xavier.degree ++ u "F to "
         ++ of_Z hi ++ Xavier.degree ++ u "F swing"
       else if (10 <? hi - lo)%Z then
         u "Moderate range: " ++ of_Z lo ++ Xavier.degree ++ u "F to "
         ++ of_Z hi ++ Xavier.degree ++ u "F"
       else
         u "Steady temps: around " ++ of_Z hi ++ Xavier.degree ++ u "F").
Proof.
  split; [reflexivity|].
  destruct temps as [|t ts]; [congruence|]; intros _.
  destruct (fold_max_spec ts t) as [Hmax Hmax'].
  destruct (fold_min_spec ts t) as [Hmin Hmin'].
  exists (fold_left Z.min ts t), (fold_left Z.max ts t).
  repeat split; auto.
Qed.

Lemma temperature_pattern_by_spread_witness :
  exists lo hi,
    In lo [30; 45; 38]%Z /\ In hi [30; 45; 38]%Z /\
    (forall t, In t [30; 45; 38]%Z -> (lo <= t <= hi)%Z) /\
    Xavier.temperature_pattern [30; 45; 38]%Z
    = if (20 <? hi - lo)%Z then
        u "Variable day: " ++ of_Z lo ++ Xavier.degree ++ u "F to "
        ++ of_Z hi ++ Xavier.degree ++ u "F swing"
      else if (10 <? hi - lo)%Z then
        u "Moderate range: " ++ of_Z lo ++ Xavier.degree ++ u "F to "
        ++ of_Z hi ++ Xavier.degree ++ u "F"
      else
        u "Steady temps: around " ++ of_Z hi ++ Xavier.degree ++ u "F".
Proof.
  apply (temperature_pattern_by_spread [30; 45; 38]%Z); discriminate.
Defined.

(** *** The faults of the [weather] branches *)

Lemma fetch_outcome (rt : Runtime) (url : pystr) (t : Z) (i : bool) :
  fetch rt url t i = ([Fetch url t], i, urlopen rt url t).
Proof.
  unfold fetch, bind, emit, lift; destruct (urlopen rt url t); reflexivity.
Qed.

Lemma loads_malformed (rt : Runtime) (body : pystr) (e : exn) :
  json_loads rt body = Raise e -> loads rt body = Raise e.
Proof. intros H; unfold loads; rewrite H; reflexivity. Qed.

Lemma loads_decoded (rt : Runtime) (body : pystr) (v : json) :
  json_loads rt body = Ok v -> loads rt body = Ok v.
Proof. intros H; unfold loads; rewrite H; reflexivity. Qed.

Lemma subscript_missing (rt : Runtime) (doc : list (pystr * json))
  (key : string) :
  dict_lookup (u key) doc = None ->
  subscript rt (JObj doc) (str key)
  = Raise (Exn KeyError (py_repr rt (str key))).
Proof. intros H; unfold str; cbn [subscript]; rewrite H; reflexivity. Qed.

(** What the [try:] of [xjg.py] comes to, fault by fault. *)
Section XjgFaults.
Variable rt : Runtime.
Variable city : json.
Variable enc : pystr.
Variable i : bool.
Hypothesis quoted : quote rt city = Ok enc.

Let url : pystr := weather_url enc.

Lemma xjg_try_unreachable (e : exn) :
  urlopen rt url 10 = Raise e ->
  Xjg.weather_try rt city i = ([Fetch url 10], i, Raise e).
Proof.
  intros Hu; unfold Xjg.weather_try; rewrite quoted, bind_lift_ok; cbv zeta.
  fold (weather_url enc); fold url.
  apply bind_raised; rewrite fetch_outcome, Hu; reflexivity.
Qed.

Lemma xjg_try_status (response_data : http_response) :
  urlopen rt url 10 = Ok response_data ->
  status response_data <> 200%Z ->
  Xjg.weather_try rt city i
  = ([Fetch url 10], i,
     Ok ([0x274c] ++ u " Sorry, couldn't get weather for " ++ fmt rt city
         ++ u ". Try a different city name!")).
Proof.
  intros Hu Hs; unfold Xjg.weather_try; rewrite quoted, bind_lift_ok.
  cbv zeta; fold (weather_url enc); fold url.
  assert (Hf : fetch rt url 10 i = ([Fetch url 10], i, Ok response_data))
    by (rewrite fetch_outcome, Hu; reflexivity).
  rewrite (bind_outcome _ _ _ _ _ _ Hf).
  apply Z.eqb_neq in Hs; rewrite Hs; reflexivity.
Qed.

Lemma xjg_try_malformed (response_data : http_response) (body : pystr)
  (e : exn) :
  urlopen rt url 10 = Ok response_data ->
  status response_data = 200%Z ->
  read_decode response_data = Ok body ->
  json_loads rt body = Raise e ->
  Xjg.weather_try rt city i = ([Fetch url 10], i, Raise e).
Proof.
  intros Hu Hs Hb Hl; unfold Xjg.weather_try; rewrite quoted, bind_lift_ok.
  cbv zeta; fold (weather_url enc); fold url.
  assert (Hf : fetch rt url 10 i = ([Fetch url 10], i, Ok response_data))
    by (rewrite fetch_outcome, Hu; reflexivity).
  rewrite (bind_outcome _ _ _ _ _ _ Hf), Hs, Hb, Z.eqb_refl; cbv iota beta.
  rewrite bind_lift_ok, (loads_malformed rt body e Hl); reflexivity.
Qed.

Lemma xjg_try_incomplete (response_data : http_response) (body : pystr)
  (doc : list (pystr * json)) :
  urlopen rt url 10 = Ok response_data ->
  status response_data = 200%Z ->
  read_decode response_data = Ok body ->
  json_loads rt body = Ok (JObj doc) ->
  dict_lookup (u "current_condition") doc = None ->
  Xjg.weather_try rt city i
  = ([Fetch url 10], i,
     Raise (Exn KeyError (py_repr rt (str "current_condition")))).
Proof.
  intros Hu Hs Hb Hl Hk; unfold Xjg.weather_try.
  rewrite quoted, bind_lift_ok.
  cbv zeta; fold (weather_url enc); fold url.
  assert (Hf : fetch rt url 10 i = ([Fetch url 10], i, Ok response_data))
    by (rewrite fetch_outcome, Hu; reflexivity).
  rewrite (bind_outcome _ _ _ _ _ _ Hf), Hs, Hb, Z.eqb_refl; cbv iota beta.
  rewrite bind_lift_ok, (loads_decoded rt body _ Hl), bind_lift_ok.
  rewrite (subscript_missing rt doc "current_condition" Hk); reflexivity.
Qed.

End XjgFaults.

(** What each fault of the [weather] tool of [xjg.py] turns into, once
    the city is quoted and the one fetch is made: an exception of
    [urlopen] becomes "Network error getting weather" with its text
    when it is a [URLError] and "Error processing weather data" with its
    text otherwise; an answer whose status is not 200 becomes the
    "Sorry, couldn't get weather" text and its body is not looked at; a
    body on which [json.loads] raises (it is no JSON, and the exception
    is no [URLError]), and a document without ["current_condition"],
    become "Error processing weather data" with the text of the decode
    error, and with the quoted key. *)
Theorem xjg_weather_faults (rt : Runtime) (city : json) (enc : pystr)
  (i : bool) :
  quote rt city = Ok enc ->
  let url := weather_url enc in
  let processing :=
    [0x26a0; 0xfe0f] ++ u " Error processing weather data: " in
  (forall e,
     urlopen rt url 10 = Raise e ->
     Xjg.weather_info rt city i
     = ([Fetch url 10], i,
        Ok (match exn_class_of e with
            | URLError =>
                [0x1f310] ++ u " Network error getting weather: "
                ++ exn_str e
            | _ => processing ++ exn_str e
            end))) /\
  (forall response_data,
     urlopen rt url 10 = Ok response_data ->
     status response_data <> 200%Z ->
     Xjg.weather_info rt city i
     = ([Fetch url 10], i,
        Ok ([0x274c] ++ u " Sorry, couldn't get weather for " ++ fmt rt city
            ++ u ". Try a different city name!"))) /\
  (forall response_data body e,
     urlopen rt url 10 = Ok response_data ->
     status response_data = 200%Z ->
     read_decode response_data = Ok body ->
     json_loads rt body = Raise e ->
     exn_class_of e <> URLError ->
     Xjg.weather_info rt city i
     = ([Fetch url 10], i, Ok (processing ++ exn_str e))) /\
  (forall response_data body doc,
     urlopen rt url 10 = Ok response_data ->
     status response_data = 200%Z ->
     read_decode response_data = Ok body ->
     json_loads rt body = Ok (JObj doc) ->
     dict_lookup (u "current_condition") doc = None ->
     Xjg.weather_info rt city i
     = ([Fetch url 10], i,
        Ok (processing ++ py_repr rt (str "current_condition")))).
Proof.
  intros Hq url processing; split; [|split; [|split]].
  - intros e Hu.
    rewrite (xjg_weather_fault_text _ _ _ _ _ _
               (xjg_try_unreachable rt city enc i Hq e Hu)).
    destruct (exn_class_of e); reflexivity.
  - intros response_data Hu Hs.
    unfold Xjg.weather_info, try_except.
    rewrite (xjg_try_status rt city enc i Hq response_data Hu Hs).
    reflexivity.
  - intros response_data body e Hu Hs Hb Hl He.
    rewrite (xjg_weather_fault_text _ _ _ _ _ _
               (xjg_try_malformed rt city enc i Hq _ _ _ Hu Hs Hb Hl)).
    destruct (exn_class_of e); try reflexivity; congruence.
  - intros response_data body doc Hu Hs Hb Hl Hk.
    rewrite (xjg_weather_fault_text _ _ _ _ _ _
               (xjg_try_incomplete rt city enc i Hq _ _ _ Hu Hs Hb Hl Hk)).
    reflexivity.
Qed.

Lemma xjg_weather_faults_witness :
  Xjg.weather_info Sample.offline (str "Denver") true
  = ([Fetch (u "https://wttr.in/Denver?format=j1") 10], true,
     Ok ([0x1f310]
         ++ u " Network error getting weather: <urlopen error timed out>"))
  /\
  Xjg.weather_info (Sample.serving Sample.forecast_incomplete)
    (str "Denver") true
  = ([Fetch (u "https://wttr.in/Denver?format=j1") 10], true,
     Ok ([0x26a0; 0xfe0f]
         ++ u " Error processing weather data: 'current_condition'")).
Proof.
  split.
  - destruct (xjg_weather_faults Sample.offline (str "Denver") (u "Denver")
                true) as (H & _); [evaluated|].
    exact (H (Exn URLError (u "<urlopen error timed out>"))
             ltac:(evaluated)).
  - destruct (xjg_weather_faults (Sample.serving Sample.forecast_incomplete)
                (str "Denver") (u "Denver") true) as (_ & _ & _ & H);
      [evaluated|].
    exact (H (HttpResponse 200
                (Ok (Sample.encode Sample.forecast_incomplete)))
             (Sample.encode Sample.forecast_incomplete)
             (Sample.members Sample.forecast_incomplete)
             ltac:(evaluated) ltac:(evaluated) ltac:(evaluated)
             ltac:(evaluated) ltac:(evaluated)).
Defined.

(** What the [try:] of [xavier.py] comes to, fault by fault. *)
Section XavierFaults.
Variable rt : Runtime.
Variable city enc : pystr.
Variable i : bool.
Hypothesis quoted : quote rt (JStr city) = Ok enc.

Let url : pystr := weather_url enc.

Lemma xavier_try_unreachable (e : exn) :
  urlopen rt url 15 = Raise e ->
  Xavier.weather_try rt city i = ([Fetch url 15], i, Raise e).
Proof.
  intros Hu; unfold Xavier.weather_try; rewrite quoted, bind_lift_ok.
  cbv zeta; fold (weather_url enc); fold url.
  apply bind_raised; rewrite fetch_outcome, Hu; reflexivity.
Qed.

Lemma xavier_try_status (response_data : http_response) :
  urlopen rt url 15 = Ok response_data ->
  status response_data <> 200%Z ->
  Xavier.weather_try rt city i
  = ([Fetch url 15], i,
     Ok ([0xe2; 0x152] ++ u " Sorry, couldn't get weather for " ++ city
         ++ u ". Try a different city name or check spelling!")).
Proof.
  intros Hu Hs; unfold Xavier.weather_try; rewrite quoted, bind_lift_ok.
  cbv zeta; fold (weather_url enc); fold url.
  assert (Hf : fetch rt url 15 i = ([Fetch url 15], i, Ok response_data))
    by (rewrite fetch_outcome, Hu; reflexivity).
  rewrite (bind_outcome _ _ _ _ _ _ Hf).
  apply Z.eqb_neq in Hs; rewrite Hs; reflexivity.
Qed.

Lemma xavier_try_malformed (response_data : http_response) (body : pystr)
  (e : exn) :
  urlopen rt url 15 = Ok response_data ->
  status response_data = 200%Z ->
  read_decode response_data = Ok body ->
  json_loads rt body = Raise e ->
  Xavier.weather_try rt city i = ([Fetch url 15], i, Raise e).
Proof.
  intros Hu Hs Hb Hl; unfold Xavier.weather_try.
  rewrite quoted, bind_lift_ok.
  cbv zeta; fold (weather_url enc); fold url.
  assert (Hf : fetch rt url 15 i = ([Fetch url 15], i, Ok response_data))
    by (rewrite fetch_outcome, Hu; reflexivity).
  rewrite (bind_outcome _ _ _ _ _ _ Hf), Hs, Hb, Z.eqb_refl; cbv iota beta.
  rewrite bind_lift_ok, (loads_malformed rt body e Hl); reflexivity.
Qed.

Lemma xavier_try_incomplete (response_data : http_response) (body : pystr)
  (doc : list (pystr * json)) :
  urlopen rt url 15 = Ok response_data ->
  status response_data = 200%Z ->
  read_decode response_data = Ok body ->
  json_loads rt body = Ok (JObj doc) ->
  dict_lookup (u "current_condition") doc = None ->
  Xavier.weather_try rt city i
  = ([Fetch url 15], i,
     Raise (Exn KeyError (py_repr rt (str "current_condition")))).
Proof.
  intros Hu Hs Hb Hl Hk; unfold Xavier.weather_try.
  rewrite quoted, bind_lift_ok.
  cbv zeta; fold (weather_url enc); fold url.
  assert (Hf : fetch rt url 15 i = ([Fetch url 15], i, Ok response_data))
    by (rewrite fetch_outcome, Hu; reflexivity).
  rewrite (bind_outcome _ _ _ _ _ _ Hf), Hs, Hb, Z.eqb_refl; cbv iota beta.
  rewrite bind_lift_ok, (loads_decoded rt body _ Hl), bind_lift_ok.
  rewrite (subscript_missing rt doc "current_condition" Hk); reflexivity.
Qed.

End XavierFaults.

(** What each fault of the [weather] tool of [xavier.py] turns into,
    once the city is quoted and the one fetch is made: an exception of
    [urlopen] becomes the text of the [except] clause of its class,
    each naming the city; an answer whose status is not 200 becomes the
    "Sorry, couldn't get weather" text and its body is not looked at; a
    body that is no JSON, on which [json.loads] raises
    [json.JSONDecodeError], becomes "Error parsing weather data ...
    Invalid response format"; a document without ["current_condition"]
    becomes "Incomplete weather data ... Missing" with the quoted
    key. *)
Theorem xavier_weather_faults (rt : Runtime) (city enc : pystr) (i : bool) :
  quote rt (JStr city) = Ok enc ->
  let url := weather_url enc in
  let warning := [0xe2; 0x161; 0xa0; 0xef; 0xb8] in
  (forall e,
     urlopen rt url 15 = Raise e ->
     Xavier.weather_info rt city i
     = ([Fetch url 15], i,
        Ok (match exn_class_of e with
            | URLError =>
                [0x11f; 0x178; 0x152]
                ++ u " Network error getting weather for " ++ city
                ++ u ": " ++ exn_str e
            | JSONDecodeError =>
                warning ++ u " Error parsing weather data for " ++ city
                ++ u ": Invalid response format"
            | KeyError =>
                warning ++ u " Incomplete weather data for " ++ city
                ++ u ": Missing " ++ exn_str e
            | _ =>
                warning ++ u " Error getting weather for " ++ city
                ++ u ": " ++ exn_str e
            end))) /\
  (forall response_data,
     urlopen rt url 15 = Ok response_data ->
     status response_data <> 200%Z ->
     Xavier.weather_info rt city i
     = ([Fetch url 15], i,
        Ok ([0xe2; 0x152] ++ u " Sorry, couldn't get weather for " ++ city
            ++ u ". Try a different city name or check spelling!"))) /\
  (forall response_data body e,
     urlopen rt url 15 = Ok response_data ->
     status response_data = 200%Z ->
     read_decode response_data = Ok body ->
     json_loads rt body = Raise e ->
     exn_class_of e = JSONDecodeError ->
     Xavier.weather_info rt city i
     = ([Fetch url 15], i,
        Ok (warning ++ u " Error parsing weather data for " ++ city
            ++ u ": Invalid response format"))) /\
  (forall response_data body doc,
     urlopen rt url 15 = Ok response_data ->
     status response_data = 200%Z ->
     read_decode response_data = Ok body ->
     json_loads rt body = Ok (JObj doc) ->
     dict_lookup (u "current_condition") doc = None ->
     Xavier.weather_info rt city i
     = ([Fetch url 15], i,
        Ok (warning ++ u " Incomplete weather data for " ++ city
            ++ u ": Missing " ++ py_repr rt (str "current_condition")))).
Proof.
  intros Hq url warning; split; [|split; [|split]].
  - intros e Hu.
    rewrite (xavier_weather_fault_text _ _ _ _ _ _
               (xavier_try_unreachable rt city enc i Hq e Hu)).
    destruct (exn_class_of e); reflexivity.
  - intros response_data Hu Hs.
    unfold Xavier.weather_info, try_except.
    rewrite (xavier_try_status rt city enc i Hq response_data Hu Hs).
    reflexivity.
  - intros response_data body e Hu Hs Hb Hl He.
    rewrite (xavier_weather_fault_text _ _ _ _ _ _
               (xavier_try_malformed rt city enc i Hq _ _ _ Hu Hs Hb Hl)).
    rewrite He; reflexivity.
  - intros response_data body doc Hu Hs Hb Hl Hk.
    rewrite (xavier_weather_fault_text _ _ _ _ _ _
               (xavier_try_incomplete rt city enc i Hq _ _ _ Hu Hs Hb Hl
                  Hk)).
    reflexivity.
Qed.

Lemma xavier_weather_faults_witness :
  Xavier.weather_info (Sample.serving Sample.forecast_incomplete)
    (u "Denver") true
  = ([Fetch (u "https://wttr.in/Denver?format=j1") 15], true,
     Ok ([0xe2; 0x161; 0xa0; 0xef; 0xb8]
         ++ u " Incomplete weather data for Denver: Missing "
         ++ u "'current_condition'")).
Proof.
  destruct (xavier_weather_faults (Sample.serving Sample.forecast_incomplete)
              (u "Denver") (u "Denver") true) as (_ & _ & _ & H);
    [evaluated|].
  exact (H (HttpResponse 200
              (Ok (Sample.encode Sample.forecast_incomplete)))
           (Sample.encode Sample.forecast_incomplete)
           (Sample.members Sample.forecast_incomplete)
           ltac:(evaluated) ltac:(evaluated) ltac:(evaluated)
           ltac:(evaluated) ltac:(evaluated)).
Defined.

(* ===================================================================== *)
(** ** Further properties: the scripts side by side, and the lines *)
(* ===================================================================== *)

Lemma xjg_xavier_call_tool (rt : Runtime) (req req_id name : json) :
  eq_str name "word_count" = false ->
  eq_str name "weather" = false ->
  eq_str name "get_availability" = false ->
  Xavier.call_tool rt req req_id name = Xjg.call_tool rt req req_id name.
Proof.
  intros H1 H2 H3; unfold Xavier.call_tool, Xjg.call_tool.
  rewrite H1, H2, H3; reflexivity.
Qed.

Lemma xjg_backup_call_tool (rt : Runtime) (req req_id name : json) :
  eq_str name "reverse" = false ->
  eq_str name "word_count" = false ->
  eq_str name "weather" = false ->
  XjgBackup.call_tool rt req req_id name = Xjg.call_tool rt req req_id name.
Proof.
  intros H1 H2 H3; unfold XjgBackup.call_tool, Xjg.call_tool.
  rewrite H1, H2, H3; reflexivity.
Qed.

(** On every document that is neither an [initialize] nor a
    [tools/list] message, [xavier.py] does exactly what [xjg.py] does
    unless the tool named is [word_count], [weather] or
    [get_availability], and [xjg_backup.py] does exactly what [xjg.py]
    does unless the tool named is [reverse], [word_count] or [weather]:
    same output, same flag, same exception. *)
Theorem scripts_agree_on_shared_requests (rt : Runtime) (req : json)
  (i : bool) :
  has_method req "initialize" = false ->
  has_method req "tools/list" = false ->
  (names_tool req "word_count" = false ->
   names_tool req "weather" = false ->
   names_tool req "get_availability" = false ->
   Xavier.handle rt req i = Xjg.handle rt req i) /\
  (names_tool req "reverse" = false ->
   names_tool req "word_count" = false ->
   names_tool req "weather" = false ->
   XjgBackup.handle rt req i = Xjg.handle rt req i).
Proof.
  intros Hi Hl.
  destruct (is_dict req) eqn:Hd.
  2:{ rewrite (xjg_handle_not_dict rt req Hd),
        (xavier_handle_not_dict rt req Hd),
        (backup_handle_not_dict rt req i Hd); split; reflexivity. }
  destruct req; try discriminate.
  rewrite xjg_handle_dict, xavier_handle_dict, backup_handle_dict.
  cbn [has_method names_tool] in *; rewrite Hi, Hl.
  destruct (eq_str (dict_get kvs "method" JNull) "tools/call");
    [|split; reflexivity].
  destruct (is_not_none (dict_get kvs "id" JNull)); [|split; reflexivity].
  destruct (dict_get kvs "params" (JObj [])) as [| | | | | |params] eqn:Hp;
    try (unfold tool_name_of; cbn [get]; rewrite Hp; split; reflexivity).
  rewrite (tool_name_of_dict rt kvs params Hp), !bind_lift_ok.
  split; intros H1 H2 H3.
  - rewrite (xjg_xavier_call_tool rt _ _ _ H1 H2 H3); reflexivity.
  - rewrite (xjg_backup_call_tool rt _ _ _ H1 H2 H3); reflexivity.
Qed.

Lemma scripts_agree_on_shared_requests_witness :
  Xavier.handle Sample.offline Sample.unknown_tool_9 true
  = Xjg.handle Sample.offline Sample.unknown_tool_9 true /\
  XjgBackup.handle Sample.offline Sample.echo_3 true
  = Xjg.handle Sample.offline Sample.echo_3 true.
Proof.
  split.
  - destruct (scripts_agree_on_shared_requests Sample.offline
                Sample.unknown_tool_9 true) as [H _];
      [evaluated | evaluated |].
    apply H; evaluated.
  - destruct (scripts_agree_on_shared_requests Sample.offline
                Sample.echo_3 true) as [_ H];
      [evaluated | evaluated |].
    apply H; evaluated.
Defined.

(** *** White space around a line *)

Section Padding.
Variable rt : Runtime.
Variable handle : json -> M unit.

Lemma iteration_blank (b : bool) (line : pystr) :
  line <> [] -> blank line = true ->
  iteration rt handle b line = (Running b, []).
Proof.
  intros Hn Hb; unfold iteration.
  destruct line as [|c line]; [congruence|].
  apply strip_nil_blank in Hb; rewrite Hb; reflexivity.
Qed.

Lemma iteration_stripped (b : bool) (line : pystr) :
  blank line = false ->
  iteration rt handle b line = iteration rt handle b (strip line).
Proof.
  intros Hb; unfold iteration.
  destruct line as [|c line]; [discriminate|].
  rewrite strip_idempotent.
  destruct (strip (c :: line)) as [|d s] eqn:E; [|reflexivity].
  apply strip_nil_blank in E; congruence.
Qed.

End Padding.

(** In the three scripts a line that holds white space only (an empty
    line with its line break, for one) is skipped and is not taken for
    the end of the input; on any other line the white space before and
    after the message, line breaks included, is ignored: the line is
    processed as its stripped text is. *)
Theorem white_space_around_a_line (rt : Runtime) (b : bool) (line : pystr) :
  (line <> [] -> blank line = true ->
   Xjg.step rt (Running b) (Readline line) = (Running b, []) /\
   Xavier.step rt (Running b) (Readline line) = (Running b, []) /\
   XjgBackup.step rt (Running b) (Readline line) = (Running b, [])) /\
  (blank line = false ->
   Xjg.step rt (Running b) (Readline line)
   = Xjg.step rt (Running b) (Readline (strip line)) /\
   Xavier.step rt (Running b) (Readline line)
   = Xavier.step rt (Running b) (Readline (strip line)) /\
   XjgBackup.step rt (Running b) (Readline line)
   = XjgBackup.step rt (Running b) (Readline (strip line))).
Proof.
  split.
  - intros Hn Hb; repeat split; apply iteration_blank; assumption.
  - intros Hb; repeat split; apply iteration_stripped; assumption.
Qed.

Lemma white_space_around_a_line_witness :
  Xjg.step Sample.offline (Running true) (Readline [32; 13; 10])
  = (Running true, []) /\
  Xjg.step Sample.offline (Running true)
    (Readline (Cases.padded_line_of Sample.ping_10))
  = Xjg.step Sample.offline (Running true)
      (Readline (Sample.encode Sample.ping_10)).
Proof.
  split.
  - destruct (white_space_around_a_line Sample.offline true [32; 13; 10])
      as [H _].
    apply H; evaluated.
  - destruct (white_space_around_a_line Sample.offline true
                (Cases.padded_line_of Sample.ping_10)) as [_ H].
    destruct H as [H _]; [evaluated|].
    replace (Sample.encode Sample.ping_10)
      with (strip (Cases.padded_line_of Sample.ping_10)) by evaluated.
    exact H.
Defined.
